(** * nocrux: the daemon lifecycle controller of [nocrux.py]

    A shallow embedding of the per-user daemon manager: the PID file
    reader ([Daemon.pid]), the existence probe ([process_exists]), the
    status derivation, the start and stop protocols and the command
    dispatch of [main].

    The operating system is an explicit environment [os_env] that
    answers every system call as a function of the number of calls made
    so far, so that every behaviour of the process table (a process that
    ignores a signal, dies late, or vanishes in a race window) is one
    environment.  The file system, the terminal output, the clock and
    the list of calls performed are the state [world] threaded through
    the code by a state-and-exception monad.

    The path helper [abspath], the constructor of [Daemon],
    [register_daemon] and the part of [main] that selects the daemons
    of a command are embedded as well. *)

From Stdlib Require Import ZArith QArith Qround Lqa String Ascii List Lia.
From stdpp Require Import base option gmap strings pretty.
Import ListNotations.

Local Open Scope string_scope.
Local Open Scope Z_scope.

(** ** Constants of the platform ([errno], [signal]) *)

Definition EPERM : Z := 1.
Definition ENOENT : Z := 2.
Definition ESRCH : Z := 3.
Definition EACCES : Z := 13.

Definition SIGKILL : Z := 9.
Definition SIGTERM : Z := 15.

(** ** Python values, exceptions and results *)

(** The values [Daemon.start] and [Daemon.stop] hand back to [main]:
    [start] returns [True], [stop] falls off its end and returns [None]. *)
Inductive pyval :=
| PyNone
| PyBool (b : bool).

Definition truthy (v : pyval) : bool :=
  match v with
  | PyNone => false
  | PyBool b => b
  end.

Inductive exn :=
| OSError (errno : Z)
| KeyError (key : string)            (* the argument: a key or a message *)
| OverflowError
| SystemExit (code : Z).

Inductive result (A : Type) :=
| Ok (a : A)
| Raise (e : exn).
Arguments Ok {A} a.
Arguments Raise {A} e.

(** ** The world: file system, terminal, clock, performed calls *)

(** The files: a path either holds a regular file, or opening it fails
    with the given [errno] (no permission, a directory, ...).  At a path
    that is not in the map there is no file.  Directories are not part
    of the map: whether one exists is the environment's answer, and
    creating one leaves the files as they are. *)
Inductive fnode :=
| Regular (content : string)
| Faulty (errno : Z).

(** [os.fork] splits the execution in two flows. *)
Inductive flow :=
| Supervising
| Detached.

(** The calls whose only answer is success or an [errno]. *)
Inductive syscall :=
| Kill (pid sig : Z)
| Setsid
| Setuid (uid : Z)
| Setgid (gid : Z)
| Makedirs (path : string)
| Chdir (path : string)
| Dup2 (path : string) (fd : Z).

Inductive event :=
| ECall (c : syscall) (err : option Z)
| EExists (path : string) (b : bool)
| EOpen (path mode : string) (err : option Z)
| EWrite (path data : string)
| EClose (path : string)
| EFork (r : positive + Z)
| EWaitpid (pid status : Z)
| EPopen (cmd : list string) (r : positive + Z)
| ESleep (d : Q)
| EExit (code : Z).

Record passwd := Passwd {
  pw_dir : string;
  pw_uid : Z;
  pw_gid : Z
}.

(** The process id of a started program, [Popen(..).pid]: a positive
    number of the C type [pid_t]. *)
Record pid_t := Pid {
  pid_val : positive;
  pid_range : (Z.pos pid_val <? 2 ^ 31) = true
}.

(** The environment.  The [nat] argument is the number of calls the
    program has performed so far. *)
Record os_env := OsEnv {
  os_call : nat -> syscall -> option Z;         (* [Some errno]: OSError *)
  os_exists : nat -> string -> bool;            (* os.path.exists *)
  os_fork : nat -> positive + Z;                (* child's pid, or errno *)
  os_popen : nat -> list string -> pid_t + Z;   (* pid of the program, or errno *)
  os_getpwnam : string -> option passwd;        (* pwd.getpwnam, [None]: KeyError *)
  os_getgrnam : string -> option Z;             (* grp.getgrnam(..).gr_gid *)
  os_home : option string;                      (* os.environ['HOME'] *)
  os_expanduser : option string -> string -> string;
                                                (* os.path.expanduser, given HOME *)
  py_repr : option string -> string             (* '{!r}'.format(..) *)
}.

Record world := World {
  w_fs : gmap string fnode;
  w_out : list string;               (* what [print] wrote, one entry a call *)
  w_clock : Q;                       (* time.time() *)
  w_trace : list (flow * event);     (* the calls performed, oldest first *)
  w_flow : flow;                     (* the flow that is executing *)
  w_log_newline : gmap string bool;  (* [_log_newline] of each daemon object *)
  w_exit : gmap Z Z                  (* wait status of each terminated child *)
}.

Definition emit (e : event) (w : world) : world :=
  World (w_fs w) (w_out w) (w_clock w) (w_trace w ++ [(w_flow w, e)])
        (w_flow w) (w_log_newline w) (w_exit w).

Definition set_fs (fs : gmap string fnode) (w : world) : world :=
  World fs (w_out w) (w_clock w) (w_trace w) (w_flow w) (w_log_newline w) (w_exit w).

(** ** The state-and-exception monad *)

Definition M (A : Type) : Type := world -> result A * world.

Definition ret {A} (a : A) : M A := fun w => (Ok a, w).
Definition raise {A} (e : exn) : M A := fun w => (Raise e, w).

Definition bind {A B} (m : M A) (k : A -> M B) : M B := fun w =>
  match m w with
  | (Ok a, w') => k a w'
  | (Raise e, w') => (Raise e, w')
  end.

(** [try: m except ...: h]: the handler re-raises what its [except]
    clause does not match. *)
Definition try_except {A} (m : M A) (h : exn -> M A) : M A := fun w =>
  match m w with
  | (Ok a, w') => (Ok a, w')
  | (Raise e, w') => h e w'
  end.

Declare Scope py_scope.
Delimit Scope py_scope with py.
Notation "x <- m ;; k" := (bind m (fun x => k))
  (at level 100, m at next level, right associativity) : py_scope.
Notation "m ;;; k" := (bind m (fun _ => k))
  (at level 100, right associativity) : py_scope.
Local Open Scope py_scope.

(** ** [int(str)] and [str(int)] *)

Definition LF : ascii := "010"%char.
Definition CR : ascii := "013"%char.
Definition newline : string := String LF "".

(** Whitespace that [int] strips from ASCII text: tab to carriage
    return, and the space.  The text of a PID file is taken to be ASCII:
    a character above 127 is neither blank nor digit here, where [int]
    on decoded text knows further blanks and digits and the decoding
    itself may fail. *)
Definition is_space (c : ascii) : bool :=
  let n := nat_of_ascii c in
  ((9 <=? n)%nat && (n <=? 13)%nat) || (n =? 32)%nat.

Definition digit_val (c : ascii) : option Z :=
  let n := nat_of_ascii c in
  if ((48 <=? n)%nat && (n <=? 57)%nat)%bool then Some (Z.of_nat (n - 48)) else None.

Fixpoint lstrip (l : list ascii) : list ascii :=
  match l with
  | c :: r => if is_space c then lstrip r else l
  | [] => []
  end.

Definition strip (l : list ascii) : list ascii :=
  rev (lstrip (rev (lstrip l))).

(** Digits with single underscores between them. *)
Fixpoint parse_digits (acc : Z) (after_digit : bool) (l : list ascii) : option Z :=
  match l with
  | [] => if after_digit then Some acc else None
  | c :: r =>
      match digit_val c with
      | Some v => parse_digits (10 * acc + v) true r
      | None =>
          if (Ascii.eqb c "_" && after_digit)%bool then parse_digits acc false r
          else None
      end
  end.

(** [sys.int_max_str_digits]: since CPython 3.11 [int] refuses a
    numeral of more digits. *)
Definition int_max_str_digits : Z := 4300.

Definition count_digits (l : list ascii) : nat :=
  length (List.filter (fun c => bool_decide (is_Some (digit_val c))) l).

(** [int(s)]; [None] is [ValueError]. *)
Definition py_int (s : string) : option Z :=
  match strip (list_ascii_of_string s) with
  | c :: r =>
      let numeral := if (Ascii.eqb c "-" || Ascii.eqb c "+")%bool then r else c :: r in
      if int_max_str_digits <? Z.of_nat (count_digits numeral) then None
      else if Ascii.eqb c "-" then Z.opp <$> parse_digits 0 false r
      else if Ascii.eqb c "+" then parse_digits 0 false r
      else parse_digits 0 false (c :: r)
  | [] => None
  end.

(** [str(n)] for an integer; the integers the program formats come from
    [int] or are process ids, and so stay below the length that [str]
    refuses. *)
Definition py_str (n : Z) : string := pretty n.

(** [fp.readline()] on a file opened in text mode: the first line with
    its end, where a carriage return ends a line too and is read as a
    line feed. *)
Fixpoint readline (s : string) : string :=
  match s with
  | EmptyString => EmptyString
  | String c r =>
      if (Ascii.eqb c LF || Ascii.eqb c CR)%bool then newline
      else String c (readline r)
  end.

(** ** [os.path.dirname] and [shlex.quote] *)

Definition slash : ascii := "/"%char.

(** The characters up to the last slash, the path read backwards. *)
Fixpoint upto_slash (rev_path : list ascii) : list ascii :=
  match rev_path with
  | [] => []
  | c :: r => if Ascii.eqb c slash then rev_path else upto_slash r
  end.

Fixpoint drop_slashes (l : list ascii) : list ascii :=
  match l with
  | c :: r => if Ascii.eqb c slash then drop_slashes r else l
  | [] => []
  end.

(** [head = p[:p.rfind('/') + 1]], without its trailing slashes unless
    it consists of slashes only. *)
Definition dirname (p : string) : string :=
  let rev_head := upto_slash (rev (list_ascii_of_string p)) in
  if forallb (Ascii.eqb slash) rev_head then string_of_list_ascii (rev rev_head)
  else string_of_list_ascii (rev (drop_slashes rev_head)).

(** The characters [shlex.quote] leaves alone: letters, digits and
    [_@%+=:,./-]. *)
Definition is_safe_char (c : ascii) : bool :=
  let n := nat_of_ascii c in
  ((48 <=? n)%nat && (n <=? 57)%nat) || ((65 <=? n)%nat && (n <=? 90)%nat)
  || ((97 <=? n)%nat && (n <=? 122)%nat)
  || existsb (Ascii.eqb c) (list_ascii_of_string "_@%+=:,./-").

Definition double_quote : string := String (ascii_of_nat 34) "".

(** Every single quote becomes a closing quote, a double-quoted single
    quote and an opening quote. *)
Fixpoint quote_escape (s : string) : string :=
  match s with
  | EmptyString => EmptyString
  | String c r =>
      if Ascii.eqb c "'" then
        "'" ++ double_quote ++ "'" ++ double_quote ++ "'" ++ quote_escape r
      else String c (quote_escape r)
  end.

Definition shlex_quote (s : string) : string :=
  if String.eqb s "" then "''"
  else if forallb is_safe_char (list_ascii_of_string s) then s
  else "'" ++ quote_escape s ++ "'".

(** ** Daemon specifications and configuration *)

(** The attributes of a [Daemon] object after [__init__], where [stdin]
    and [stdout] and [pidfile] have received their defaults. *)
Record Daemon := MkDaemon {
  name : string;
  prog : string;
  args : list string;
  cwd : option string;
  user : option string;
  group : option string;
  stdin : string;
  stdout : string;
  stderr : option string;
  pidfile : string
}.

Definition Status_Started : string := "started".
Definition Status_Stopped : string := "stopped".

Record Config := MkConfig {
  root_dir : string;
  kill_timeout : Q
}.

(** The values [load_config] gives the two parameters before it runs
    the configuration file; [root] is [expanduser('~/.nocrux')]. *)
Definition default_config (root : string) : Config := MkConfig root 10.

(** Python truth of an attribute that is [None] or a string. *)
Definition str_truthy (o : option string) : bool :=
  match o with
  | Some s => negb (String.eqb s "")
  | None => false
  end.

Section Nocrux.

Variable os : os_env.
Variable config : Config.

(** ** Primitive operations *)

Definition step (w : world) : nat := length (w_trace w).

(** A call answered by the environment with success or an [errno]. *)
Definition sys (c : syscall) : M unit := fun w =>
  match os_call os (step w) c with
  | None => (Ok tt, emit (ECall c None) w)
  | Some e => (Raise (OSError e), emit (ECall c (Some e)) w)
  end.

(** [os.kill]: a pid that does not fit the C type [pid_t] is refused
    with [OverflowError] before any call is made. *)
Definition pid_fits (pid : Z) : bool :=
  (- 2 ^ 31 <=? pid) && (pid <? 2 ^ 31).

(** The signal goes to other processes; the caller goes on after the
    call.  A signal that reaches the caller itself (pid 0, -1, its own
    pid or process group) and ends it is outside this embedding. *)
Definition os_kill (pid sig : Z) : M unit :=
  if pid_fits pid then sys (Kill pid sig) else raise OverflowError.

(** [open(path, 'r')] followed by reading the whole content. *)
Definition open_read (path : string) : M string := fun w =>
  match w_fs w !! path with
  | None => (Raise (OSError ENOENT), emit (EOpen path "r" (Some ENOENT)) w)
  | Some (Faulty e) => (Raise (OSError e), emit (EOpen path "r" (Some e)) w)
  | Some (Regular s) => (Ok s, emit (EOpen path "r" None) w)
  end.

(** ** [process_exists] *)

Definition process_exists (pid : Z) : M bool :=
  if pid =? 0 then ret false
  else
    try_except (os_kill pid 0 ;;; ret true)
      (fun exc => match exc with
                  | OSError _ => ret false
                  | _ => raise exc
                  end).

(** ** [Daemon.pid] and [Daemon.status] *)

(** The content of a PID file is ASCII text, which always decodes. *)
Definition Daemon_pid (d : Daemon) : M Z :=
  pid_str <- try_except
               (s <- open_read (pidfile d) ;; ret (readline s))
               (fun exc => match exc with
                           | OSError e =>
                               if negb (e =? ENOENT) then raise exc else ret ""
                           | _ => raise exc
                           end) ;;
  match py_int pid_str with
  | Some n => ret n
  | None => ret 0
  end.

Definition Daemon_status (d : Daemon) : M string :=
  p <- Daemon_pid d ;;
  b <- process_exists p ;;
  if b then ret Status_Started else ret Status_Stopped.

(** ** [Daemon.log] *)

Definition contains_newline (s : string) : bool :=
  existsb (Ascii.eqb LF) (list_ascii_of_string s).

(** [print] of the message words with [end=end_], with the daemon's
    name in front when the previous message ended its line. *)
Definition Daemon_log (d : Daemon) (message : list string) (end_ : string) : M unit :=
  fun w =>
    let fresh := default true (w_log_newline w !! name d) in
    let words := if fresh then ("-  [" ++ name d ++ "]") :: message else message in
    (Ok tt,
     World (w_fs w) (w_out w ++ [String.concat " " words ++ end_]) (w_clock w)
           (w_trace w) (w_flow w)
           (<[name d := contains_newline end_]> (w_log_newline w)) (w_exit w)).

(** ** [Daemon.stop] *)

(** Computations that contain the polling loop: [None] when the fuel of
    the loop is used up. *)
Definition P (A : Type) : Type := world -> option (result A * world).

Definition lift {A} (m : M A) : P A := fun w => Some (m w).

Definition pbind {A B} (m : P A) (k : A -> P B) : P B := fun w =>
  match m w with
  | Some (Ok a, w') => k a w'
  | Some (Raise e, w') => Some (Raise e, w')
  | None => None
  end.

Notation "x <~ m ;; k" := (pbind m (fun x => k))
  (at level 100, m at next level, right associativity) : py_scope.

(** [try: m except ...: h else: els]: [els] runs after a [m] that did
    not raise and is not protected by the handler. *)
Definition try_except_else {A B} (m : M A) (h : exn -> P B) (els : A -> P B) : P B :=
  fun w =>
    match m w with
    | (Ok a, w') => els a w'
    | (Raise e, w') => h e w'
    end.

Definition Qlt_bool (x y : Q) : bool := negb (Qle_bool y x).

Definition time_time : M Q := fun w => (Ok (w_clock w), w).

Definition time_sleep (d : Q) : M unit := fun w =>
  (Ok tt,
   World (w_fs w) (w_out w) (w_clock w + d)%Q (w_trace w ++ [(w_flow w, ESleep d)])
         (w_flow w) (w_log_newline w) (w_exit w)).

(** [while time.time() - tstart < config.kill_timeout and
    process_exists(pid): time.sleep(0.5)].  The clock moves by what
    [time.sleep] asks for; the calls themselves take no time. *)
Fixpoint stop_wait (fuel : nat) (pid : Z) (tstart : Q) : P unit := fun w =>
  match fuel with
  | O => None
  | S fuel' =>
      if Qlt_bool (w_clock w - tstart)%Q (kill_timeout config) then
        match process_exists pid w with
        | (Ok true, w1) =>
            match time_sleep (1 # 2) w1 with
            | (Ok _, w2) => stop_wait fuel' pid tstart w2
            | (Raise e, w2) => Some (Raise e, w2)
            end
        | (Ok false, w1) => Some (Ok tt, w1)
        | (Raise e, w1) => Some (Raise e, w1)
        end
      else Some (Ok tt, w)
  end.

Definition Daemon_stop (fuel : nat) (d : Daemon) : P pyval :=
  pid <~ lift (Daemon_pid d) ;;
  try_except_else (os_kill pid SIGTERM)
    (fun exc => match exc with
                | OSError _ => lift (Daemon_log d ["not started"] newline ;;; ret PyNone)
                | _ => lift (raise exc)
                end)
    (fun _ =>
       _ <~ lift (Daemon_log d ["stopping..."] " ") ;;
       tstart <~ lift time_time ;;
       _ <~ stop_wait fuel pid tstart ;;
       b <~ lift (process_exists pid) ;;
       if b : bool then
         _ <~ lift (Daemon_log d ["not stopped."] " ") ;;
         try_except_else (os_kill pid SIGKILL)
           (fun exc => match exc with
                       | OSError _ => lift (Daemon_log d ["stopped"] newline ;;; ret PyNone)
                       | _ => lift (raise exc)
                       end)
           (fun _ => lift (Daemon_log d ["SIGKILL"] newline ;;; ret PyNone))
       else
         lift (Daemon_log d ["stopped"] newline ;;; ret PyNone)).

(** ** [Daemon.start] *)

Definition ECHILD : Z := 10.

(** [makedirs]: create the directory unless it exists.  The files of
    the world are the same before and after. *)
Definition makedirs (path : string) : M unit := fun w =>
  let b := os_exists os (step w) path in
  let w1 := emit (EExists path b) w in
  if negb b then sys (Makedirs path) w1 else (Ok tt, w1).

(** [open(path, 'w')]: the file is created or emptied. *)
Definition open_write (path : string) : M unit := fun w =>
  match w_fs w !! path with
  | Some (Faulty e) => (Raise (OSError e), emit (EOpen path "w" (Some e)) w)
  | _ => (Ok tt, emit (EOpen path "w" None) (set_fs (<[path := Regular ""]> (w_fs w)) w))
  end.

(** [open(path, 'a+')]: the file is created when missing and kept
    otherwise. *)
Definition open_append (path : string) : M unit := fun w =>
  match w_fs w !! path with
  | Some (Faulty e) => (Raise (OSError e), emit (EOpen path "a+" (Some e)) w)
  | Some (Regular _) => (Ok tt, emit (EOpen path "a+" None) w)
  | None => (Ok tt, emit (EOpen path "a+" None) (set_fs (<[path := Regular ""]> (w_fs w)) w))
  end.

(** [fp.write(data)].  The source's file object buffers the data until
    [close]; write and close both happen in the detached flow while the
    only reader waits for its exit, so the data is stored at once. *)
Definition file_write (path data : string) : M unit := fun w =>
  let old := match w_fs w !! path with Some (Regular s) => s | _ => "" end in
  (Ok tt, emit (EWrite path data) (set_fs (<[path := Regular (old ++ data)]> (w_fs w)) w)).

Definition file_close (path : string) : M unit := fun w =>
  (Ok tt, emit (EClose path) w).

(** [try: m finally: fin] *)
Definition try_finally {A} (m : M A) (fin : M unit) : M A := fun w =>
  match m w with
  | (r, w1) =>
      match fin w1 with
      | (Ok _, w2) => (r, w2)
      | (Raise e, w2) => (Raise e, w2)
      end
  end.

Definition Popen (cmd : list string) : M Z := fun w =>
  match os_popen os (step w) cmd with
  | inl p => (Ok (Z.pos (pid_val p)), emit (EPopen cmd (inl (pid_val p))) w)
  | inr e => (Raise (OSError e), emit (EPopen cmd (inr e)) w)
  end.

(** [os.waitpid(pid, 0)[1]] *)
Definition waitpid (pid : Z) : M Z := fun w =>
  match w_exit w !! pid with
  | Some st =>
      (Ok st,
       emit (EWaitpid pid st)
         (World (w_fs w) (w_out w) (w_clock w) (w_trace w) (w_flow w)
                (w_log_newline w) (delete pid (w_exit w))))
  | None => (Raise (OSError ECHILD), w)
  end.

(** The user and group information, if any. *)
Record identity := Identity {
  id_home : option string;
  id_uid : option Z;
  id_gid : option Z
}.

Definition resolve_identity (d : Daemon) : M identity :=
  i <- (if str_truthy (user d) then
          match os_getpwnam os (default "" (user d)) with
          | Some record =>
              ret (Identity (Some (pw_dir record)) (Some (pw_uid record))
                            (Some (pw_gid record)))
          | None =>
              raise (KeyError ("getpwnam(): name not found: " ++ py_repr os (user d)))
          end
        else ret (Identity None None None)) ;;
  if str_truthy (group d) then
    match os_getgrnam os (default "" (group d)) with
    | Some gr_gid => ret (Identity (id_home i) (id_uid i) (Some gr_gid))
    | None => raise (KeyError ("getgrnam(): name not found: " ++ py_repr os (group d)))
    end
  else ret i.

(** The code of [start] that follows [pid = os.fork()]: the supervising
    flow runs it with the child's pid, the detached flow with 0. *)
Definition start_after_fork (d : Daemon) (i : identity) (pid : Z) : M pyval :=
  if pid >? 0 then
    st <- waitpid pid ;;
    (if st =? 0 then
       p <- Daemon_pid d ;;
       Daemon_log d ["started (PID: " ++ py_str p ++ ")"] newline
     else
       Daemon_log d ["could not be started, check the output file eventually"] newline) ;;;
    ret (PyBool true)
  else
    let err_path := if str_truthy (stderr d) then default "" (stderr d) else stdout d in
    makedirs (dirname (pidfile d)) ;;;
    makedirs (dirname (stdin d)) ;;;
    makedirs (dirname (stdout d)) ;;;
    makedirs (dirname err_path) ;;;
    open_write (pidfile d) ;;;
    try_finally
      (sys Setsid ;;;
       match id_uid i with
       | Some uid =>
           try_except (sys (Setuid uid))
             (fun exc => match exc with
                         | OSError e =>
                             if negb (e =? EPERM) then raise exc
                             else
                               Daemon_log d
                                 ["not permitted to change to user " ++ py_repr os (user d)]
                                 newline ;;;
                               raise (SystemExit EPERM)
                         | _ => raise exc
                         end)
       | None => ret tt
       end ;;;
       match id_gid i with
       | Some gid =>
           try_except (sys (Setgid gid))
             (fun exc => match exc with
                         | OSError e =>
                             if negb (e =? EPERM) then raise exc
                             else
                               Daemon_log d
                                 ["not permitted to change to group " ++ py_repr os (group d)]
                                 newline ;;;
                               raise (SystemExit EPERM)
                         | _ => raise exc
                         end)
       | None => ret tt
       end ;;;
       let environ_home := if str_truthy (id_home i) then id_home i else os_home os in
       (if str_truthy (cwd d) then
          sys (Chdir (os_expanduser os environ_home (default "" (cwd d))))
        else
          match environ_home with
          | Some h => sys (Chdir h)
          | None => raise (KeyError "HOME")
          end) ;;;
       open_read (stdin d) ;;;
       open_append (stdout d) ;;;
       (if str_truthy (stderr d) then open_append (default "" (stderr d)) else ret tt) ;;;
       let command := prog d :: args d in
       Daemon_log d ["running"; String.concat " " (map shlex_quote command)] newline ;;;
       sys (Dup2 (stdin d) 0) ;;;
       sys (Dup2 (stdout d) 1) ;;;
       sys (Dup2 err_path 2) ;;;
       process_pid <- Popen command ;;
       file_write (pidfile d) (py_str process_pid) ;;;
       raise (SystemExit 0))
      (file_close (pidfile d)).

(** The exit code of a Python process that ends with result [r]: the
    argument of [sys.exit], 1 for any other exception. *)
Definition exit_code {A} (r : result A) : Z :=
  match r with
  | Ok _ => 0
  | Raise (SystemExit code) => Z.land code 255
  | Raise _ => 1
  end.

(** [os.fork()] followed by [k]: the child runs [k 0] as the detached
    flow on its own copy of the program's memory, sharing the file
    system and the terminal; its exit leaves a wait status.  The parent
    runs [k child]. *)
Definition fork_then {A} (k : Z -> M A) : M A := fun w =>
  match os_fork os (step w) with
  | inr e => (Raise (OSError e), emit (EFork (inr e)) w)
  | inl child =>
      let w1 := emit (EFork (inl child)) w in
      let '(r, wd) :=
        k 0 (World (w_fs w1) (w_out w1) (w_clock w1) (w_trace w1) Detached
                   (w_log_newline w1) ∅) in
      let code := exit_code r in
      let wd' := emit (EExit code) wd in
      k (Z.pos child)
        (World (w_fs wd') (w_out wd') (w_clock wd') (w_trace wd') (w_flow w1)
               (w_log_newline w1) (<[Z.pos child := Z.shiftl code 8]> (w_exit w1)))
  end.

Definition Daemon_start (d : Daemon) : M pyval :=
  st <- Daemon_status d ;;
  if String.eqb st Status_Started then
    Daemon_log d ["daemon already started"] newline ;;;
    ret (PyBool true)
  else
    i <- resolve_identity d ;;
    fork_then (start_after_fork d i).

(** ** The commands of [main] *)

Inductive command :=
| CmdStatus
| CmdStop
| CmdStart
| CmdRestart.

(** [for daemon in target_daemons: if not daemon.stop(): return 1]
    followed by [return 0]. *)
Fixpoint stop_each (fuel : nat) (ds : list Daemon) : P Z :=
  match ds with
  | [] => lift (ret 0)
  | daemon :: rest =>
      v <~ Daemon_stop fuel daemon ;;
      if negb (truthy v) then lift (ret 1) else stop_each fuel rest
  end.

Fixpoint start_each (ds : list Daemon) : M Z :=
  match ds with
  | [] => ret 0
  | daemon :: rest =>
      v <- Daemon_start daemon ;;
      if negb (truthy v) then ret 1 else start_each rest
  end.

Fixpoint status_each (ds : list Daemon) : M Z :=
  match ds with
  | [] => ret 0
  | daemon :: rest =>
      st <- Daemon_status daemon ;;
      Daemon_log daemon [st] newline ;;;
      status_each rest
  end.

(** [for daemon in target_daemons: daemon.stop()] *)
Fixpoint stop_all (fuel : nat) (ds : list Daemon) : P unit :=
  match ds with
  | [] => lift (ret tt)
  | daemon :: rest => _ <~ Daemon_stop fuel daemon ;; stop_all fuel rest
  end.

(** The part of [main] that follows the selection of [target_daemons];
    the result is the exit code. *)
Definition main (fuel : nat) (cmd : command) (target_daemons : list Daemon) : P Z :=
  match cmd with
  | CmdStatus => lift (status_each target_daemons)
  | CmdStop => stop_each fuel target_daemons
  | CmdStart => lift (start_each target_daemons)
  | CmdRestart =>
      _ <~ stop_all fuel target_daemons ;;
      lift (start_each target_daemons)
  end.

End Nocrux.

(** ** Vocabulary of the statements *)

(** The probe [os.kill(pid, 0)] with its answer, as it appears among
    the performed calls. *)
Definition probe (f : flow) (pid : Z) (r : option Z) : flow * event :=
  (f, ECall (Kill pid 0) r).

(** [n] rounds of the polling loop: a probe that finds the process,
    then a sleep of half a time unit. *)
Fixpoint polls (f : flow) (pid : Z) (n : nat) : list (flow * event) :=
  match n with
  | O => []
  | S k => probe f pid None :: (f, ESleep (1 # 2)) :: polls f pid k
  end.

(** The number of rounds after which [kill_timeout] has elapsed. *)
Definition poll_bound (config : Config) : nat :=
  Z.to_nat (Qceiling (2 * kill_timeout config)).

(** A process that is gone does not come back: once the probe of [pid]
    has failed, it fails ever after. *)
Definition gone_stays_gone (os : os_env) (pid : Z) : Prop :=
  forall n m e,
    (n <= m)%nat ->
    os_call os n (Kill pid 0) = Some e ->
    os_call os m (Kill pid 0) <> None.

(** The text one call of [Daemon.log] prints in world [w]. *)
Definition log_line (d : Daemon) (w : world) (message : list string) (end_ : string)
    : string :=
  String.concat " "
    (if default true (w_log_newline w !! name d)
     then ("-  [" ++ name d ++ "]") :: message else message) ++ end_.

(** The performed calls that satisfy [p], in order. *)
Definition obs (p : flow * event -> bool) (w : world) : list (flow * event) :=
  List.filter p (w_trace w).

(** *** A small program logic

    [hoare P m Q]: from a world where [P] holds, [m] ends with a result
    and a world that satisfy [Q].  [inv I m]: [m] keeps [I].  [pinv] is
    [inv] for the computations that contain the polling loop. *)

Definition hoare {A} (P : world -> Prop) (m : M A) (Q : result A -> world -> Prop) : Prop :=
  forall w, P w -> Q (fst (m w)) (snd (m w)).

Definition inv {A} (I : world -> Prop) (m : M A) : Prop :=
  hoare I m (fun _ => I).

Definition pinv {A} (I : world -> Prop) (m : P A) : Prop :=
  forall w r w', I w -> m w = Some (r, w') -> I w'.

(** The calls by which the supervising flow would create or change a
    file: creating a directory, opening a file otherwise than for
    reading, writing. *)
Definition supervising_write (x : flow * event) : bool :=
  match x with
  | (Supervising, EOpen _ mode _) => negb (String.eqb mode "r")
  | (Supervising, EWrite _ _) => true
  | (Supervising, ECall (Makedirs _) _) => true
  | _ => false
  end.

(** The changes of identity. *)
Definition id_change (x : flow * event) : bool :=
  match x with
  | (_, ECall (Setuid _) _) => true
  | (_, ECall (Setgid _) _) => true
  | _ => false
  end.

(** The calls of [p]-kind performed so far are [L], in flow [fl]. *)
Definition seen (p : flow * event -> bool) (fl : flow) (L : list (flow * event))
    (w : world) : Prop :=
  w_flow w = fl /\ obs p w = L.

(** The file system is [F]. *)
Definition fs_is (F : gmap string fnode) (w : world) : Prop := w_fs w = F.

(** [m] either goes on, from [P] to [P'], or raises what makes the
    process exit with a code other than 0. *)
Definition passes {A} (P P' : world -> Prop) (m : M A) : Prop :=
  hoare P m (fun r w => match r with
                        | Ok _ => P' w
                        | Raise e => exit_code (@Raise pyval e) <> 0
                        end).

(** The PID file has just been opened for writing, in flow [fl]. *)
Definition pidfile_open (pf : string) (fl : flow) (w : world) : Prop :=
  w_fs w !! pf = Some (Regular "") /\ w_flow w = fl.

(** What the end of the detached flow looks like when it exits with
    code 0: the last calls are the spawn of the program, which yields
    [p], a [pid_t], and the write of [p] into the PID file, followed by
    [closing]. *)
Definition launched (d : Daemon) (fl : flow) (closing : list (flow * event))
    (r : result pyval) (w : world) : Prop :=
  (forall v, r <> Ok v) /\
  (exit_code r = 0 ->
   exists pre p,
     pid_fits (Z.pos p) = true /\
     w_trace w = (pre ++ [(fl, EPopen (prog d :: args d) (inl p));
                          (fl, EWrite (pidfile d) (py_str (Z.pos p)))] ++ closing)%list /\
     w_fs w !! pidfile d = Some (Regular (py_str (Z.pos p))) /\
     w_flow w = fl).

(** The claim C1 in the words of the specification: among the performed
    calls, a change of group id comes before a change of user id. *)
Definition group_before_user (tr : list (flow * event)) : Prop :=
  exists i j g u rg ru,
    (i < j)%nat /\
    tr !! i = Some (Detached, ECall (Setgid g) rg) /\
    tr !! j = Some (Detached, ECall (Setuid u) ru).

(** The changes of identity a start may perform, in order, for user id
    [u] and group id [g]: none; or a refused change of user; or the
    change of user followed by the change of group, refused or not. *)
Definition user_then_group (u g : Z) (X : list (flow * event)) : Prop :=
  X = [] \/
  (exists e, X = [(Detached, ECall (Setuid u) (Some e))]) \/
  (exists r, X = [(Detached, ECall (Setuid u) None); (Detached, ECall (Setgid g) r)]).

(** After a start whose changes of identity so far were [L]: the flow
    is the detached one and the changes are [L] followed by changes in
    the order [user_then_group]. *)
Definition id_changes_are (L : list (flow * event)) (u g : Z)
    (_ : result pyval) (w : world) : Prop :=
  w_flow w = Detached /\
  exists X, obs id_change w = (L ++ X)%list /\ user_then_group u g X.

(** The claim C4 in the words of the specification, for the world at
    the end of a start: the PID file records the PID that the detach
    operation yielded, and the PID file is written immediately before
    the launch. *)
Definition launch_replaces_image (d : Daemon) (w' : world) : Prop :=
  (exists child,
      In (Supervising, EFork (inl child)) (w_trace w') /\
      w_fs w' !! pidfile d = Some (Regular (py_str (Z.pos child)))) /\
  (exists k data cmd r,
      w_trace w' !! k = Some (Detached, EWrite (pidfile d) data) /\
      w_trace w' !! S k = Some (Detached, EPopen cmd r)).

(** ** Sample environments, daemons and worlds *)

Module Sample.

Definition repr (o : option string) : string :=
  match o with
  | Some s => "'" ++ s ++ "'"
  | None => "None"
  end.

(** An environment given by its answers to the signal and identity
    calls; directories exist, [fork] yields pid 100 and [Popen] 101;
    no path of the samples starts with a tilde, so that [expanduser]
    changes none. *)
Definition os_with (call : nat -> syscall -> option Z)
    (getpwnam : string -> option passwd) (getgrnam : string -> option Z) : os_env :=
  OsEnv call (fun _ _ => true) (fun _ => inl 100%positive)
        (fun _ _ => inl (Pid 101 eq_refl)) getpwnam getgrnam (Some "/home/u")
        (fun _ p => p) repr.

(** Every call succeeds: every probed process exists. *)
Definition os_ok : os_env :=
  os_with (fun _ _ => None) (fun _ => None) (fun _ => None).

(** No signal can be delivered: no such process. *)
Definition os_no_process : os_env :=
  os_with (fun _ c => match c with Kill _ _ => Some ESRCH | _ => None end)
          (fun _ => None) (fun _ => None).

(** User [www] and group [web] are known; no signal can be delivered
    (nothing is running) and every other call succeeds. *)
Definition os_ids : os_env :=
  os_with (fun _ c => match c with Kill _ _ => Some ESRCH | _ => None end)
          (fun u => if String.eqb u "www" then Some (Passwd "/var/www" 33 33) else None)
          (fun g => if String.eqb g "web" then Some 44 else None).

(** As [os_ids], but the process may not change its user id. *)
Definition os_no_setuid : os_env :=
  os_with (fun _ c => match c with
                      | Kill _ _ => Some ESRCH
                      | Setuid _ => Some EPERM
                      | _ => None
                      end)
          (fun u => if String.eqb u "www" then Some (Passwd "/var/www" 33 33) else None)
          (fun g => if String.eqb g "web" then Some 44 else None).

(** As [os_ids], for a start by root: the process may change its group
    id as long as it has not given up the user id of root, which it does
    at the ninth call; from then on the change is refused. *)
Definition os_root : os_env :=
  os_with (fun k c => match c with
                      | Kill _ _ => Some ESRCH
                      | Setgid _ => if (k <? 9)%nat then None else Some EPERM
                      | _ => None
                      end)
          (fun u => if String.eqb u "www" then Some (Passwd "/var/www" 33 33) else None)
          (fun g => if String.eqb g "web" then Some 44 else None).

(** The process answers the probe until the [n]-th call and is gone
    afterwards. *)
Definition os_dies_at (n : nat) : os_env :=
  os_with (fun k c => match c with
                      | Kill _ _ => if (k <? n)%nat then None else Some ESRCH
                      | _ => None
                      end)
          (fun _ => None) (fun _ => None).

Definition cfg : Config := default_config "/home/u/.nocrux".

Definition echo : Daemon :=
  MkDaemon "echo" "/bin/sleep" ["5"] None None None
           "/dev/null" "/home/u/.nocrux/echo.out" None "/home/u/.nocrux/echo.pid".

Definition web : Daemon :=
  MkDaemon "web" "/usr/bin/httpd" [] None (Some "www") (Some "web")
           "/dev/null" "/home/u/.nocrux/web.out" None "/home/u/.nocrux/web.pid".

Definition fs_empty : gmap string fnode := {[ "/dev/null" := Regular "" ]}.

Definition fs_pid (content : string) : gmap string fnode :=
  <[ "/home/u/.nocrux/echo.pid" := Regular content ]> fs_empty.

Definition fs_denied : gmap string fnode :=
  <[ "/home/u/.nocrux/echo.pid" := Faulty EACCES ]> fs_empty.

Definition boot (fs : gmap string fnode) : world :=
  World fs [] 0 [] Supervising ∅ ∅.

End Sample.

(** ** [os.path]: [isabs], [join], [normpath], [abspath] *)

(** [s.startswith('/')] *)
Definition isabs (s : string) : bool :=
  match s with
  | String c _ => Ascii.eqb c slash
  | EmptyString => false
  end.

(** [s.endswith('/')] *)
Definition endswith_slash (s : string) : bool :=
  match rev (list_ascii_of_string s) with
  | c :: _ => Ascii.eqb c slash
  | [] => false
  end.

(** [os.path.join(a, b)] *)
Definition path_join (a b : string) : string :=
  if isabs b then b
  else if (String.eqb a "" || endswith_slash a)%bool then a ++ b
  else a ++ "/" ++ b.

(** [path.split('/')] *)
Fixpoint split_slash (s : string) : list string :=
  match s with
  | EmptyString => [""]
  | String c r =>
      if Ascii.eqb c slash then "" :: split_slash r
      else
        match split_slash r with
        | comp :: comps => String c comp :: comps
        | [] => [String c ""]
        end
  end.

(** Python truth of a list, negated. *)
Definition is_empty {A} (l : list A) : bool :=
  match l with
  | [] => true
  | _ => false
  end.

(** One round of the loop of [normpath] over the components. *)
Definition normpath_step (initial_slashes : nat) (new_comps : list string) (comp : string)
    : list string :=
  if (String.eqb comp "" || String.eqb comp ".")%bool then new_comps
  else if (negb (String.eqb comp "..")
           || ((initial_slashes =? 0)%nat && is_empty new_comps)
           || (negb (is_empty new_comps) && String.eqb (List.last new_comps "") ".."))%bool
  then (new_comps ++ [comp])%list
  else if negb (is_empty new_comps) then removelast new_comps
  else new_comps.

(** ['/' * n] *)
Definition slashes (n : nat) : string := string_of_list_ascii (repeat slash n).

(** One leading slash or three and more count as one, two as two. *)
Definition initial_slashes (path : string) : nat :=
  if isabs path then
    if (String.prefix "//" path && negb (String.prefix "///" path))%bool
    then 2%nat else 1%nat
  else 0%nat.

(** [os.path.normpath] *)
Definition normpath (path : string) : string :=
  if String.eqb path "" then "."
  else
    let comps :=
      fold_left (normpath_step (initial_slashes path)) (split_slash path) [] in
    let joined := String.concat "/" comps in
    let joined :=
      if (0 <? initial_slashes path)%nat
      then slashes (initial_slashes path) ++ joined else joined in
    if String.eqb joined "" then "." else joined.

(** [os.path.abspath]; [getcwd] is the working directory of the
    process. *)
Definition os_path_abspath (getcwd path : string) : string :=
  normpath (if negb (isabs path) then path_join getcwd path else path).

(** ** [abspath] *)

Definition abspath (config : Config) (getcwd path : string) : string :=
  if negb (isabs path) then os_path_abspath getcwd (path_join (root_dir config) path)
  else path.

(** ** [Daemon.__init__] *)

(** The keyword arguments of [Daemon] and [register_daemon]. *)
Record kwargs := Kwargs {
  k_name : string;
  k_prog : string;
  k_args : list string;
  k_cwd : option string;
  k_user : option string;
  k_group : option string;
  k_stdin : option string;
  k_stdout : option string;
  k_stderr : option string;
  k_pidfile : option string
}.

(** [_log_newline] starts as [True]: the world holds no entry for a
    daemon that has printed nothing. *)
Definition Daemon_init (config : Config) (getcwd : string) (kw : kwargs) : Daemon :=
  let pidfile :=
    if negb (str_truthy (k_pidfile kw)) then abspath config getcwd (k_name kw ++ ".pid")
    else default "" (k_pidfile kw) in
  let stdout :=
    match k_stdout kw with
    | None => abspath config getcwd (k_name kw ++ ".out")
    | Some s => s
    end in
  MkDaemon (k_name kw) (k_prog kw) (k_args kw) (k_cwd kw) (k_user kw) (k_group kw)
           (if str_truthy (k_stdin kw) then default "" (k_stdin kw) else "/dev/null")
           stdout (k_stderr kw) pidfile.

(** ** [Daemon.__repr__] and [register_daemon] *)

(** The dictionary [daemons], in the order of registration. *)
Definition registry : Type := list (string * Daemon).

Definition registry_lookup (daemons : registry) (key : string) : option Daemon :=
  snd <$> List.find (fun kv => String.eqb (fst kv) key) daemons.

(** [print(s)] *)
Definition py_print (s : string) : M unit := fun w =>
  (Ok tt,
   World (w_fs w) (w_out w ++ [s ++ newline]) (w_clock w) (w_trace w) (w_flow w)
         (w_log_newline w) (w_exit w)).

(** [parser.error(message)] exits with status 2; its message goes to
    the standard error stream, which the world does not record. *)
Definition parser_error {A} (message : string) : M A := raise (SystemExit 2).

Inductive cli_command :=
| Version
| Tail
| Run (c : command).

(** What [parser.parse_args()] returns. *)
Record cli_args := CliArgs {
  a_command : cli_command;
  a_daemons : list string;
  a_stderr : bool
}.

(** [[daemons[x] for x in names]]; [inl x] is [KeyError(x)]. *)
Fixpoint lookup_each (daemons : registry) (names : list string) : string + list Daemon :=
  match names with
  | [] => inr []
  | x :: rest =>
      match registry_lookup daemons x with
      | None => inl x
      | Some d =>
          match lookup_each daemons rest with
          | inl k => inl k
          | inr ds => inr (d :: ds)
          end
      end
  end.

Definition select_targets (daemons : registry) (names : list string) : string + list Daemon :=
  if bool_decide (names = ["all"]) then inr (map snd daemons)
  else lookup_each daemons names.

Section Cli.

Variable os : os_env.
Variable config : Config.
Variable getcwd : string.

Definition Daemon_repr (d : Daemon) : M string :=
  st <- Daemon_status os d ;;
  ret ("<Daemon " ++ py_repr os (Some (name d)) ++ ": " ++ st ++ ">").

(** [register_daemon] with keyword arguments [kw] on the dictionary
    [daemons]: the new dictionary, or [inl message] for
    [ValueError(message)]. *)
Definition register_daemon (kw : kwargs) (daemons : registry) : M (string + registry) :=
  let daemon := Daemon_init config getcwd kw in
  if bool_decide (is_Some (registry_lookup daemons (name daemon))) then
    r <- Daemon_repr daemon ;;
    ret (inl ("daemon name " ++ r ++ " already used"))
  else ret (inr (daemons ++ [(name daemon, daemon)])%list).

(** [subprocess.call(['tail', '-f', fn])] with its handler of
    [KeyboardInterrupt]: the program [tail] is not part of [nocrux]. *)
Variable follow : string -> M Z.

(** [main], given the parsed arguments, whether the configuration file
    is there, and what running it registered in [daemons] and set in
    [config]. *)
Definition main_cli (fuel : nat) (args : cli_args) (config_is_file : bool)
    (daemons : registry) : P Z :=
  match a_command args with
  | Version => lift (py_print "nocrux v1.1.0" ;;; ret 0)
  | _ =>
      if is_empty (a_daemons args) then
        lift (parser_error
                ("need at least one argument for " ++ double_quote ++ "daemons"
                 ++ double_quote))
      else
        let config_file := os_expanduser os (os_home os) "~/nocrux_config.py" in
        if negb config_is_file then
          lift (parser_error
                  (double_quote ++ config_file ++ double_quote ++ " does not exist"))
        else
          match select_targets daemons (a_daemons args) with
          | inl key =>
              lift (parser_error
                      ("unknown daemon " ++ py_repr os (Some (py_repr os (Some key)))))
          | inr target_daemons =>
              match a_command args with
              | Run c => main os config fuel c target_daemons
              | Tail =>
                  (* [len(target_daemons) != 1 or args.daemons == ['all']] *)
                  let one_only :=
                    "can only select one daemon for " ++ double_quote ++ "tail"
                    ++ double_quote ++ " command" in
                  match target_daemons with
                  | [daemon] =>
                      if bool_decide (a_daemons args = ["all"]) then
                        lift (parser_error one_only)
                      else if a_stderr args then
                        if negb (str_truthy (stderr daemon)) then
                          lift (Daemon_log daemon ["no stderr"] newline ;;; ret 1)
                        else lift (follow (default "" (stderr daemon)))
                      else
                        if String.eqb (stdout daemon) "" then
                          lift (Daemon_log daemon ["no stdout"] newline ;;; ret 1)
                        else lift (follow (stdout daemon))
                  | _ => lift (parser_error one_only)
                  end
              | Version =>
                  lift (parser_error ("unknown command " ++ py_repr os (Some "version")))
              end
          end
  end.

End Cli.

(** The keys of the dictionary are distinct, and each daemon is filed
    under its name. *)
Definition registry_ok (daemons : registry) : Prop :=
  NoDup (map fst daemons) /\ Forall (fun kv => name (snd kv) = fst kv) daemons.

(** The command lines [main] refuses: no daemon named, no
    configuration file, a name that is not registered, or a [tail] of
    [all] or of several daemons. *)
Definition usage_error (daemons : registry) (args : cli_args) (config_is_file : bool)
    : Prop :=
  a_command args <> Version /\
  (a_daemons args = [] \/
   config_is_file = false \/
   (a_daemons args <> ["all"] /\
    exists key, In key (a_daemons args) /\ registry_lookup daemons key = None) \/
   (a_command args = Tail /\
    (a_daemons args = ["all"] \/ length (a_daemons args) <> 1%nat))).

(** A file name: no slash in it. *)
Definition no_slash (s : string) : Prop :=
  forallb (fun c => negb (Ascii.eqb c slash)) (list_ascii_of_string s) = true.

(** The keyword arguments that construct [Sample.echo]. *)
Module SamplePaths.
Definition kw_echo : kwargs :=
  Kwargs "echo" "/bin/sleep" ["5"] None None None None None None None.
End SamplePaths.

(** ** Vocabulary of the further statements *)

(** A character that [int] does not strip. *)
Definition nonspace (c : ascii) : Prop := is_space c = false.

(** The world in which the detached flow starts, after a fork in [w]
    that yielded [child]. *)
Definition detached_world (child : positive) (w : world) : world :=
  World (w_fs w) (w_out w) (w_clock w)
        (w_trace w ++ [(w_flow w, EFork (inl child))]) Detached (w_log_newline w) ∅.

(** The file system is [F], in flow [fl]. *)
Definition fs_flow (F : gmap string fnode) (fl : flow) (w : world) : Prop :=
  w_fs w = F /\ w_flow w = fl.

(** After a failed start the file system is [F], or its PID file [pf] is
    empty. *)
Definition untouched_or_empty (F : gmap string fnode) (pf : string)
    (r : result pyval) (w : world) : Prop :=
  exit_code r <> 0 -> w_fs w = F \/ w_fs w !! pf = Some (Regular "").

(** The calls other than reading a file, probing a process and
    sleeping. *)
Definition is_action (x : flow * event) : bool :=
  match x with
  | (_, EOpen _ mode _) => negb (String.eqb mode "r")
  | (_, ECall (Kill _ sig) _) => negb (sig =? 0)
  | (_, ESleep _) => false
  | _ => true
  end.

(** The signals other than the probe. *)
Definition real_signal (x : flow * event) : bool :=
  match x with
  | (_, ECall (Kill _ sig) _) => negb (sig =? 0)
  | _ => false
  end.

(** The calls of [p]-kind performed so far are [L], whatever the flow. *)
Definition obs_is (p : flow * event -> bool) (L : list (flow * event)) (w : world) : Prop :=
  obs p w = L.

(** The signals of one run of [stop] addressed to [pid] in flow [fl]:
    none; a [SIGTERM], refused or delivered; or a delivered [SIGTERM]
    followed by one [SIGKILL]. *)
Definition term_then_kill (fl : flow) (pid : Z) (X : list (flow * event)) : Prop :=
  (exists r, X = [(fl, ECall (Kill pid SIGTERM) r)]) \/
  (exists r, X = [(fl, ECall (Kill pid SIGTERM) None); (fl, ECall (Kill pid SIGKILL) r)]).

(** The signals of one run of [stop], given what the PID file reader
    returned: none when the reader raised or the PID does not fit
    [pid_t]. *)
Definition stop_signals_are (fl : flow) (read : result Z) (X : list (flow * event)) : Prop :=
  match read with
  | Ok pid => if pid_fits pid then term_then_kill fl pid X else X = []
  | Raise _ => X = []
  end.

(** Every daemon object is at the start of a line. *)
Definition lines_fresh (w : world) : Prop :=
  forall n, default true (w_log_newline w !! n) = true.

(** The line the status command prints for a daemon. *)
Definition status_line (d : Daemon) (st : string) : string :=
  String.concat " " ["-  [" ++ name d ++ "]"; st] ++ newline.

(** One of the two values of [Daemon.status]. *)
Definition is_status (st : string) : Prop :=
  st = Status_Started \/ st = Status_Stopped.

(** What printing leaves alone, and what reading and probing leave
    alone. *)
Definition said_is (O : list string) (N : gmap string bool) (w : world) : Prop :=
  w_out w = O /\ w_log_newline w = N.


(** The performed calls are [T] followed by further calls. *)
Definition extends (T : list (flow * event)) (w : world) : Prop :=
  exists A, w_trace w = (T ++ A)%list.

(** The sleeps. *)
Definition is_sleep (x : flow * event) : bool :=
  match x with
  | (_, ESleep _) => true
  | _ => false
  end.

(** Since world [w0] the flow is the same, some sleeps of half a time
    unit were performed and nothing else moved the clock. *)
Definition slept (w0 w : world) : Prop :=
  w_flow w = w_flow w0 /\
  exists n : nat,
    obs is_sleep w = (obs is_sleep w0 ++ repeat (w_flow w0, ESleep (1 # 2)) n)%list /\
    (w_clock w == w_clock w0 + inject_Z (Z.of_nat n) * (1 # 2))%Q.

(** What was printed is [O], the line state of the daemon objects is
    [N], the flow is [fl] and the signals sent so far are [L]. *)
Definition stop_state (O : list string) (N : gmap string bool) (fl : flow)
    (L : list (flow * event)) (w : world) : Prop :=
  w_out w = O /\ w_log_newline w = N /\ w_flow w = fl /\ obs real_signal w = L.

(** One run of [stop] on daemon [d] from world [w], given what the PID
    file reader returned: the result [r], what was printed [X] and the
    signals that were sent [S].  When the reader raised, or the PID
    does not fit [pid_t], [stop] raises, prints nothing and sends
    nothing.  Otherwise it returns [None], and: the graceful signal was
    refused and the line is "not started"; or it was delivered, the
    line begins with "stopping..." and ends with "stopped" when the
    process was gone in time, and with "not stopped." and the outcome
    of the forceful signal when it was not. *)
Definition stop_outcome (d : Daemon) (w : world) (read : result Z) (r : result pyval)
    (X : list string) (S : list (flow * event)) : Prop :=
  match read with
  | Raise e => r = Raise e /\ X = [] /\ S = []
  | Ok pid =>
      if pid_fits pid then
        r = Ok PyNone /\
        ((exists e,
             X = [log_line d w ["not started"] newline] /\
             S = [(w_flow w, ECall (Kill pid SIGTERM) (Some e))]) \/
         (X = [log_line d w ["stopping..."] " "; ("stopped" ++ newline)%string] /\
          S = [(w_flow w, ECall (Kill pid SIGTERM) None)]) \/
         (X = [log_line d w ["stopping..."] " "; "not stopped. ";
               ("SIGKILL" ++ newline)%string] /\
          S = [(w_flow w, ECall (Kill pid SIGTERM) None);
               (w_flow w, ECall (Kill pid SIGKILL) None)]) \/
         (exists e,
             X = [log_line d w ["stopping..."] " "; "not stopped. ";
                  ("stopped" ++ newline)%string] /\
             S = [(w_flow w, ECall (Kill pid SIGTERM) None);
                  (w_flow w, ECall (Kill pid SIGKILL) (Some e))]))
      else r = Raise OverflowError /\ X = [] /\ S = []
  end.

(** * Properties *)

(** ** Reading integers *)

Lemma py_int_empty : py_int "" = None.
Proof. reflexivity. Qed.

Lemma py_int_abc : py_int "abc" = None.
Proof. reflexivity. Qed.

Lemma py_int_minus_one : py_int "-1" = Some (-1).
Proof. reflexivity. Qed.

(** ** The PID file reader *)

Section PidFile.

Variable os : os_env.

Lemma pid_missing d w :
  w_fs w !! pidfile d = None ->
  Daemon_pid d w = (Ok 0, emit (EOpen (pidfile d) "r" (Some ENOENT)) w).
Proof.
  intros H. unfold Daemon_pid, bind, try_except, open_read. rewrite H. reflexivity.
Qed.

Lemma pid_regular d w s :
  w_fs w !! pidfile d = Some (Regular s) ->
  Daemon_pid d w =
    (Ok (default 0 (py_int (readline s))), emit (EOpen (pidfile d) "r" None) w).
Proof.
  intros H. unfold Daemon_pid, bind, try_except, open_read. rewrite H. simpl.
  destruct (py_int (readline s)); reflexivity.
Qed.

Lemma pid_faulty d w e :
  w_fs w !! pidfile d = Some (Faulty e) ->
  Daemon_pid d w =
    (if e =? ENOENT then Ok 0 else Raise (OSError e),
     emit (EOpen (pidfile d) "r" (Some e)) w).
Proof.
  intros H. unfold Daemon_pid, bind, try_except, open_read. rewrite H. simpl.
  destruct (e =? ENOENT); reflexivity.
Qed.

(** Content that [int] rejects reads as 0. *)
Lemma pid_malformed d w s :
  w_fs w !! pidfile d = Some (Regular s) ->
  py_int (readline s) = None ->
  fst (Daemon_pid d w) = Ok 0.
Proof. intros H E. rewrite (pid_regular _ _ _ H), E. reflexivity. Qed.

(** The reader changes nothing but the list of performed calls. *)
Lemma pid_frame d w :
  exists r,
    snd (Daemon_pid d w) = emit (EOpen (pidfile d) "r" r) w.
Proof.
  destruct (w_fs w !! pidfile d) as [[s|e]|] eqn:H.
  - rewrite (pid_regular _ _ _ H). eauto.
  - rewrite (pid_faulty _ _ _ H). eauto.
  - rewrite (pid_missing _ _ H). eauto.
Qed.

(** ** The existence probe *)

Lemma process_exists_zero w : process_exists os 0 w = (Ok false, w).
Proof. reflexivity. Qed.

Lemma process_exists_probe pid w :
  pid <> 0 ->
  pid_fits pid = true ->
  process_exists os pid w =
    (Ok (bool_decide (os_call os (step w) (Kill pid 0) = None)),
     emit (ECall (Kill pid 0) (os_call os (step w) (Kill pid 0))) w).
Proof.
  intros Hp Hf. unfold process_exists, try_except, bind, os_kill, sys.
  destruct (Z.eqb_spec pid 0) as [|_]; [done|]. rewrite Hf.
  destruct (os_call os (step w) (Kill pid 0)); reflexivity.
Qed.

Lemma process_exists_overflow pid w :
  pid_fits pid = false ->
  process_exists os pid w = (Raise OverflowError, w).
Proof.
  intros Hf. unfold process_exists, try_except, bind, os_kill.
  destruct (Z.eqb_spec pid 0) as [->|_]; [done|]. rewrite Hf. reflexivity.
Qed.

End PidFile.

(** ** Status *)

Section Status.

Variable os : os_env.

Lemma status_unfold d w :
  Daemon_status os d w =
    match Daemon_pid d w with
    | (Ok p, w1) =>
        match process_exists os p w1 with
        | (Ok b, w2) => (Ok (if b then Status_Started else Status_Stopped), w2)
        | (Raise e, w2) => (Raise e, w2)
        end
    | (Raise e, w1) => (Raise e, w1)
    end.
Proof.
  unfold Daemon_status, bind, ret.
  destruct (Daemon_pid d w) as [[p|e] w1]; [|done].
  destruct (process_exists os p w1) as [[[|]|e] w2]; done.
Qed.

Lemma status_started_iff d w :
  fst (Daemon_status os d w) = Ok Status_Started <->
  exists p w1, Daemon_pid d w = (Ok p, w1) /\ fst (process_exists os p w1) = Ok true.
Proof.
  rewrite status_unfold.
  destruct (Daemon_pid d w) as [[p|e] w1].
  - destruct (process_exists os p w1) as [[[|]|e] w2] eqn:E; simpl.
    + split; [intros _; exists p, w1; rewrite E; done | done].
    + split; [discriminate | intros (?&?&[= <- <-]&H); rewrite E in H; discriminate].
    + split; [discriminate | intros (?&?&[= <- <-]&H); rewrite E in H; discriminate].
  - simpl. split; [discriminate | intros (?&?&?&_); discriminate].
Qed.

Lemma status_stopped_iff d w :
  fst (Daemon_status os d w) = Ok Status_Stopped <->
  exists p w1, Daemon_pid d w = (Ok p, w1) /\ fst (process_exists os p w1) = Ok false.
Proof.
  rewrite status_unfold.
  destruct (Daemon_pid d w) as [[p|e] w1].
  - destruct (process_exists os p w1) as [[[|]|e] w2] eqn:E; simpl.
    + split; [discriminate | intros (?&?&[= <- <-]&H); rewrite E in H; discriminate].
    + split; [intros _; exists p, w1; rewrite E; done | done].
    + split; [discriminate | intros (?&?&[= <- <-]&H); rewrite E in H; discriminate].
  - simpl. split; [discriminate | intros (?&?&?&_); discriminate].
Qed.

(** A missing, empty or malformed PID file means [Stopped], whatever
    the process table holds. *)
Lemma status_no_record d w :
  fst (Daemon_pid d w) = Ok 0 ->
  fst (Daemon_status os d w) = Ok Status_Stopped.
Proof.
  intros H. apply status_stopped_iff.
  destruct (Daemon_pid d w) as [r w1]. simpl in H. subst r.
  exists 0, w1. done.
Qed.

End Status.

(** C5 (the sentinel for a malformed PID file).  The reader returns 0
    for a missing file, for empty and for non-numeric content, and the
    status is then [Stopped]; for the content [-1] it returns the
    integer -1, and the status is whatever the probe of pid -1 answers:
    [Started] in an environment where the probe succeeds. *)
Theorem C5_minus_one_is_read_as_pid :
  fst (Daemon_pid Sample.echo (Sample.boot (Sample.fs_pid "-1"))) = Ok (-1) /\
  fst (Daemon_status Sample.os_ok Sample.echo (Sample.boot (Sample.fs_pid "-1")))
    = Ok Status_Started /\
  (forall os content,
      In content [""; "abc"] ->
      fst (Daemon_pid Sample.echo (Sample.boot (Sample.fs_pid content))) = Ok 0 /\
      fst (Daemon_status os Sample.echo (Sample.boot (Sample.fs_pid content)))
        = Ok Status_Stopped) /\
  (forall os,
      fst (Daemon_pid Sample.echo (Sample.boot Sample.fs_empty)) = Ok 0 /\
      fst (Daemon_status os Sample.echo (Sample.boot Sample.fs_empty))
        = Ok Status_Stopped).
Proof.
  split; [vm_compute; reflexivity|].
  split; [vm_compute; reflexivity|].
  split.
  - intros os content Hin.
    assert (H : fst (Daemon_pid Sample.echo (Sample.boot (Sample.fs_pid content))) = Ok 0).
    { destruct Hin as [<-|[<-|[]]]; vm_compute; reflexivity. }
    split; [exact H | apply status_no_record, H].
  - intros os.
    assert (H : fst (Daemon_pid Sample.echo (Sample.boot Sample.fs_empty)) = Ok 0)
      by (vm_compute; reflexivity).
    split; [exact H | apply status_no_record, H].
Qed.

(** C7 (the status oracle).  [process_exists 0] is false without any
    call; whenever the probe [os.kill(pid, 0)] fails with an [OSError],
    whatever its [errno], [process_exists pid] is false; and the status
    of a daemon is [Started] exactly when the PID read from its PID file
    exists, [Stopped] exactly when it does not. *)
Theorem C7_exists_and_status os d w :
  process_exists os 0 w = (Ok false, w) /\
  (forall pid e w1,
      os_kill os pid 0 w = (Raise (OSError e), w1) ->
      fst (process_exists os pid w) = Ok false) /\
  (fst (Daemon_status os d w) = Ok Status_Started <->
   exists p w1, Daemon_pid d w = (Ok p, w1) /\ fst (process_exists os p w1) = Ok true) /\
  (fst (Daemon_status os d w) = Ok Status_Stopped <->
   exists p w1, Daemon_pid d w = (Ok p, w1) /\ fst (process_exists os p w1) = Ok false).
Proof.
  split; [reflexivity|]. split.
  - intros pid e w1 H. unfold process_exists, try_except, bind.
    destruct (pid =? 0); [done|]. rewrite H. reflexivity.
  - split; [apply status_started_iff | apply status_stopped_iff].
Qed.

(** The probe fails with "no such process" and with "not permitted"
    alike. *)
Lemma C7_exists_and_status_witness :
  os_kill Sample.os_no_process 4242 0 (Sample.boot Sample.fs_empty)
    = (Raise (OSError ESRCH),
       emit (ECall (Kill 4242 0) (Some ESRCH)) (Sample.boot Sample.fs_empty)) /\
  fst (process_exists Sample.os_no_process 4242 (Sample.boot Sample.fs_empty)) = Ok false.
Proof.
  split; [reflexivity|].
  eapply (proj1 (proj2 (C7_exists_and_status Sample.os_no_process Sample.echo
                          (Sample.boot Sample.fs_empty)))).
  reflexivity.
Defined.

(** ** An unreadable PID file *)

Section Unreadable.

Variable os : os_env.
Variable config : Config.

Lemma status_raises d w e w1 :
  Daemon_pid d w = (Raise e, w1) -> Daemon_status os d w = (Raise e, w1).
Proof. intros H. rewrite status_unfold, H. reflexivity. Qed.

Lemma start_raises d w e w1 :
  Daemon_pid d w = (Raise e, w1) -> Daemon_start os d w = (Raise e, w1).
Proof.
  intros H. unfold Daemon_start, bind. rewrite (status_raises _ _ _ _ H). reflexivity.
Qed.

Lemma stop_raises fuel d w e w1 :
  Daemon_pid d w = (Raise e, w1) -> Daemon_stop os config fuel d w = Some (Raise e, w1).
Proof. intros H. unfold Daemon_stop, pbind, lift. rewrite H. reflexivity. Qed.

End Unreadable.

(** C10 (the reader is not total).  When opening the PID file fails
    with an [OSError] whose [errno] is not [ENOENT], for example
    [EACCES], the error is raised out of [Daemon.pid], [Daemon.status],
    [Daemon.start] and [Daemon.stop] instead of being read as 0. *)
Theorem C10_open_error_propagates os config fuel d w e :
  w_fs w !! pidfile d = Some (Faulty e) ->
  e <> ENOENT ->
  fst (Daemon_pid d w) = Raise (OSError e) /\
  fst (Daemon_status os d w) = Raise (OSError e) /\
  fst (Daemon_start os d w) = Raise (OSError e) /\
  fst <$> Daemon_stop os config fuel d w = Some (Raise (OSError e)).
Proof.
  intros Hfs Hne.
  assert (H : Daemon_pid d w =
              (Raise (OSError e), emit (EOpen (pidfile d) "r" (Some e)) w)).
  { rewrite (pid_faulty _ _ _ Hfs). destruct (Z.eqb_spec e ENOENT); done. }
  repeat split.
  - rewrite H. reflexivity.
  - rewrite (status_raises _ _ _ _ _ H). reflexivity.
  - rewrite (start_raises _ _ _ _ _ H). reflexivity.
  - rewrite (stop_raises _ _ _ _ _ _ _ H). reflexivity.
Qed.

Lemma C10_open_error_propagates_witness :
  let w := Sample.boot Sample.fs_denied in
  fst (Daemon_pid Sample.echo w) = Raise (OSError EACCES) /\
  fst (Daemon_status Sample.os_ok Sample.echo w) = Raise (OSError EACCES) /\
  fst (Daemon_start Sample.os_ok Sample.echo w) = Raise (OSError EACCES) /\
  fst <$> Daemon_stop Sample.os_ok Sample.cfg 1 Sample.echo w
    = Some (Raise (OSError EACCES)).
Proof.
  intros w.
  apply (C10_open_error_propagates Sample.os_ok Sample.cfg 1 Sample.echo w EACCES).
  - vm_compute. reflexivity.
  - vm_compute. discriminate.
Defined.

(** ** Starting a daemon that is started *)

Section AlreadyStarted.

Variable os : os_env.

(** What a [Started] status tells: the PID file is a regular file with
    a non-zero PID in it, and the probe of that PID succeeded. *)
Lemma status_started_inv d w :
  fst (Daemon_status os d w) = Ok Status_Started ->
  exists s p,
    w_fs w !! pidfile d = Some (Regular s) /\
    py_int (readline s) = Some p /\ p <> 0 /\ pid_fits p = true /\
    os_call os (S (step w)) (Kill p 0) = None /\
    Daemon_status os d w =
      (Ok Status_Started,
       emit (ECall (Kill p 0) None) (emit (EOpen (pidfile d) "r" None) w)).
Proof.
  intros H. pose proof H as H0. apply status_started_iff in H as (p&w1&Hpid&Hex).
  assert (Hp : p <> 0).
  { intros ->. rewrite process_exists_zero in Hex. discriminate. }
  assert (Hs : exists s, w_fs w !! pidfile d = Some (Regular s)).
  { destruct (w_fs w !! pidfile d) as [[s|e]|] eqn:E; [eauto | |].
    - rewrite (pid_faulty _ _ _ E) in Hpid. destruct (e =? ENOENT); congruence.
    - rewrite (pid_missing _ _ E) in Hpid. congruence. }
  destruct Hs as [s Hs]. rewrite (pid_regular _ _ _ Hs) in Hpid.
  injection Hpid as Hval <-.
  destruct (py_int (readline s)) as [q|] eqn:Hq; simpl in Hval; [subst q | congruence].
  destruct (pid_fits p) eqn:Hf.
  - rewrite (process_exists_probe _ _ _ Hp Hf) in Hex. simpl in Hex.
    assert (Hc : os_call os (S (step w)) (Kill p 0) = None).
    { injection Hex as Hex. apply bool_decide_eq_true in Hex.
      revert Hex. unfold step, emit. simpl. rewrite length_app. simpl.
      rewrite Nat.add_1_r. done. }
    exists s, p. repeat split; try done.
    rewrite status_unfold, (pid_regular _ _ _ Hs), Hq. simpl.
    rewrite (process_exists_probe _ _ _ Hp Hf).
    assert (Hstep : step (emit (EOpen (pidfile d) "r" None) w) = S (step w)).
    { unfold step, emit. simpl. rewrite length_app. simpl. lia. }
    rewrite Hstep, Hc. reflexivity.
  - rewrite (process_exists_overflow _ _ _ Hf) in Hex. discriminate.
Qed.

End AlreadyStarted.

(** C8 (start is idempotent).  When the status of the daemon is
    [Started], [start] returns [True]; it prints one line, "daemon
    already started"; the calls it performs are the read of the PID file
    and the probe of the PID, so no fork, no launch and no write; and
    the file system, the PID file included, is as before. *)
Theorem C8_start_when_started os d w :
  fst (Daemon_status os d w) = Ok Status_Started ->
  exists p prefix,
    fst (Daemon_start os d w) = Ok (PyBool true) /\
    w_fs (snd (Daemon_start os d w)) = w_fs w /\
    w_trace (snd (Daemon_start os d w)) =
      (w_trace w ++ [(w_flow w, EOpen (pidfile d) "r" None);
                     (w_flow w, ECall (Kill p 0) None)])%list /\
    prefix = (if default true (w_log_newline w !! name d)
              then ["-  [" ++ name d ++ "]"] else []) /\
    w_out (snd (Daemon_start os d w)) =
      (w_out w ++ [(String.concat " " (prefix ++ ["daemon already started"])%list
                    ++ newline)%string])%list.
Proof.
  intros H. destruct (status_started_inv _ _ _ H) as (s&p&Hs&Hq&Hp&Hf&Hc&Hst).
  exists p, (if default true (w_log_newline w !! name d)
             then ["-  [" ++ name d ++ "]"] else []).
  unfold Daemon_start, bind. rewrite Hst. simpl.
  repeat split.
  - rewrite <- app_assoc. reflexivity.
  - destruct (default true (w_log_newline w !! name d)); reflexivity.
Qed.

Lemma C8_start_when_started_witness :
  let w := Sample.boot (Sample.fs_pid "101") in
  exists p prefix,
    fst (Daemon_start Sample.os_ok Sample.echo w) = Ok (PyBool true) /\
    w_fs (snd (Daemon_start Sample.os_ok Sample.echo w)) = w_fs w /\
    w_trace (snd (Daemon_start Sample.os_ok Sample.echo w)) =
      (w_trace w ++ [(w_flow w, EOpen (pidfile Sample.echo) "r" None);
                     (w_flow w, ECall (Kill p 0) None)])%list /\
    prefix = (if default true (w_log_newline w !! name Sample.echo)
              then ["-  [" ++ name Sample.echo ++ "]"] else []) /\
    w_out (snd (Daemon_start Sample.os_ok Sample.echo w)) =
      (w_out w ++ [(String.concat " " (prefix ++ ["daemon already started"])%list
                    ++ newline)%string])%list.
Proof.
  intros w. apply (C8_start_when_started Sample.os_ok Sample.echo w).
  vm_compute. reflexivity.
Defined.

(** ** The polling loop *)

Section Polling.

Variable os : os_env.
Variable config : Config.

Lemma Qlt_bool_iff x y : Qlt_bool x y = true <-> (x < y)%Q.
Proof.
  unfold Qlt_bool. rewrite negb_true_iff, <- not_true_iff_false, Qle_bool_iff.
  split; [apply Qnot_le_lt | apply Qlt_not_le].
Qed.

Lemma Qlt_bool_false_iff x y : Qlt_bool x y = false <-> (y <= x)%Q.
Proof.
  unfold Qlt_bool. rewrite negb_false_iff, Qle_bool_iff. reflexivity.
Qed.

Lemma length_polls f pid n : length (polls f pid n) = (2 * n)%nat.
Proof. induction n as [|n IH]; simpl; [done|]. rewrite IH. lia. Qed.

Lemma step_emit e w : step (emit e w) = S (step w).
Proof. unfold step, emit. simpl. rewrite length_app. simpl. lia. Qed.

Lemma Qceiling_pos x : (0 < x)%Q -> (0 < Qceiling x)%Z.
Proof.
  intros H. pose proof (Qle_ceiling x) as Hc.
  assert (Hlt : (inject_Z 0 < inject_Z (Qceiling x))%Q).
  { eapply Qlt_le_trans; [exact H | exact Hc]. }
  rewrite <- Zlt_Qlt in Hlt. exact Hlt.
Qed.

Lemma Qceiling_pred x y :
  (y <= x - 1)%Q -> (Qceiling y <= Qceiling x - 1)%Z.
Proof.
  intros H. pose proof (Qle_ceiling x) as Hc.
  assert (Hy : (y <= inject_Z (Qceiling x - 1))%Q).
  { unfold Z.sub. rewrite inject_Z_plus.
    change (inject_Z (- (1))) with (- (1))%Q. lra. }
  apply Qceiling_resp_le in Hy. rewrite Qceiling_Z in Hy. exact Hy.
Qed.

Lemma stop_wait_S fuel pid tstart w :
  stop_wait os config (S fuel) pid tstart w =
    if Qlt_bool (w_clock w - tstart)%Q (kill_timeout config) then
      match process_exists os pid w with
      | (Ok true, w1) =>
          match time_sleep (1 # 2) w1 with
          | (Ok _, w2) => stop_wait os config fuel pid tstart w2
          | (Raise e, w2) => Some (Raise e, w2)
          end
      | (Ok false, w1) => Some (Ok tt, w1)
      | (Raise e, w1) => Some (Raise e, w1)
      end
    else Some (Ok tt, w).
Proof. reflexivity. Qed.

(** The loop ends, after [n] rounds, either because a probe failed
    before the timeout or because the timeout was reached; it changes
    the clock and the performed calls only. *)
Lemma stop_wait_spec pid tstart :
  pid <> 0 ->
  pid_fits pid = true ->
  forall fuel w,
    (0 < fuel)%nat ->
    (Qceiling (2 * (kill_timeout config - (w_clock w - tstart))) < Z.of_nat fuel)%Z ->
    exists n w',
      stop_wait os config fuel pid tstart w = Some (Ok tt, w') /\
      w_fs w' = w_fs w /\ w_out w' = w_out w /\ w_flow w' = w_flow w /\
      w_log_newline w' = w_log_newline w /\ w_exit w' = w_exit w /\
      (w_clock w' == w_clock w + inject_Z (Z.of_nat n) * (1 # 2))%Q /\
      (n = O \/ (w_clock w' - (1 # 2) - tstart < kill_timeout config)%Q) /\
      ((exists e,
           w_trace w' = (w_trace w ++ polls (w_flow w) pid n
                           ++ [probe (w_flow w) pid (Some e)])%list /\
           (w_clock w' - tstart < kill_timeout config)%Q /\
           os_call os (step w + 2 * n) (Kill pid 0) = Some e)
       \/ (w_trace w' = (w_trace w ++ polls (w_flow w) pid n)%list /\
           (kill_timeout config <= w_clock w' - tstart)%Q)).
Proof.
  intros Hp Hf. induction fuel as [|fuel IH]; intros w Hpos Hfuel; [lia|].
  rewrite stop_wait_S.
  destruct (Qlt_bool (w_clock w - tstart) (kill_timeout config)) eqn:Ht.
  - apply Qlt_bool_iff in Ht.
    rewrite (process_exists_probe _ _ _ Hp Hf).
    destruct (os_call os (step w) (Kill pid 0)) as [e|] eqn:Hc; simpl.
    + exists O, (emit (ECall (Kill pid 0) (Some e)) w). simpl.
      repeat split; try done.
      * change (inject_Z (Z.of_nat 0)) with 0%Q. lra.
      * by left.
      * left. exists e. rewrite Nat.add_0_r. done.
    + set (w1 := emit (ECall (Kill pid 0) None) w).
      set (w2 := snd (time_sleep (1 # 2) w1)).
      change (time_sleep (1 # 2) w1) with (Ok tt, w2).
      assert (Hx : (0 < 2 * (kill_timeout config - (w_clock w - tstart)))%Q) by lra.
      apply Qceiling_pos in Hx.
      assert (Hy : (Qceiling (2 * (kill_timeout config - (w_clock w2 - tstart)))
                    <= Qceiling (2 * (kill_timeout config - (w_clock w - tstart))) - 1)%Z).
      { apply Qceiling_pred. simpl. lra. }
      destruct (IH w2) as (n&w'&Hrun&Hfs&Hout&Hflow&Hnl&Hex&Hclk&Hlast&Htr); [lia|lia|].
      exists (S n), w'. split; [exact Hrun|].
      repeat split; try done.
      * rewrite Hclk. simpl w_clock. rewrite Nat2Z.inj_succ. unfold Z.succ.
        rewrite inject_Z_plus. change (inject_Z 1) with 1%Q. lra.
      * right. destruct Hlast as [->|Hlast]; [|exact Hlast].
        change (inject_Z (Z.of_nat 0)) with 0%Q in Hclk. simpl in Hclk. lra.
      * destruct Htr as [(e&Htr&Helapsed&Hcall)|(Htr&Helapsed)].
        -- left. exists e. split; [|split; [exact Helapsed|]].
           ++ rewrite Htr. simpl. rewrite <- !app_assoc. reflexivity.
           ++ assert (Hs : (step w2 + 2 * n = step w + 2 * S n)%nat).
              { unfold w2, step. simpl. rewrite !length_app. simpl. lia. }
              rewrite Hs in Hcall. exact Hcall.
        -- right. split; [|exact Helapsed].
           rewrite Htr. simpl. rewrite <- !app_assoc. reflexivity.
  - apply Qlt_bool_false_iff in Ht.
    exists O, w. simpl. repeat split; try done.
    + change (inject_Z (Z.of_nat 0)) with 0%Q. lra.
    + by left.
    + right. rewrite app_nil_r. split; [done | lra].
Qed.

End Polling.

(** ** Stopping a daemon *)

Section Stop.
Variable os : os_env.
Variable config : Config.

Lemma os_kill_ok pid sig w :
  pid_fits pid = true ->
  os_call os (step w) (Kill pid sig) = None ->
  os_kill os pid sig w = (Ok tt, emit (ECall (Kill pid sig) None) w).
Proof. intros Hf Hc. unfold os_kill, sys. rewrite Hf, Hc. reflexivity. Qed.

Lemma os_kill_err pid sig w e :
  pid_fits pid = true ->
  os_call os (step w) (Kill pid sig) = Some e ->
  os_kill os pid sig w = (Raise (OSError e), emit (ECall (Kill pid sig) (Some e)) w).
Proof. intros Hf Hc. unfold os_kill, sys. rewrite Hf, Hc. reflexivity. Qed.

Lemma log_spec d message end_ w :
  exists w',
    Daemon_log d message end_ w = (Ok tt, w') /\
    w_fs w' = w_fs w /\ w_clock w' = w_clock w /\ w_trace w' = w_trace w /\
    w_flow w' = w_flow w /\ w_exit w' = w_exit w /\
    w_out w' = (w_out w ++ [log_line d w message end_])%list /\
    w_log_newline w' !! name d = Some (contains_newline end_).
Proof.
  eexists. split; [reflexivity|]. simpl. repeat split.
  apply lookup_insert_eq.
Qed.

Lemma log_line_cont d w message end_ :
  w_log_newline w !! name d = Some false ->
  log_line d w message end_ = (String.concat " " message ++ end_)%string.
Proof. intros H. unfold log_line. rewrite H. reflexivity. Qed.

(** C6 (graceful, then forceful termination).  For a daemon whose PID
    file records a non-zero PID to which [SIGTERM] can be delivered,
    [stop] first sends [SIGTERM], then probes the process and sleeps
    half a time unit, [n] times over, as long as less than
    [kill_timeout] has elapsed and the probe finds the process.  Either
    a probe fails before the timeout, and "stopped" is printed without
    any further signal; or the timeout elapses, and [SIGKILL] is sent
    exactly when one more probe still finds the process.  A [SIGKILL]
    that cannot be delivered prints "stopped" as well, and [stop]
    returns normally in every case. *)
Theorem C6_stop_escalation fuel d w s p :
  w_fs w !! pidfile d = Some (Regular s) ->
  py_int (readline s) = Some p ->
  p <> 0 ->
  pid_fits p = true ->
  os_call os (S (step w)) (Kill p SIGTERM) = None ->
  gone_stays_gone os p ->
  (poll_bound config < fuel)%nat ->
  exists n tail said w',
    Daemon_stop os config fuel d w = Some (Ok PyNone, w') /\
    w_trace w' =
      (w_trace w ++ [(w_flow w, EOpen (pidfile d) "r" None);
                     (w_flow w, ECall (Kill p SIGTERM) None)]
         ++ polls (w_flow w) p n ++ tail)%list /\
    w_out w' = (w_out w ++ [log_line d w ["stopping..."] " "] ++ said)%list /\
    (w_clock w' == w_clock w + inject_Z (Z.of_nat n) * (1 # 2))%Q /\
    (n = O \/ (inject_Z (Z.of_nat n) * (1 # 2) - (1 # 2) < kill_timeout config)%Q) /\
    (((inject_Z (Z.of_nat n) * (1 # 2) < kill_timeout config)%Q /\
      (exists e1 e2, tail = [probe (w_flow w) p (Some e1); probe (w_flow w) p (Some e2)]) /\
      said = [("stopped" ++ newline)%string])
     \/
     ((kill_timeout config <= inject_Z (Z.of_nat n) * (1 # 2))%Q /\
      (((exists e, tail = [probe (w_flow w) p (Some e)]) /\
        said = [("stopped" ++ newline)%string])
       \/ (tail = [probe (w_flow w) p None; (w_flow w, ECall (Kill p SIGKILL) None)] /\
           said = ["not stopped. "; ("SIGKILL" ++ newline)%string])
       \/ ((exists e, tail = [probe (w_flow w) p None;
                              (w_flow w, ECall (Kill p SIGKILL) (Some e))]) /\
           said = ["not stopped. "; ("stopped" ++ newline)%string])))).
Proof.
  intros Hs Hq Hp Hf Hterm Hgone Hfuel.
  unfold Daemon_stop, pbind, lift, try_except_else, time_time.
  rewrite (pid_regular _ _ _ Hs), Hq. simpl default.
  set (w1 := emit (EOpen (pidfile d) "r" None) w).
  rewrite (os_kill_ok p SIGTERM w1 Hf) by (unfold w1; rewrite step_emit; exact Hterm).
  set (w2 := emit (ECall (Kill p SIGTERM) None) w1).
  destruct (log_spec d ["stopping..."] " " w2) as (w3&Hlog&Hfs3&Hclk3&Htr3&Hfl3&Hex3&Hout3&Hnl3).
  rewrite Hlog.
  destruct (stop_wait_spec os config p (w_clock w3) Hp Hf fuel w3)
    as (n&w4&Hrun&Hfs4&Hout4&Hfl4&Hnl4&Hex4&Hclk4&Hlast4&Htr4).
  { lia. }
  { assert (Hq0 : (2 * (kill_timeout config - (w_clock w3 - w_clock w3))
                   == 2 * kill_timeout config)%Q) by lra.
    rewrite Hq0. unfold poll_bound in Hfuel. lia. }
  rewrite Hrun.
  (* what the worlds before the loop hold *)
  assert (Hclk03 : w_clock w3 = w_clock w) by (rewrite Hclk3; reflexivity).
  assert (Hfl03 : w_flow w3 = w_flow w) by (rewrite Hfl3; reflexivity).
  assert (Htr03 : w_trace w3 = (w_trace w ++ [(w_flow w, EOpen (pidfile d) "r" None);
                                 (w_flow w, ECall (Kill p SIGTERM) None)])%list).
  { rewrite Htr3. unfold w2, w1, emit. simpl. rewrite <- app_assoc. reflexivity. }
  assert (Hout03 : w_out w3 = (w_out w ++ [log_line d w ["stopping..."] " "])%list).
  { rewrite Hout3. reflexivity. }
  assert (Hnl04 : w_log_newline w4 !! name d = Some false) by (rewrite Hnl4; exact Hnl3).
  assert (Helapsed : (w_clock w4 - w_clock w3 == inject_Z (Z.of_nat n) * (1 # 2))%Q)
    by (rewrite Hclk4; lra).
  assert (Hclk04 : (w_clock w4 == w_clock w + inject_Z (Z.of_nat n) * (1 # 2))%Q)
    by (rewrite Hclk4, Hclk03; reflexivity).
  assert (Hlast : n = O \/ (inject_Z (Z.of_nat n) * (1 # 2) - (1 # 2) < kill_timeout config)%Q).
  { destruct Hlast4 as [->|Hl]; [by left | right]. lra. }
  rewrite (process_exists_probe os p w4 Hp Hf).
  set (w5 := emit (ECall (Kill p 0) (os_call os (step w4) (Kill p 0))) w4).
  assert (Hnl05 : w_log_newline w5 !! name d = Some false) by exact Hnl04.
  destruct Htr4 as [(e&Htr4&Hin&Hcall)|(Htr4&Htimeout)].
  - (* a probe failed before the timeout *)
    assert (Hstep4 : step w4 = (step w3 + 2 * n + 1)%nat).
    { unfold step. rewrite Htr4, !length_app, length_polls. simpl. lia. }
    destruct (os_call os (step w4) (Kill p 0)) as [e2|] eqn:Hc4.
    2:{ exfalso. eapply (Hgone (step w3 + 2 * n)%nat (step w4)); [lia | exact Hcall | exact Hc4]. }
    rewrite bool_decide_eq_false_2 by done.
    destruct (log_spec d ["stopped"] newline w5) as (w6&Hlog6&Hfs6&Hclk6&Htr6&Hfl6&Hex6&Hout6&Hnl6).
    unfold bind. rewrite Hlog6. unfold ret.
    exists n, [probe (w_flow w) p (Some e); probe (w_flow w) p (Some e2)],
      [("stopped" ++ newline)%string], w6.
    split; [reflexivity|]. split; [|split; [|split; [|split]]].
    + rewrite Htr6. unfold w5, emit. simpl. rewrite Htr4, Htr03, Hfl4, Hfl03.
      rewrite <- !app_assoc. reflexivity.
    + rewrite Hout6, (log_line_cont d w5) by exact Hnl05.
      unfold w5, emit. simpl. rewrite Hout4, Hout03, <- app_assoc. reflexivity.
    + rewrite Hclk6. exact Hclk04.
    + exact Hlast.
    + left. split; [lra|]. split; [eauto | reflexivity].
  - (* the timeout has elapsed *)
    assert (Hstep5 : step w5 = S (step w4)) by apply step_emit.
    destruct (os_call os (step w4) (Kill p 0)) as [e2|] eqn:Hc4.
    + rewrite bool_decide_eq_false_2 by done.
      destruct (log_spec d ["stopped"] newline w5) as (w6&Hlog6&Hfs6&Hclk6&Htr6&Hfl6&Hex6&Hout6&Hnl6).
      unfold bind. rewrite Hlog6. unfold ret.
      exists n, [probe (w_flow w) p (Some e2)], [("stopped" ++ newline)%string], w6.
      split; [reflexivity|]. split; [|split; [|split; [|split]]].
      * rewrite Htr6. unfold w5, emit. simpl. rewrite Htr4, Htr03, Hfl4, Hfl03.
        rewrite <- !app_assoc. reflexivity.
      * rewrite Hout6, (log_line_cont d w5) by exact Hnl05.
        unfold w5, emit. simpl. rewrite Hout4, Hout03, <- app_assoc. reflexivity.
      * rewrite Hclk6. exact Hclk04.
      * exact Hlast.
      * right. split; [lra|]. left. split; [eauto | reflexivity].
    + rewrite bool_decide_eq_true_2 by done.
      destruct (log_spec d ["not stopped."] " " w5) as (w6&Hlog6&Hfs6&Hclk6&Htr6&Hfl6&Hex6&Hout6&Hnl6).
      rewrite Hlog6. simpl default.
      assert (Hstep6 : step w6 = S (step w4)) by (unfold step; rewrite Htr6; exact Hstep5).
      destruct (os_call os (step w6) (Kill p SIGKILL)) as [e3|] eqn:Hc6.
      * rewrite (os_kill_err p SIGKILL w6 e3 Hf Hc6).
        set (w7 := emit (ECall (Kill p SIGKILL) (Some e3)) w6).
        destruct (log_spec d ["stopped"] newline w7) as (w8&Hlog8&Hfs8&Hclk8&Htr8&Hfl8&Hex8&Hout8&Hnl8).
        unfold bind. rewrite Hlog8. unfold ret.
        exists n, [probe (w_flow w) p None; (w_flow w, ECall (Kill p SIGKILL) (Some e3))],
          ["not stopped. "; ("stopped" ++ newline)%string], w8.
        split; [reflexivity|]. split; [|split; [|split; [|split]]].
        -- rewrite Htr8. unfold w7, emit. simpl. rewrite Htr6, Hfl6. unfold w5, emit. simpl.
           rewrite Htr4, Htr03, Hfl4, Hfl03. rewrite <- !app_assoc. reflexivity.
        -- rewrite Hout8, (log_line_cont d w7) by exact Hnl6.
           unfold w7, emit. simpl. rewrite Hout6, (log_line_cont d w5) by exact Hnl05.
           unfold w5, emit. simpl. rewrite Hout4, Hout03, <- !app_assoc. reflexivity.
        -- rewrite Hclk8. unfold w7, emit. simpl. rewrite Hclk6. exact Hclk04.
        -- exact Hlast.
        -- right. split; [lra|]. right. right. split; [eauto | reflexivity].
      * rewrite (os_kill_ok p SIGKILL w6 Hf Hc6).
        set (w7 := emit (ECall (Kill p SIGKILL) None) w6).
        destruct (log_spec d ["SIGKILL"] newline w7) as (w8&Hlog8&Hfs8&Hclk8&Htr8&Hfl8&Hex8&Hout8&Hnl8).
        unfold bind. rewrite Hlog8. unfold ret.
        exists n, [probe (w_flow w) p None; (w_flow w, ECall (Kill p SIGKILL) None)],
          ["not stopped. "; ("SIGKILL" ++ newline)%string], w8.
        split; [reflexivity|]. split; [|split; [|split; [|split]]].
        -- rewrite Htr8. unfold w7, emit. simpl. rewrite Htr6, Hfl6. unfold w5, emit. simpl.
           rewrite Htr4, Htr03, Hfl4, Hfl03. rewrite <- !app_assoc. reflexivity.
        -- rewrite Hout8, (log_line_cont d w7) by exact Hnl6.
           unfold w7, emit. simpl. rewrite Hout6, (log_line_cont d w5) by exact Hnl05.
           unfold w5, emit. simpl. rewrite Hout4, Hout03, <- !app_assoc. reflexivity.
        -- rewrite Hclk8. unfold w7, emit. simpl. rewrite Hclk6. exact Hclk04.
        -- exact Hlast.
        -- right. split; [lra|]. right. left. split; reflexivity.
Qed.
End Stop.

Lemma os_dies_gone n pid : gone_stays_gone (Sample.os_dies_at n) pid.
Proof.
  intros k m e Hkm. simpl.
  destruct (Nat.ltb_spec k n); [discriminate|].
  destruct (Nat.ltb_spec m n); [lia | discriminate].
Qed.

(** With the default timeout of 10 the loop makes at most 20 rounds. *)
Lemma default_poll_bound root : poll_bound (default_config root) = 20%nat.
Proof. reflexivity. Qed.

(** The recorded process 101 takes [SIGTERM] and is gone at the ninth
    call, well within the default timeout of 10. *)
Lemma C6_stop_escalation_witness :
  let w := Sample.boot (Sample.fs_pid "101") in
  exists n tail said w',
    Daemon_stop (Sample.os_dies_at 8) Sample.cfg 30 Sample.echo w = Some (Ok PyNone, w') /\
    w_trace w' =
      (w_trace w ++ [(w_flow w, EOpen (pidfile Sample.echo) "r" None);
                     (w_flow w, ECall (Kill 101 SIGTERM) None)]
         ++ polls (w_flow w) 101 n ++ tail)%list /\
    w_out w' = (w_out w ++ [log_line Sample.echo w ["stopping..."] " "] ++ said)%list /\
    (w_clock w' == w_clock w + inject_Z (Z.of_nat n) * (1 # 2))%Q /\
    (n = O \/ (inject_Z (Z.of_nat n) * (1 # 2) - (1 # 2) < kill_timeout Sample.cfg)%Q) /\
    (((inject_Z (Z.of_nat n) * (1 # 2) < kill_timeout Sample.cfg)%Q /\
      (exists e1 e2, tail = [probe (w_flow w) 101 (Some e1); probe (w_flow w) 101 (Some e2)]) /\
      said = [("stopped" ++ newline)%string])
     \/
     ((kill_timeout Sample.cfg <= inject_Z (Z.of_nat n) * (1 # 2))%Q /\
      (((exists e, tail = [probe (w_flow w) 101 (Some e)]) /\
        said = [("stopped" ++ newline)%string])
       \/ (tail = [probe (w_flow w) 101 None; (w_flow w, ECall (Kill 101 SIGKILL) None)] /\
           said = ["not stopped. "; ("SIGKILL" ++ newline)%string])
       \/ ((exists e, tail = [probe (w_flow w) 101 None;
                              (w_flow w, ECall (Kill 101 SIGKILL) (Some e))]) /\
           said = ["not stopped. "; ("stopped" ++ newline)%string])))).
Proof.
  intros w.
  apply (C6_stop_escalation (Sample.os_dies_at 8) Sample.cfg 30 Sample.echo w "101" 101).
  - vm_compute. reflexivity.
  - vm_compute. reflexivity.
  - discriminate.
  - reflexivity.
  - reflexivity.
  - apply os_dies_gone.
  - vm_compute. lia.
Defined.

(** ** What [stop] returns, and the exit code of the stop command *)

Section StopResult.

Variable os : os_env.
Variable config : Config.

(** [stop] has no [return] statement: when it returns, it returns
    [None]. *)
Lemma stop_returns_none fuel d w v w' :
  Daemon_stop os config fuel d w = Some (Ok v, w') -> v = PyNone.
Proof.
  unfold Daemon_stop, pbind, lift, try_except_else, bind, ret, raise.
  intros H. repeat case_match; simplify_eq; done.
Qed.

(** Hence [main] leaves the loop of the stop command at the first
    daemon, with exit code 1. *)
Lemma stop_command_exit_code fuel d ds w code w' :
  main os config fuel CmdStop (d :: ds) w = Some (Ok code, w') -> code = 1.
Proof.
  simpl. unfold pbind. intros H.
  destruct (Daemon_stop os config fuel d w) as [[[v|e] w1]|] eqn:E; [|done|done].
  apply stop_returns_none in E. subst v. simpl in H. unfold lift, ret in H.
  congruence.
Qed.

(** When the graceful signal cannot be delivered, [stop] prints "not
    started" and returns [None]. *)
Lemma stop_not_started fuel d w p w1 e :
  Daemon_pid d w = (Ok p, w1) ->
  pid_fits p = true ->
  os_call os (step w1) (Kill p SIGTERM) = Some e ->
  exists w',
    Daemon_stop os config fuel d w = Some (Ok PyNone, w') /\
    w_out w' = (w_out w ++ [log_line d w ["not started"] newline])%list /\
    w_trace w' = (w_trace w1 ++ [(w_flow w, ECall (Kill p SIGTERM) (Some e))])%list /\
    w_fs w' = w_fs w.
Proof.
  intros Hpid Hf Hc. unfold Daemon_stop, pbind, lift, try_except_else.
  rewrite Hpid, (os_kill_err os p SIGTERM w1 e Hf Hc).
  destruct (pid_frame d w) as [r Hw1]. rewrite Hpid in Hw1. simpl in Hw1. subst w1.
  eexists. split; [reflexivity|]. repeat split.
Qed.

End StopResult.

(** C2 (stopping a daemon that is not running).  The PID file of the
    daemon records 4242 and no such process exists: [stop] prints "not
    started" and returns [None], not a true value, and the stop command
    ends with exit code 1.  With no PID file the PID is 0 and [stop]
    sends [SIGTERM] to pid 0 all the same: where that signal is refused
    the outcome is as before, exit code 1; where it is delivered, as it
    is to the caller's own process group, [stop] prints "stopping..."
    and "stopped" and never "not started".  In general, whenever the
    stop command of one daemon or more ends normally, its exit code
    is 1. *)
Theorem C2_stop_not_running_exits_1 :
  let stale := Sample.boot (Sample.fs_pid "4242") in
  let none := Sample.boot Sample.fs_empty in
  (exists w',
      Daemon_stop Sample.os_no_process Sample.cfg 30 Sample.echo stale
        = Some (Ok PyNone, w') /\
      w_out w' = [("-  [echo] not started" ++ newline)%string]) /\
  (exists w',
      main Sample.os_no_process Sample.cfg 30 CmdStop [Sample.echo] stale
        = Some (Ok 1, w') /\
      w_out w' = [("-  [echo] not started" ++ newline)%string]) /\
  (exists w',
      main Sample.os_no_process Sample.cfg 30 CmdStop [Sample.echo] none
        = Some (Ok 1, w') /\
      w_out w' = [("-  [echo] not started" ++ newline)%string]) /\
  (exists w',
      main Sample.os_ok Sample.cfg 30 CmdStop [Sample.echo] none = Some (Ok 1, w') /\
      w_out w' = ["-  [echo] stopping... "; ("stopped" ++ newline)%string] /\
      In (Supervising, ECall (Kill 0 SIGTERM) None) (w_trace w')) /\
  (forall os config fuel d ds w code w',
      main os config fuel CmdStop (d :: ds) w = Some (Ok code, w') -> code = 1).
Proof.
  intros stale none.
  split; [eexists; split; [vm_compute; reflexivity | reflexivity]|].
  split; [eexists; split; [vm_compute; reflexivity | reflexivity]|].
  split; [eexists; split; [vm_compute; reflexivity | reflexivity]|].
  split.
  - eexists. split; [vm_compute; reflexivity|]. split; [reflexivity|].
    simpl. auto.
  - intros os config fuel d ds w code w'. apply stop_command_exit_code.
Qed.

(** ** Invariants of the operations *)

Section Hoare.

Context {A B : Type}.

Lemma hoare_bind P (m : M A) (k : A -> M B) R Q :
  hoare P m (fun r w => match r with Ok a => R a w | Raise e => Q (Raise e) w end) ->
  (forall a, hoare (R a) (k a) Q) ->
  hoare P (bind m k) Q.
Proof.
  intros Hm Hk w HP. specialize (Hm w HP). unfold bind.
  destruct (m w) as [[a|e] w1]; simpl in *; [apply Hk, Hm | exact Hm].
Qed.

Lemma hoare_conseq (P P' : world -> Prop) (m : M A) (Q Q' : result A -> world -> Prop) :
  (forall w, P' w -> P w) -> (forall r w, Q r w -> Q' r w) ->
  hoare P m Q -> hoare P' m Q'.
Proof. intros HP HQ H w Hw. apply HQ, H, HP, Hw. Qed.

Lemma inv_ret I (a : A) : inv I (ret a).
Proof. intros w H. exact H. Qed.

Lemma inv_raise I e : inv I (@raise A e).
Proof. intros w H. exact H. Qed.

Lemma inv_bind I (m : M A) (k : A -> M B) :
  inv I m -> (forall a, inv I (k a)) -> inv I (bind m k).
Proof.
  intros Hm Hk. apply hoare_bind with (R := fun _ => I); [|exact Hk].
  intros w H. specialize (Hm w H). destruct (m w) as [[a|e] w1]; exact Hm.
Qed.

Lemma inv_try_except I (m : M A) (h : exn -> M A) :
  inv I m -> (forall e, inv I (h e)) -> inv I (try_except m h).
Proof.
  intros Hm Hh w H. specialize (Hm w H). unfold try_except.
  destruct (m w) as [[a|e] w1]; simpl in *; [exact Hm | apply Hh, Hm].
Qed.

Lemma inv_try_finally I (m : M A) (fin : M unit) :
  inv I m -> inv I fin -> inv I (try_finally m fin).
Proof.
  intros Hm Hf w H. specialize (Hm w H). unfold try_finally.
  destruct (m w) as [r w1]. simpl in Hm. specialize (Hf w1 Hm).
  destruct (fin w1) as [[[]|e] w2]; exact Hf.
Qed.

Lemma pinv_lift I (m : M A) : inv I m -> pinv I (lift m).
Proof.
  intros Hm w r w' H E. unfold lift in E. specialize (Hm w H).
  destruct (m w) as [r0 w0]. simplify_eq. exact Hm.
Qed.

Lemma pinv_pbind I (m : P A) (k : A -> P B) :
  pinv I m -> (forall a, pinv I (k a)) -> pinv I (pbind m k).
Proof.
  intros Hm Hk w r w' H E. unfold pbind in E.
  destruct (m w) as [[[a|e] w1]|] eqn:Em; [| |done].
  - eapply Hk; [|exact E]. eapply Hm; [exact H | exact Em].
  - simplify_eq. eapply Hm; [exact H | exact Em].
Qed.

Lemma pinv_try_except_else I (m : M A) (h : exn -> P B) (els : A -> P B) :
  inv I m -> (forall e, pinv I (h e)) -> (forall a, pinv I (els a)) ->
  pinv I (try_except_else m h els).
Proof.
  intros Hm Hh He w r w' H E. unfold try_except_else in E. specialize (Hm w H).
  destruct (m w) as [[a|e] w1]; simpl in Hm.
  - eapply He; [exact Hm | exact E].
  - eapply Hh; [exact Hm | exact E].
Qed.

End Hoare.

(** Tactics that prove [inv I m] by following the structure of [m]: the
    combinators by their rules, the primitive operations by unfolding
    them; [solver] closes what remains for the invariant at hand. *)

Ltac seen_solver :=
  idtac;
  let Hf := fresh "Hf" in
  let Ho := fresh "Ho" in
  idtac;
  match goal with
  | H : seen _ _ _ _ |- _ =>
      destruct H as [Hf Ho]; split; simpl;
      [ exact Hf
      | unfold obs in *; simpl; rewrite ?List.filter_app; simpl;
        rewrite ?Hf; simpl; rewrite ?app_nil_r; exact Ho ]
  end.

Ltac inv_prim solver :=
  let w := fresh "w" in
  let H := fresh "H" in
  intros w H;
  unfold makedirs, os_kill;
  unfold sys, open_read, open_write, open_append, file_write, file_close,
    Popen, waitpid, Daemon_log, time_sleep, ret, raise, emit, set_fs;
  repeat case_match; simpl; solver.

Ltac inv_auto solver :=
  repeat
    lazymatch goal with
    | |- inv _ (bind _ _) => apply inv_bind; [|intros ?]
    | |- inv _ (try_except _ _) => apply inv_try_except; [|intros ?]
    | |- inv _ (try_finally _ _) => apply inv_try_finally
    | |- inv _ (ret _) => apply inv_ret
    | |- inv _ (raise _) => apply inv_raise
    | |- inv _ (if ?b then _ else _) => destruct b
    | |- inv _ (match ?x with _ => _ end) => destruct x
    | |- inv _ _ => inv_prim solver
    end.


Ltac fs_solver := idtac; simpl; assumption.

Section SupervisingFlow.

Variable os : os_env.
Variable config : Config.

(** *** The file system is not touched by reading, probing, printing *)

Lemma pid_fs F d : inv (fs_is F) (Daemon_pid d).
Proof. unfold Daemon_pid, fs_is. inv_auto fs_solver. Qed.

Lemma process_exists_fs F pid : inv (fs_is F) (process_exists os pid).
Proof. unfold process_exists, fs_is. inv_auto fs_solver. Qed.

Lemma stop_wait_fs F fuel pid tstart : pinv (fs_is F) (stop_wait os config fuel pid tstart).
Proof.
  induction fuel as [|fuel IH]; intros w r w' H E; [discriminate|].
  rewrite stop_wait_S in E.
  destruct (Qlt_bool _ _); [|by simplify_eq].
  pose proof (process_exists_fs F pid w H) as Hp.
  destruct (process_exists os pid w) as [[[|]|e] w1]; simpl in Hp; [|by simplify_eq..].
  eapply IH; [|exact E]. exact Hp.
Qed.

Lemma stop_fs F fuel d : pinv (fs_is F) (Daemon_stop os config fuel d).
Proof.
  unfold Daemon_stop.
  apply pinv_pbind; [apply pinv_lift, pid_fs | intros pid].
  apply pinv_try_except_else.
  - unfold fs_is. inv_auto fs_solver.
  - intros [e| | |]; apply pinv_lift; unfold fs_is; inv_auto fs_solver.
  - intros _.
    apply pinv_pbind; [apply pinv_lift; unfold fs_is; inv_auto fs_solver | intros _].
    apply pinv_pbind; [apply pinv_lift; intros w H; exact H | intros tstart].
    apply pinv_pbind; [apply stop_wait_fs | intros _].
    apply pinv_pbind; [apply pinv_lift, process_exists_fs | intros [|]].
    + apply pinv_pbind; [apply pinv_lift; unfold fs_is; inv_auto fs_solver | intros _].
      apply pinv_try_except_else.
      * unfold fs_is. inv_auto fs_solver.
      * intros [e| | |]; apply pinv_lift; unfold fs_is; inv_auto fs_solver.
      * intros _. apply pinv_lift; unfold fs_is; inv_auto fs_solver.
    + apply pinv_lift; unfold fs_is; inv_auto fs_solver.
Qed.

(** The PID read depends on the file system only. *)
Lemma pid_depends_on_fs d w1 w2 :
  w_fs w1 = w_fs w2 -> fst (Daemon_pid d w1) = fst (Daemon_pid d w2).
Proof.
  intros H. unfold Daemon_pid, bind, try_except, open_read. rewrite H.
  destruct (w_fs w2 !! pidfile d) as [[s|e]|]; simpl; try done.
  - destruct (py_int (readline s)); done.
  - destruct (negb (e =? ENOENT)); done.
Qed.

(** *** The supervising flow performs no write *)


Lemma pid_quiet fl L d : inv (seen supervising_write fl L) (Daemon_pid d).
Proof. unfold Daemon_pid. destruct fl; inv_auto seen_solver. Qed.

Lemma process_exists_quiet fl L pid : inv (seen supervising_write fl L) (process_exists os pid).
Proof. unfold process_exists. destruct fl; inv_auto seen_solver. Qed.

Lemma status_quiet fl L d : inv (seen supervising_write fl L) (Daemon_status os d).
Proof.
  unfold Daemon_status.
  apply inv_bind; [apply pid_quiet | intros p].
  apply inv_bind; [apply process_exists_quiet | intros b].
  destruct fl; inv_auto seen_solver.
Qed.

Lemma log_quiet fl L d msg e : inv (seen supervising_write fl L) (Daemon_log d msg e).
Proof. destruct fl; inv_auto seen_solver. Qed.

Lemma stop_wait_quiet fl L fuel pid tstart :
  pinv (seen supervising_write fl L) (stop_wait os config fuel pid tstart).
Proof.
  induction fuel as [|fuel IH]; intros w r w' H E; [discriminate|].
  rewrite stop_wait_S in E.
  destruct (Qlt_bool _ _); [|by simplify_eq].
  pose proof (process_exists_quiet fl L pid w H) as Hp.
  destruct (process_exists os pid w) as [[[|]|e] w1]; simpl in Hp; [|by simplify_eq..].
  eapply IH; [|exact E].
  assert (Hs : inv (seen supervising_write fl L) (time_sleep (1 # 2))) by (destruct fl; inv_auto seen_solver).
  exact (Hs w1 Hp).
Qed.

Lemma stop_quiet fl L fuel d : pinv (seen supervising_write fl L) (Daemon_stop os config fuel d).
Proof.
  unfold Daemon_stop.
  apply pinv_pbind; [apply pinv_lift, pid_quiet | intros pid].
  apply pinv_try_except_else.
  - destruct fl; inv_auto seen_solver.
  - intros [e| | |]; apply pinv_lift; destruct fl; inv_auto seen_solver.
  - intros _.
    apply pinv_pbind; [apply pinv_lift, log_quiet | intros _].
    apply pinv_pbind; [apply pinv_lift; intros w H; exact H | intros tstart].
    apply pinv_pbind; [apply stop_wait_quiet | intros _].
    apply pinv_pbind; [apply pinv_lift, process_exists_quiet | intros [|]].
    + apply pinv_pbind; [apply pinv_lift, log_quiet | intros _].
      apply pinv_try_except_else.
      * destruct fl; inv_auto seen_solver.
      * intros [e| | |]; apply pinv_lift; destruct fl; inv_auto seen_solver.
      * intros _. apply pinv_lift; destruct fl; inv_auto seen_solver.
    + apply pinv_lift; destruct fl; inv_auto seen_solver.
Qed.

Lemma start_detached_quiet d i L :
  inv (seen supervising_write Detached L) (start_after_fork os d i 0).
Proof.
  unfold start_after_fork. change (0 >? 0) with false. cbv iota.
  inv_auto seen_solver.
Qed.

Lemma start_supervising_quiet d i child L :
  inv (seen supervising_write Supervising L) (start_after_fork os d i (Z.pos child)).
Proof.
  unfold start_after_fork. change (Z.pos child >? 0) with true. cbv iota.
  apply inv_bind; [inv_auto seen_solver | intros st].
  apply inv_bind; [|intros _; apply inv_ret].
  destruct (st =? 0); [|apply log_quiet].
  apply inv_bind; [apply pid_quiet | intros p; apply log_quiet].
Qed.

(** [fork_then]: what the child does in the detached flow is no call of
    the supervising flow. *)
Lemma fork_then_quiet {A} (k : Z -> M A) L :
  (inv (seen supervising_write Detached L) (k 0)) ->
  (forall child, inv (seen supervising_write Supervising L) (k (Z.pos child))) ->
  inv (seen supervising_write Supervising L) (fork_then os k).
Proof.
  intros Hchild Hparent w [Hf Ho]. unfold fork_then.
  destruct (os_fork os (step w)) as [child|e].
  - set (w1 := emit (EFork (inl child)) w).
    set (wc := World (w_fs w1) (w_out w1) (w_clock w1) (w_trace w1) Detached
                     (w_log_newline w1) ∅).
    assert (Hc : seen supervising_write Detached L wc).
    { split; [reflexivity|]. unfold obs. simpl. rewrite List.filter_app, Hf. simpl.
      rewrite app_nil_r. exact Ho. }
    specialize (Hchild wc Hc). destruct (k 0 wc) as [r wd]. simpl in Hchild.
    destruct Hchild as [Hfd Hod].
    apply Hparent. split; [exact Hf|].
    unfold obs. simpl. rewrite List.filter_app, Hfd. simpl. rewrite app_nil_r. exact Hod.
  - split; [exact Hf|]. unfold obs. simpl. rewrite List.filter_app, Hf. simpl.
    rewrite app_nil_r. exact Ho.
Qed.

Lemma start_quiet L d : inv (seen supervising_write Supervising L) (Daemon_start os d).
Proof.
  unfold Daemon_start.
  apply inv_bind; [apply status_quiet | intros st].
  destruct (String.eqb st Status_Started).
  - apply inv_bind; [apply log_quiet | intros _; apply inv_ret].
  - apply inv_bind.
    + unfold resolve_identity. inv_auto seen_solver.
    + intros i. apply fork_then_quiet.
      * apply start_detached_quiet.
      * intros child. apply start_supervising_quiet.
Qed.

Lemma main_quiet L fuel cmd ds : pinv (seen supervising_write Supervising L) (main os config fuel cmd ds).
Proof.
  assert (Hstart : inv (seen supervising_write Supervising L) (start_each os ds)).
  { induction ds as [|d ds IH]; simpl; [apply inv_ret|].
    apply inv_bind; [apply start_quiet | intros v].
    destruct (negb (truthy v)); [apply inv_ret | exact IH]. }
  destruct cmd; simpl.
  - apply pinv_lift. clear Hstart. induction ds as [|d ds IH]; simpl; [apply inv_ret|].
    apply inv_bind; [apply status_quiet | intros st].
    apply inv_bind; [apply log_quiet | intros _; exact IH].
  - clear Hstart. induction ds as [|d ds IH]; simpl; [apply pinv_lift, inv_ret|].
    apply pinv_pbind; [apply stop_quiet | intros v].
    destruct (negb (truthy v)); [apply pinv_lift, inv_ret | exact IH].
  - apply pinv_lift, Hstart.
  - apply pinv_pbind; [|intros _; apply pinv_lift, Hstart].
    clear Hstart. induction ds as [|d ds IH]; simpl; [apply pinv_lift, inv_ret|].
    apply pinv_pbind; [apply stop_quiet | intros _; exact IH].
Qed.

Lemma status_fs F d : inv (fs_is F) (Daemon_status os d).
Proof.
  unfold Daemon_status.
  apply inv_bind; [apply pid_fs | intros p].
  apply inv_bind; [apply process_exists_fs | intros b].
  unfold fs_is. inv_auto fs_solver.
Qed.

Lemma main_stop_status_fs F fuel cmd ds :
  cmd = CmdStop \/ cmd = CmdStatus ->
  pinv (fs_is F) (main os config fuel cmd ds).
Proof.
  intros [->| ->]; simpl.
  - induction ds as [|d ds IH]; simpl; [apply pinv_lift, inv_ret|].
    apply pinv_pbind; [apply stop_fs | intros v].
    destruct (negb (truthy v)); [apply pinv_lift, inv_ret | exact IH].
  - apply pinv_lift. induction ds as [|d ds IH]; simpl; [apply inv_ret|].
    apply inv_bind; [apply status_fs | intros st].
    apply inv_bind; [unfold fs_is; inv_auto fs_solver | intros _; exact IH].
Qed.

End SupervisingFlow.

(** C9 (the supervising flow never rewrites the PID file).  [stop]
    leaves the whole file system as it was, so the PID file keeps the
    recorded PID and a later read yields what the read before [stop]
    yielded; a status [Stopped] after [stop] comes from a failed probe
    of that same PID (or from the PID being 0 from the start).
    Whatever the command, the supervising flow performs no call that
    creates a directory, opens a file for writing or writes a file; the
    status and stop commands leave the file system unchanged. *)
Theorem C9_supervising_flow_keeps_pidfile os config fuel d w r w' :
  Daemon_stop os config fuel d w = Some (r, w') ->
  w_fs w' = w_fs w /\
  fst (Daemon_pid d w') = fst (Daemon_pid d w) /\
  (fst (Daemon_status os d w') = Ok Status_Stopped ->
   exists p w1,
     Daemon_pid d w' = (Ok p, w1) /\ fst (Daemon_pid d w) = Ok p /\
     fst (process_exists os p w1) = Ok false) /\
  (forall cmd ds w0 r0 w0',
      w_flow w0 = Supervising ->
      main os config fuel cmd ds w0 = Some (r0, w0') ->
      w_flow w0' = Supervising /\
      obs supervising_write w0' = obs supervising_write w0 /\
      (cmd = CmdStop \/ cmd = CmdStatus -> w_fs w0' = w_fs w0)).
Proof.
  intros Hstop.
  assert (Hfs : w_fs w' = w_fs w).
  { exact (stop_fs os config (w_fs w) fuel d w r w' eq_refl Hstop). }
  assert (Hpid : fst (Daemon_pid d w') = fst (Daemon_pid d w)).
  { apply pid_depends_on_fs, Hfs. }
  split; [exact Hfs|]. split; [exact Hpid|]. split.
  - intros Hst. apply status_stopped_iff in Hst as (p&w1&H1&H2).
    exists p, w1. split; [exact H1|]. split; [|exact H2].
    rewrite <- Hpid, H1. reflexivity.
  - intros cmd ds w0 r0 w0' Hflow Hmain.
    destruct (main_quiet os config (obs supervising_write w0) fuel cmd ds w0 r0 w0'
                (conj Hflow eq_refl) Hmain) as [Hf Ho].
    split; [exact Hf|]. split; [exact Ho|].
    intros Hcmd.
    exact (main_stop_status_fs os config (w_fs w0) fuel cmd ds Hcmd w0 r0 w0' eq_refl Hmain).
Qed.

(** Stopping the recorded process 101, which dies at the ninth call. *)
Lemma C9_supervising_flow_keeps_pidfile_witness :
  let w := Sample.boot (Sample.fs_pid "101") in
  exists r w',
    Daemon_stop (Sample.os_dies_at 8) Sample.cfg 30 Sample.echo w = Some (r, w') /\
    w_fs w' = w_fs w /\
    fst (Daemon_pid Sample.echo w') = fst (Daemon_pid Sample.echo w).
Proof.
  intros w.
  destruct (Daemon_stop (Sample.os_dies_at 8) Sample.cfg 30 Sample.echo w)
    as [[r w']|] eqn:E.
  - exists r, w'. split; [reflexivity|].
    destruct (C9_supervising_flow_keeps_pidfile _ _ _ _ _ _ _ E) as (H1&H2&_).
    split; [exact H1 | exact H2].
  - vm_compute in E. discriminate.
Defined.

(** ** What [start] returns, and the exit code of the start command *)

Section StartResult.
Variable os : os_env.
Variable config : Config.

Lemma supervisor_returns_true d i child w v :
  fst (start_after_fork os d i (Z.pos child) w) = Ok v -> v = PyBool true.
Proof.
  unfold start_after_fork. change (Z.pos child >? 0) with true. cbv iota.
  unfold bind, ret. intros H. repeat case_match; simplify_eq/=; done.
Qed.

(** The supervising flow prints "could not be started" exactly when the
    wait status of the detached flow is not 0. *)
Lemma supervisor_reports d i child w st :
  w_exit w !! Z.pos child = Some st ->
  st <> 0 ->
  exists w',
    start_after_fork os d i (Z.pos child) w = (Ok (PyBool true), w') /\
    w_out w' =
      (w_out w ++ [log_line d w ["could not be started, check the output file eventually"]
                     newline])%list.
Proof.
  intros Hst Hne. unfold start_after_fork. change (Z.pos child >? 0) with true.
  cbv iota. unfold bind, waitpid. rewrite Hst.
  destruct (Z.eqb_spec st 0) as [|_]; [done|].
  eexists. split; reflexivity.
Qed.

Lemma start_returns_true d w v :
  fst (Daemon_start os d w) = Ok v -> v = PyBool true.
Proof.
  unfold Daemon_start, bind.
  destruct (Daemon_status os d w) as [[st|e] w1]; [|done].
  destruct (String.eqb st Status_Started).
  - unfold ret. intros H. repeat case_match; simplify_eq/=; done.
  - destruct (resolve_identity os d w1) as [[i|e] w2]; [|done].
    unfold fork_then. destruct (os_fork os (step w2)) as [child|e]; [|done].
    destruct (start_after_fork os d i 0 _) as [r wd].
    apply supervisor_returns_true.
Qed.

Lemma start_command_exit_code fuel ds w code w' :
  main os config fuel CmdStart ds w = Some (Ok code, w') -> code = 0.
Proof.
  simpl. unfold lift. intros H. injection H as H.
  revert w H. induction ds as [|d ds IH]; intros w H; simpl in H.
  - unfold ret in H. congruence.
  - unfold bind in H.
    destruct (Daemon_start os d w) as [[v|e] w1] eqn:E; [|simplify_eq].
    assert (v = PyBool true) by (eapply start_returns_true; rewrite E; reflexivity).
    subst v. simpl in H. eapply IH, H.
Qed.
End StartResult.

(** C3 (what a failed start reports).  The daemon [web] is to run as
    user [www], and the process may not change its user id: the
    detached flow prints "not permitted to change to user 'www'" and
    exits with code 1 before any launch; the supervising flow sees the
    wait status 256 and prints "could not be started, ..."; yet [start]
    returns [True], and the start command ends with exit code 0.  In
    general, whenever the start command ends normally, its exit code
    is 0. *)
Theorem C3_failed_start_returns_true :
  let w := Sample.boot Sample.fs_empty in
  let w' := snd (Daemon_start Sample.os_no_setuid Sample.web w) in
  fst (Daemon_start Sample.os_no_setuid Sample.web w) = Ok (PyBool true) /\
  w_out w' =
    [("-  [web] not permitted to change to user 'www'" ++ newline)%string;
     ("-  [web] could not be started, check the output file eventually" ++ newline)%string] /\
  In (Detached, EExit 1) (w_trace w') /\
  In (Supervising, EWaitpid 100 256) (w_trace w') /\
  (forall cmd r, ~ In (Detached, EPopen cmd r) (w_trace w')) /\
  fst <$> main Sample.os_no_setuid Sample.cfg 30 CmdStart [Sample.web] w = Some (Ok 0) /\
  (forall os config fuel ds w0 code w0',
      main os config fuel CmdStart ds w0 = Some (Ok code, w0') -> code = 0).
Proof.
  intros w w'. split; [vm_compute; reflexivity|]. split; [vm_compute; reflexivity|].
  remember (w_trace w') as tr eqn:Htr. vm_compute in Htr. subst tr.
  split; [simpl; tauto|]. split; [simpl; tauto|]. split; [|split].
  - intros cmd r Hin. simpl in Hin.
    repeat (destruct Hin as [Hin|Hin]; [discriminate Hin|]). destruct Hin.
  - vm_compute. reflexivity.
  - intros os config fuel ds w0 code w0'. apply start_command_exit_code.
Qed.

(** ** The launch step of the detached flow *)

Section Launch.
Variable os : os_env.

Lemma launched_other d fl closing e w :
  exit_code (@Raise pyval e) <> 0 -> launched d fl closing (Raise e) w.
Proof. intros H. split; [discriminate | intros H0; destruct (H H0)]. Qed.

Lemma hoare_bind_passes {A} P P' (m : M A) (k : A -> M pyval) d fl closing :
  passes P P' m ->
  (forall a, hoare P' (k a) (launched d fl closing)) ->
  hoare P (bind m k) (launched d fl closing).
Proof.
  intros Hm Hk. eapply hoare_bind; [|exact Hk].
  intros w H. specialize (Hm w H). destruct (m w) as [[a|e] w1]; simpl in *.
  - exact Hm.
  - apply launched_other, Hm.
Qed.

Lemma passes_bind {A B} P P' P'' (m : M A) (k : A -> M B) :
  passes P P' m -> (forall a, passes P' P'' (k a)) -> passes P P'' (bind m k).
Proof.
  intros Hm Hk. eapply hoare_bind; [|exact Hk].
  intros w H. specialize (Hm w H). destruct (m w) as [[a|e] w1]; exact Hm.
Qed.

(** A handler around a system call sees an [OSError] only. *)
Lemma passes_try_sys P c (h : exn -> M unit) :
  inv P (sys os c) -> (forall e, passes P P (h (OSError e))) ->
  passes P P (try_except (sys os c) h).
Proof.
  intros Hm Hh w H. specialize (Hm w H). unfold try_except. revert Hm. unfold sys.
  destruct (os_call os (step w) c) as [e|]; simpl; intros Hm; [apply Hh, Hm | exact Hm].
Qed.

Lemma passes_ret {A} P (a : A) : passes P P (ret a).
Proof. intros w H. exact H. Qed.

Lemma passes_raise {A} P e :
  exit_code (@Raise pyval e) <> 0 -> passes P P (@raise A e).
Proof. intros He w H. exact He. Qed.

End Launch.

(** The same for [passes]. *)

Ltac open_solver :=
  idtac;
  first
    [ (vm_compute; discriminate)
    | match goal with
      | H : pidfile_open _ _ _ |- _ =>
          let Hfs := fresh "Hfs" in
          let Hfl := fresh "Hfl" in
          destruct H as [Hfs Hfl]; split; simpl;
          [ first [ exact Hfs
                  | rewrite lookup_insert; case_decide; simplify_eq; done ]
          | exact Hfl ]
      end ].

Ltac destruct_os :=
  repeat
    match goal with
    | |- context [os_call ?o ?n ?c] => destruct (os_call o n c) eqn:?; simpl
    | |- context [os_exists ?o ?n ?p] => destruct (os_exists o n p) eqn:?; simpl
    | |- context [os_popen ?o ?n ?c] => destruct (os_popen o n c) eqn:?; simpl
    | |- context [w_fs ?w !! ?p] => destruct (w_fs w !! p) as [[?|?]|] eqn:?; simpl
    | |- context [w_exit ?w !! ?p] => destruct (w_exit w !! p) eqn:?; simpl
    end.

Ltac passes_prim solver :=
  let w := fresh "w" in
  let H := fresh "H" in
  intros w H; cbv beta;
  unfold makedirs, os_kill;
  unfold sys, open_read, open_write, open_append, file_write, file_close,
    Popen, waitpid, Daemon_log, time_sleep, ret, raise, emit, set_fs;
  simpl; destruct_os; solver.

Ltac passes_auto solver :=
  repeat
    (cbv beta;
    lazymatch goal with
    | |- passes ?P _ (bind _ _) => apply (passes_bind P P); [|intros ?]
    | |- passes _ _ (try_except (sys _ _) _) => apply passes_try_sys; [|intros ?]
    | |- passes _ _ (ret _) => apply passes_ret
    | |- passes _ _ (raise _) => apply passes_raise; vm_compute; discriminate
    | |- passes _ _ (if ?b then _ else _) => destruct b
    | |- passes _ _ (match ?x with _ => _ end) => destruct x
    | |- passes _ _ _ => passes_prim solver
    | |- inv _ _ => inv_prim solver
    end).

Section DetachedFlow.
Variable os : os_env.

Lemma pid_val_fits (p : pid_t) : pid_fits (Z.pos (pid_val p)) = true.
Proof.
  unfold pid_fits. rewrite (pid_range p), andb_true_r. apply Z.leb_le. lia.
Qed.

Lemma launch_step d fl :
  hoare (pidfile_open (pidfile d) fl)
    (process_pid <- Popen os (prog d :: args d) ;;
     file_write (pidfile d) (py_str process_pid) ;;;
     raise (SystemExit 0))
    (launched d fl []).
Proof.
  intros w [Hfs Hfl]. unfold bind, Popen, file_write, raise.
  destruct (os_popen os (step w) (prog d :: args d)) as [p|e]; simpl.
  - split; [discriminate|]. intros _. exists (w_trace w), (pid_val p).
    split; [apply pid_val_fits|].
    unfold emit, set_fs. simpl. rewrite Hfs, Hfl, lookup_insert_eq.
    rewrite <- app_assoc. done.
  - apply launched_other. vm_compute. discriminate.
Qed.

Lemma detached_flow_launch d i fl :
  hoare (fun w => w_flow w = fl) (start_after_fork os d i 0)
        (launched d fl [(fl, EClose (pidfile d))]).
Proof.
  unfold start_after_fork. change (0 >? 0) with false. cbv iota.
  (* the directories *)
  do 4 (eapply hoare_bind_passes with (P' := fun w => w_flow w = fl);
        [passes_prim ltac:(idtac; first [(vm_compute; discriminate) | (simpl; assumption)])
        | intros _]).
  (* the PID file is opened *)
  eapply hoare_bind_passes with (P' := pidfile_open (pidfile d) fl).
  { intros w H. unfold open_write, emit, set_fs.
    destruct (w_fs w !! pidfile d) as [[s|e]|]; simpl; try (vm_compute; discriminate).
    - split; [apply lookup_insert_eq | exact H].
    - split; [apply lookup_insert_eq | exact H]. }
  intros _.
  (* the body of [try] and the [finally] clause *)
  assert (Hbody : forall m : M pyval,
             hoare (pidfile_open (pidfile d) fl) m (launched d fl []) ->
             hoare (pidfile_open (pidfile d) fl) (try_finally m (file_close (pidfile d)))
                   (launched d fl [(fl, EClose (pidfile d))])).
  { intros m Hm w H. specialize (Hm w H). unfold try_finally, file_close.
    destruct (m w) as [r w1]. simpl in *. destruct Hm as [Hno Hm].
    split; [exact Hno|]. intros Hr. destruct (Hm Hr) as (pre&p&Hp&Htr&Hfs&Hfl).
    exists pre, p. split; [exact Hp|].
    unfold emit. simpl. rewrite Htr, Hfl, app_nil_r, <- !app_assoc.
    done. }
  apply Hbody. clear Hbody.
  do 11 (eapply hoare_bind_passes with (P' := pidfile_open (pidfile d) fl);
         [passes_auto open_solver | intros ?]).
  apply launch_step.
Qed.
End DetachedFlow.

(** C4 (the launch step, as the code performs it).  The detached flow
    never returns;
    when it ends with exit code 0, its last calls are: the spawn of the
    program as a new process, which yields a PID [p]; the write of [p]
    into the PID file; the closing of the PID file.  The PID file then
    holds [p], the PID of the spawned program. *)
Theorem C4_launch_spawns_then_records os d i w :
  (forall v, fst (start_after_fork os d i 0 w) <> Ok v) /\
  (exit_code (fst (start_after_fork os d i 0 w)) = 0 ->
   exists pre p,
     w_trace (snd (start_after_fork os d i 0 w)) =
       (pre ++ [(w_flow w, EPopen (prog d :: args d) (inl p));
                (w_flow w, EWrite (pidfile d) (py_str (Z.pos p)));
                (w_flow w, EClose (pidfile d))])%list /\
     w_fs (snd (start_after_fork os d i 0 w)) !! pidfile d
       = Some (Regular (py_str (Z.pos p)))).
Proof.
  destruct (detached_flow_launch os d i (w_flow w) w eq_refl) as [Hno Hexit].
  split; [exact Hno|]. intros H. destruct (Hexit H) as (pre&p&_&Htr&Hfs&_).
  exists pre, p. split; [exact Htr | exact Hfs].
Qed.

Lemma C4_launch_spawns_then_records_witness :
  let w := Sample.boot Sample.fs_empty in
  exists pre p,
    w_trace (snd (start_after_fork Sample.os_ok Sample.echo (Identity None None None) 0 w)) =
      (pre ++ [(w_flow w, EPopen (prog Sample.echo :: args Sample.echo) (inl p));
               (w_flow w, EWrite (pidfile Sample.echo) (py_str (Z.pos p)));
               (w_flow w, EClose (pidfile Sample.echo))])%list /\
    w_fs (snd (start_after_fork Sample.os_ok Sample.echo (Identity None None None) 0 w))
      !! pidfile Sample.echo = Some (Regular (py_str (Z.pos p))).
Proof.
  intros w.
  apply (proj2 (C4_launch_spawns_then_records Sample.os_ok Sample.echo
                  (Identity None None None) w)).
  vm_compute. reflexivity.
Defined.

(** C4 (no image replacement).  Starting [echo] succeeds: the detach
    operation yields PID 100, the program runs as PID 101 and 101 is
    what the PID file records; and the PID file is written right after
    the launch, not before it.  So [launch_replaces_image] fails. *)
Lemma C4_counterexample :
  let w' := snd (Daemon_start Sample.os_ok Sample.echo (Sample.boot Sample.fs_empty)) in
  fst (Daemon_start Sample.os_ok Sample.echo (Sample.boot Sample.fs_empty))
    = Ok (PyBool true) /\
  w_trace w' !! 1%nat = Some (Supervising, EFork (inl 100%positive)) /\
  w_trace w' !! 14%nat = Some (Detached, EPopen ["/bin/sleep"; "5"] (inl 101%positive)) /\
  w_trace w' !! 15%nat = Some (Detached, EWrite (pidfile Sample.echo) "101") /\
  w_fs w' !! pidfile Sample.echo = Some (Regular "101") /\
  ~ launch_replaces_image Sample.echo w'.
Proof.
  intros w'. do 5 (split; [vm_compute; reflexivity|]).
  intros [(child&Hin&Hfs) _].
  remember (w_trace w') as tr eqn:Htr. vm_compute in Htr. subst tr.
  assert (Hchild : child = 100%positive).
  { clear -Hin. simpl in Hin.
    repeat (destruct Hin as [Hin|Hin];
            [first [discriminate Hin | (injection Hin as <-; reflexivity)]|]).
    destruct Hin. }
  subst child. vm_compute in Hfs. discriminate Hfs.
Qed.

(** ** The order of the changes of identity *)

Section Identity.
Variable os : os_env.

Lemma hoare_bind_inv {A B} I (m : M A) (k : A -> M B) (Q : result B -> world -> Prop) :
  inv I m ->
  (forall e w, I w -> Q (Raise e) w) ->
  (forall a, hoare I (k a) Q) ->
  hoare I (bind m k) Q.
Proof.
  intros Hm HQ Hk. eapply hoare_bind; [|exact Hk].
  intros w H. specialize (Hm w H). destruct (m w) as [[a|e] w1]; simpl in *.
  - exact Hm.
  - apply HQ, Hm.
Qed.

Lemma id_changes_none L u g r w :
  seen id_change Detached L w -> id_changes_are L u g r w.
Proof.
  intros [Hf Ho]. split; [exact Hf|]. exists []. rewrite app_nil_r.
  split; [exact Ho | by left].
Qed.

Lemma detached_id_changes d i u g L :
  id_uid i = Some u -> id_gid i = Some g ->
  hoare (seen id_change Detached L) (start_after_fork os d i 0) (id_changes_are L u g).
Proof.
  intros Hu Hg.
  unfold start_after_fork. change (0 >? 0) with false. cbv iota. rewrite Hu, Hg.
  do 5 (apply hoare_bind_inv;
        [inv_auto seen_solver | intros; by apply id_changes_none | intros _]).
  (* the [finally] clause performs no change of identity *)
  intros w H. unfold try_finally, file_close.
  match goal with
  | |- context [?body w] =>
      lazymatch body with
      | bind _ _ =>
          assert (Hbody : hoare (seen id_change Detached L) body (id_changes_are L u g));
          [|specialize (Hbody w H); destruct (body w) as [r w1]]
      end
  end.
  2:{ simpl in *. destruct Hbody as [Hf (X&Ho&HX)]. split; [exact Hf|].
      exists X. split; [|exact HX]. unfold obs in *. simpl.
      rewrite List.filter_app. simpl. rewrite app_nil_r. exact Ho. }
  clear w H.
  apply hoare_bind_inv;
    [inv_auto seen_solver | intros; by apply id_changes_none | intros _].
  (* the change of user *)
  eapply hoare_bind with
    (R := fun _ => seen id_change Detached (L ++ [(Detached, ECall (Setuid u) None)])).
  { intros w [Hf Ho]. unfold try_except, sys.
    destruct (os_call os (step w) (Setuid u)) as [e|] eqn:Hc; simpl.
    - assert (Hw : id_changes_are L u g (Raise (OSError e))
                     (emit (ECall (Setuid u) (Some e)) w)).
      { split; [exact Hf|]. exists [(Detached, ECall (Setuid u) (Some e))].
        split; [|right; left; eauto].
        unfold obs in *. simpl. rewrite List.filter_app, Hf, Ho. reflexivity. }
      destruct (negb (e =? EPERM)); [exact Hw|].
      unfold bind, raise. simpl. exact Hw.
    - split; [exact Hf|]. unfold obs in *. simpl.
      rewrite List.filter_app, Hf, Ho. reflexivity. }
  intros _.
  (* the change of group *)
  eapply hoare_bind with
    (R := fun _ => seen id_change Detached
                     (L ++ [(Detached, ECall (Setuid u) None);
                            (Detached, ECall (Setgid g) None)])).
  { intros w [Hf Ho]. unfold try_except, sys.
    destruct (os_call os (step w) (Setgid g)) as [e|] eqn:Hc; simpl.
    - assert (Hw : id_changes_are L u g (Raise (OSError e))
                     (emit (ECall (Setgid g) (Some e)) w)).
      { split; [exact Hf|].
        exists [(Detached, ECall (Setuid u) None); (Detached, ECall (Setgid g) (Some e))].
        split; [|right; right; eauto].
        unfold obs in *. simpl. rewrite List.filter_app, Hf, Ho, <- app_assoc. reflexivity. }
      destruct (negb (e =? EPERM)); [exact Hw|].
      unfold bind, raise. simpl. exact Hw.
    - split; [exact Hf|]. unfold obs in *. simpl.
      rewrite List.filter_app, Hf, Ho, <- app_assoc. reflexivity. }
  intros _.
  (* what follows performs no change of identity *)
  eapply hoare_conseq with
    (P := seen id_change Detached (L ++ [(Detached, ECall (Setuid u) None);
                                         (Detached, ECall (Setgid g) None)]))
    (Q := fun _ => seen id_change Detached (L ++ [(Detached, ECall (Setuid u) None);
                                                  (Detached, ECall (Setgid g) None)]));
    [tauto | | ].
  { intros r w [Hf Ho]. split; [exact Hf|]. eexists. split; [exact Ho|].
    right; right; eauto. }
  match goal with |- hoare ?I ?m _ => change (inv I m) end.
  inv_auto seen_solver.
Qed.

Lemma status_id fl L d : inv (seen id_change fl L) (Daemon_status os d).
Proof.
  unfold Daemon_status, Daemon_pid, process_exists. destruct fl; inv_auto seen_solver.
Qed.

Lemma log_id fl L d msg e : inv (seen id_change fl L) (Daemon_log d msg e).
Proof. destruct fl; inv_auto seen_solver. Qed.

Lemma start_supervising_id d i child L :
  inv (seen id_change Supervising L) (start_after_fork os d i (Z.pos child)).
Proof.
  unfold start_after_fork. change (Z.pos child >? 0) with true. cbv iota.
  unfold Daemon_pid. inv_auto seen_solver.
Qed.

End Identity.

(** For a daemon with a configured user and group, the changes of
    identity that a start performs are, in order: the change of user
    id, then the change of group id. *)
Lemma id_changes_user_first os d w :
  str_truthy (user d) = true ->
  str_truthy (group d) = true ->
  w_flow w = Supervising ->
  exists X,
    obs id_change (snd (Daemon_start os d w)) = (obs id_change w ++ X)%list /\
    (X = [] \/
     exists record gid,
       os_getpwnam os (default "" (user d)) = Some record /\
       os_getgrnam os (default "" (group d)) = Some gid /\
       user_then_group (pw_uid record) gid X).
Proof.
  intros Hu Hg Hflow.
  assert (Hnone : forall w' : world,
             seen id_change Supervising (obs id_change w) w' ->
             exists X, obs id_change w' = (obs id_change w ++ X)%list /\
               (X = [] \/
                exists record gid,
                  os_getpwnam os (default "" (user d)) = Some record /\
                  os_getgrnam os (default "" (group d)) = Some gid /\
                  user_then_group (pw_uid record) gid X)).
  { intros w' [_ Ho]. exists []. rewrite app_nil_r. split; [exact Ho | by left]. }
  unfold Daemon_start, bind.
  pose proof (status_id os Supervising (obs id_change w) d w (conj Hflow eq_refl)) as Hst.
  destruct (Daemon_status os d w) as [[st|e] w1]; simpl in Hst; [|by apply Hnone].
  destruct (String.eqb st Status_Started).
  { simpl. apply Hnone. exact (log_id Supervising _ d _ _ w1 Hst). }
  unfold resolve_identity, bind, ret, raise. rewrite Hu, Hg.
  destruct (os_getpwnam os (default "" (user d))) as [record|] eqn:Hpw; [|by apply Hnone].
  destruct (os_getgrnam os (default "" (group d))) as [gid|] eqn:Hgr; [|by apply Hnone].
  simpl. unfold fork_then.
  destruct Hst as [Hf1 Ho1].
  destruct (os_fork os (step w1)) as [child|e].
  2:{ apply Hnone. split; [exact Hf1|]. unfold obs in *. simpl.
      rewrite List.filter_app, Hf1. simpl. rewrite app_nil_r. exact Ho1. }
  match goal with
  | |- context [start_after_fork os d ?i 0 ?wc] =>
      pose proof (detached_id_changes os d i (pw_uid record) gid (obs id_change w)
                    eq_refl eq_refl wc) as Hchild;
      destruct (start_after_fork os d i 0 wc) as [r wd]
  end.
  simpl in Hchild. destruct Hchild as [Hfd (X&Hod&HX)].
  { split; [reflexivity|]. unfold obs in *. simpl.
    rewrite List.filter_app, Hf1. simpl. rewrite app_nil_r. exact Ho1. }
  exists X. split; [|right; eauto].
  match goal with
  | |- context [start_after_fork os d ?i (Z.pos child) ?wp] =>
      destruct (start_supervising_id os d i child (obs id_change w ++ X) wp) as [_ Hop]
  end.
  { split; [exact Hf1|]. unfold obs in *. simpl.
    rewrite List.filter_app, Hfd. simpl. rewrite app_nil_r. exact Hod. }
  exact Hop.
Qed.

(** C1 (the group id is changed too late).  For every daemon with a
    configured user and group, the changes of identity that a start
    performs are the change of user id and, only after it, the change
    of group id: the reverse of the order that the claim states.
    Started by root, the daemon [web] therefore cannot start: the user
    id is changed at the ninth call; the change of group id is the
    tenth call and is refused with EPERM, where it was still permitted
    at the ninth; the detached flow prints "not permitted to change to
    group" and exits with code 1, and no program is spawned. *)
Theorem C1_group_change_refused_after_user_change :
  let w := Sample.boot Sample.fs_empty in
  let w' := snd (Daemon_start Sample.os_root Sample.web w) in
  w_trace w' !! 8%nat = Some (Detached, ECall (Setuid 33) None) /\
  w_trace w' !! 9%nat = Some (Detached, ECall (Setgid 44) (Some EPERM)) /\
  os_call Sample.os_root 8 (Setgid 44) = None /\
  ~ group_before_user (w_trace w') /\
  w_out w' =
    [("-  [web] not permitted to change to group 'web'" ++ newline)%string;
     ("-  [web] could not be started, check the output file eventually" ++ newline)%string] /\
  In (Detached, EExit 1) (w_trace w') /\
  (forall cmd r, ~ In (Detached, EPopen cmd r) (w_trace w')) /\
  (forall os d w0,
      str_truthy (user d) = true ->
      str_truthy (group d) = true ->
      w_flow w0 = Supervising ->
      exists X,
        obs id_change (snd (Daemon_start os d w0)) = (obs id_change w0 ++ X)%list /\
        (X = [] \/
         exists record gid,
           os_getpwnam os (default "" (user d)) = Some record /\
           os_getgrnam os (default "" (group d)) = Some gid /\
           user_then_group (pw_uid record) gid X)).
Proof.
  intros w w'. split; [vm_compute; reflexivity|]. split; [vm_compute; reflexivity|].
  split; [reflexivity|]. split; [|split; [vm_compute; reflexivity|]].
  - intros (i&j&g&u&rg&ru&Hlt&Hi&Hj).
    remember (w_trace w') as tr eqn:Htr. vm_compute in Htr. subst tr.
    assert (Hi9 : i = 9%nat).
    { clear -Hi.
      do 23 (destruct i as [|i]; simpl in Hi; [first [discriminate Hi | reflexivity]|]).
      discriminate Hi. }
    assert (Hj8 : j = 8%nat).
    { clear -Hj.
      do 23 (destruct j as [|j]; simpl in Hj; [first [discriminate Hj | reflexivity]|]).
      discriminate Hj. }
    lia.
  - remember (w_trace w') as tr eqn:Htr. vm_compute in Htr. subst tr.
    split; [simpl; tauto|]. split.
    + intros cmd r Hin. simpl in Hin.
      repeat (destruct Hin as [Hin|Hin]; [discriminate Hin|]). destruct Hin.
    + intros os d w0. apply id_changes_user_first.
Qed.

(** * The operations in any environment *)

(** ** Writing a PID and reading it back *)

Lemma lstrip_nonspace l : Forall nonspace l -> lstrip l = l.
Proof. intros H. destruct H as [|c l Hc _]; simpl; [done|]. rewrite Hc. done. Qed.

Lemma strip_nonspace l : Forall nonspace l -> strip l = l.
Proof.
  intros H. unfold strip. rewrite (lstrip_nonspace l H).
  rewrite lstrip_nonspace by (apply Forall_rev, H). apply rev_involutive.
Qed.

Lemma readline_nonspace s :
  Forall nonspace (list_ascii_of_string s) -> readline s = s.
Proof.
  induction s as [|c s IH]; simpl; [done|]. intros H.
  apply Forall_cons in H as [Hc H].
  assert (Hn : (Ascii.eqb c LF || Ascii.eqb c CR)%bool = false).
  { apply orb_false_iff. split; apply Ascii.eqb_neq; intros ->; discriminate Hc. }
  rewrite Hn, IH; done.
Qed.

Lemma digit_char d :
  (d < 10)%N ->
  digit_val (pretty_N_char d) = Some (Z.of_N d) /\ nonspace (pretty_N_char d).
Proof.
  intros H.
  assert (d = 0 \/ d = 1 \/ d = 2 \/ d = 3 \/ d = 4 \/ d = 5 \/ d = 6 \/ d = 7
          \/ d = 8 \/ d = 9)%N as Hd by lia.
  repeat (destruct Hd as [->|Hd]; [split; reflexivity|]). subst d. split; reflexivity.
Qed.

(** The digits of [x] in front of [rest], read with accumulator [acc]:
    the accumulator is shifted by as many digits as [x] has. *)
Lemma parse_pretty_N_go x :
  (0 < x)%N ->
  exists k,
    forall rest acc b,
      parse_digits acc b (list_ascii_of_string (pretty_N_go x rest))
      = parse_digits (acc * k + Z.of_N x) true (list_ascii_of_string rest).
Proof.
  induction (N.lt_wf_0 x) as [x _ IH]. intros Hx.
  assert (Hmod : (x `mod` 10 < 10)%N) by (apply N.mod_lt; lia).
  destruct (digit_char _ Hmod) as [Hd _].
  assert (Hdm : Z.of_N x = 10 * Z.of_N (x `div` 10) + Z.of_N (x `mod` 10)).
  { rewrite (N.div_mod x 10) at 1 by lia. lia. }
  destruct (decide (x `div` 10 = 0)%N) as [Hz|Hz].
  - exists 10. intros rest acc b. rewrite pretty_N_go_step, Hz, pretty_N_go_0 by done.
    simpl. rewrite Hd. f_equal. rewrite Hdm, Hz. lia.
  - destruct (IH (x `div` 10)%N) as [k Hk]; [apply N.div_lt; lia | lia |].
    exists (10 * k). intros rest acc b. rewrite pretty_N_go_step, Hk by done.
    simpl. rewrite Hd. f_equal. lia.
Qed.

Lemma pretty_N_go_nonspace x rest :
  Forall nonspace (list_ascii_of_string rest) ->
  Forall nonspace (list_ascii_of_string (pretty_N_go x rest)).
Proof.
  revert rest. induction (N.lt_wf_0 x) as [x _ IH]. intros rest H.
  destruct (decide (x = 0)%N) as [->|Hx]; [by rewrite pretty_N_go_0|].
  rewrite pretty_N_go_step by lia. apply IH; [apply N.div_lt; lia|].
  simpl. apply Forall_cons. split; [|exact H].
  apply digit_char, N.mod_lt. lia.
Qed.

Lemma pretty_N_go_head x :
  (0 < x)%N ->
  exists c r,
    list_ascii_of_string (pretty_N_go x "") = c :: r /\
    Ascii.eqb c "-" = false /\ Ascii.eqb c "+" = false.
Proof.
  intros Hx.
  assert (Hgen : forall y rest, (0 < y)%N ->
             exists d r, (d < 10)%N /\
               list_ascii_of_string (pretty_N_go y rest) = pretty_N_char d :: r).
  { intros y. induction (N.lt_wf_0 y) as [y _ IH]. intros rest Hy.
    rewrite pretty_N_go_step by done.
    destruct (decide (y `div` 10 = 0)%N) as [Hz|Hz].
    - rewrite Hz, pretty_N_go_0. simpl. eexists _, _. split; [|done].
      apply N.mod_lt. lia.
    - apply IH; [apply N.div_lt; [lia|lia] | by apply N.neq_0_lt_0]. }
  destruct (Hgen x "" Hx) as (d&r&Hd&Hl). exists (pretty_N_char d), r.
  split; [exact Hl|].
  assert (d = 0 \/ d = 1 \/ d = 2 \/ d = 3 \/ d = 4 \/ d = 5 \/ d = 6 \/ d = 7
          \/ d = 8 \/ d = 9)%N as Hd' by lia.
  repeat (destruct Hd' as [->|Hd']; [split; reflexivity|]). subst d. split; reflexivity.
Qed.

Lemma count_digits_le l : (count_digits l <= length l)%nat.
Proof.
  unfold count_digits. induction l as [|c l IH]; simpl; [lia|].
  case_bool_decide; simpl; lia.
Qed.

(** A number below [10 ^ k] has at most [k] digits. *)
Lemma pretty_N_go_length k x rest :
  (x < 10 ^ N.of_nat k)%N ->
  (length (list_ascii_of_string (pretty_N_go x rest))
   <= k + length (list_ascii_of_string rest))%nat.
Proof.
  revert x rest. induction k as [|k IH]; intros x rest Hx.
  - assert (x = 0%N) as -> by (simpl in Hx; lia). rewrite pretty_N_go_0. lia.
  - destruct (decide (x = 0)%N) as [->|Hnz]; [rewrite pretty_N_go_0; lia|].
    rewrite pretty_N_go_step by lia.
    assert (Hdiv : (x `div` 10 < 10 ^ N.of_nat k)%N).
    { apply N.Div0.div_lt_upper_bound.
      replace (N.of_nat (S k)) with (N.succ (N.of_nat k)) in Hx by lia.
      rewrite N.pow_succ_r' in Hx. exact Hx. }
    specialize (IH _ (String (pretty_N_char (x `mod` 10)) rest) Hdiv).
    simpl in IH. lia.
Qed.

(** A number of the C type [pid_t] is written with few characters. *)
Lemma py_str_length n :
  pid_fits n = true -> (length (list_ascii_of_string (py_str n)) <= 11)%nat.
Proof.
  unfold pid_fits. intros H. apply andb_true_iff in H as [Hlo Hhi].
  apply Z.leb_le in Hlo. apply Z.ltb_lt in Hhi.
  destruct n as [|p|p]; [simpl; lia| |];
    unfold py_str, pretty, pretty_Z, pretty, pretty_positive, pretty, pretty_N;
    (destruct (decide (N.pos p = 0%N)); [done|]).
  - pose proof (pretty_N_go_length 10 (N.pos p) "") as Hl. simpl in Hl.
    assert (N.pos p < 10 ^ N.of_nat 10)%N by (change (10 ^ N.of_nat 10)%N with 10000000000%N; lia).
    lia.
  - change (list_ascii_of_string ("-" +:+ pretty_N_go (N.pos p) ""))
      with ("-"%char :: list_ascii_of_string (pretty_N_go (N.pos p) "")).
    pose proof (pretty_N_go_length 10 (N.pos p) "") as Hl. simpl in Hl.
    assert (N.pos p < 10 ^ N.of_nat 10)%N by (change (10 ^ N.of_nat 10)%N with 10000000000%N; lia).
    simpl. lia.
Qed.

Lemma short_numeral c r (b : bool) :
  (length (c :: r) <= 11)%nat ->
  (int_max_str_digits <? Z.of_nat (count_digits (if b then r else c :: r))) = false.
Proof.
  intros H. apply Z.ltb_ge. unfold int_max_str_digits.
  pose proof (count_digits_le r). pose proof (count_digits_le (c :: r)).
  simpl in *. destruct b; lia.
Qed.

(** [int(str(n)) == n] for a number of the C type [pid_t]: what [start]
    writes into a PID file. *)
Lemma py_int_py_str n : pid_fits n = true -> py_int (py_str n) = Some n.
Proof.
  intros Hfit. pose proof (py_str_length n Hfit) as Hlen.
  assert (Hpos : forall p : positive,
             strip (list_ascii_of_string (pretty_N_go (N.pos p) "")) =
               list_ascii_of_string (pretty_N_go (N.pos p) "") /\
             parse_digits 0 false (list_ascii_of_string (pretty_N_go (N.pos p) ""))
               = Some (Z.pos p)).
  { intros p. split.
    - apply strip_nonspace, pretty_N_go_nonspace. constructor.
    - destruct (parse_pretty_N_go (N.pos p)) as [k Hk]; [lia|].
      rewrite Hk. simpl. reflexivity. }
  destruct n as [|p|p]; [reflexivity| |].
  - unfold py_str, pretty, pretty_Z, pretty, pretty_positive, pretty, pretty_N, py_int
      in Hlen |- *.
    destruct (decide (N.pos p = 0%N)); [done|].
    destruct (Hpos p) as [Hs Hp]. rewrite Hs.
    destruct (pretty_N_go_head (N.pos p)) as (c&r&Hl&Hm&Hpl); [lia|].
    rewrite Hl in *. cbv zeta. rewrite (short_numeral c r _ Hlen), Hm, Hpl. exact Hp.
  - unfold py_str, pretty, pretty_Z, pretty, pretty_positive, pretty, pretty_N, py_int
      in Hlen |- *.
    destruct (decide (N.pos p = 0%N)); [done|].
    destruct (Hpos p) as [Hs Hp].
    change (list_ascii_of_string ("-" +:+ pretty_N_go (N.pos p) ""))
      with ("-"%char :: list_ascii_of_string (pretty_N_go (N.pos p) "")) in Hlen |- *.
    rewrite strip_nonspace.
    + cbv zeta. rewrite (short_numeral _ _ _ Hlen). simpl. rewrite Hp. reflexivity.
    + apply Forall_cons. split; [reflexivity|].
      apply pretty_N_go_nonspace. constructor.
Qed.

Lemma py_str_nonspace n : Forall nonspace (list_ascii_of_string (py_str n)).
Proof.
  destruct n as [|p|p]; [repeat constructor| |];
    unfold py_str, pretty, pretty_Z, pretty, pretty_positive, pretty, pretty_N;
    (destruct (decide (N.pos p = 0%N)); [done|]).
  - apply pretty_N_go_nonspace. constructor.
  - apply Forall_cons. split; [reflexivity|]. apply pretty_N_go_nonspace. constructor.
Qed.

Lemma pid_reads_back d w n :
  pid_fits n = true ->
  w_fs w !! pidfile d = Some (Regular (py_str n)) ->
  Daemon_pid d w = (Ok n, emit (EOpen (pidfile d) "r" None) w).
Proof.
  intros Hfit H. rewrite (pid_regular _ _ _ H).
  rewrite readline_nonspace by apply py_str_nonspace.
  rewrite py_int_py_str by exact Hfit. reflexivity.
Qed.

(** ** The outcome of the detached flow, as the supervising flow sees it *)

Ltac fs_flow_solver :=
  idtac;
  match goal with
  | H : fs_flow _ _ _ |- _ =>
      let H1 := fresh in let H2 := fresh in
      destruct H as [H1 H2]; split; simpl; assumption
  end.

Section Outcome.
Variable os : os_env.

Lemma detached_flow_failure d i F fl :
  hoare (fs_flow F fl) (start_after_fork os d i 0) (untouched_or_empty F (pidfile d)).
Proof.
  unfold start_after_fork. change (0 >? 0) with false. cbv iota.
  do 4 (apply hoare_bind_inv;
        [inv_auto fs_flow_solver | intros e w [H _] _; by left | intros _]).
  eapply hoare_bind with (R := fun _ => pidfile_open (pidfile d) fl).
  { intros w [HF Hfl]. unfold open_write, emit, set_fs.
    destruct (w_fs w !! pidfile d) as [[s|e]|]; simpl.
    - split; [apply lookup_insert_eq | exact Hfl].
    - intros _. by left.
    - split; [apply lookup_insert_eq | exact Hfl]. }
  intros _.
  assert (Hbody : forall m : M pyval,
             hoare (pidfile_open (pidfile d) fl) m (untouched_or_empty F (pidfile d)) ->
             hoare (pidfile_open (pidfile d) fl) (try_finally m (file_close (pidfile d)))
                   (untouched_or_empty F (pidfile d))).
  { intros m Hm w H. specialize (Hm w H). unfold try_finally, file_close.
    destruct (m w) as [r w1]. exact Hm. }
  apply Hbody. clear Hbody.
  do 11 (apply hoare_bind_inv;
         [inv_auto open_solver | intros e w [H _] _; by right | intros ?]).
  intros w [Hfs Hfl]. unfold bind, Popen, file_write, raise.
  destruct (os_popen os (step w) (prog d :: args d)) as [p|e]; simpl.
  - intros H. by destruct H.
  - intros _. by right.
Qed.

Lemma shiftl_exit_status code : Z.shiftl code 8 = 0 <-> code = 0.
Proof. rewrite Z.shiftl_mul_pow2 by lia. lia. Qed.

(** [fork_then] when the fork succeeds: the detached flow runs in
    [detached_world], then the supervising flow goes on with the wait
    status at hand. *)
Lemma fork_then_child {A} (k : Z -> M A) w child :
  os_fork os (step w) = inl child ->
  fork_then os k w =
    k (Z.pos child)
      (let wd := snd (k 0 (detached_world child w)) in
       let code := exit_code (fst (k 0 (detached_world child w))) in
       World (w_fs wd) (w_out wd) (w_clock wd)
             (w_trace wd ++ [(w_flow wd, EExit code)]) (w_flow w) (w_log_newline w)
             (<[Z.pos child := Z.shiftl code 8]> (w_exit w))).
Proof.
  intros H. unfold fork_then. rewrite H.
  change (World _ _ _ _ Detached _ ∅) with (detached_world child w).
  destruct (k 0 (detached_world child w)) as [r wd]. reflexivity.
Qed.

End Outcome.

Section StartOutcome.
Variable os : os_env.

(** The identity look-up performs no call and prints nothing. *)
Lemma resolve_identity_world d w : snd (resolve_identity os d w) = w.
Proof.
  unfold resolve_identity, bind, ret, raise.
  repeat case_match; simplify_eq/=; done.
Qed.

(** [start] of a daemon that is stopped and whose identity resolves is
    the fork and what follows it. *)
Lemma start_forks d i w0 w1 :
  Daemon_status os d w0 = (Ok Status_Stopped, w1) ->
  fst (resolve_identity os d w1) = Ok i ->
  Daemon_start os d w0 = fork_then os (start_after_fork os d i) w1.
Proof.
  intros Hst Hid. unfold Daemon_start, bind. rewrite Hst. cbv beta iota.
  change (String.eqb Status_Stopped Status_Started) with false. cbv beta iota.
  pose proof (resolve_identity_world d w1) as Hw.
  destruct (resolve_identity os d w1) as [r w2]. simpl in Hid, Hw. subst. reflexivity.
Qed.

Lemma status_newline d w0 : w_log_newline (snd (Daemon_status os d w0)) = w_log_newline w0.
Proof.
  assert (H : inv (fun w => w_log_newline w = w_log_newline w0) (Daemon_status os d))
    by (unfold Daemon_status, Daemon_pid, process_exists; inv_auto fs_solver).
  exact (H w0 eq_refl).
Qed.

Lemma fork_succeeds d i w child :
  os_fork os (step w) = inl child ->
  exit_code (fst (start_after_fork os d i 0 (detached_world child w))) = 0 ->
  exists p before,
    fst (fork_then os (start_after_fork os d i) w) = Ok (PyBool true) /\
    In (Detached, EPopen (prog d :: args d) (inl p))
       (w_trace (snd (fork_then os (start_after_fork os d i) w))) /\
    w_fs (snd (fork_then os (start_after_fork os d i) w)) !! pidfile d
      = Some (Regular (py_str (Z.pos p))) /\
    fst (Daemon_pid d (snd (fork_then os (start_after_fork os d i) w))) = Ok (Z.pos p) /\
    w_out (snd (fork_then os (start_after_fork os d i) w)) =
      (before ++ [log_line d w [("started (PID: " ++ py_str (Z.pos p) ++ ")")%string]
                    newline])%list.
Proof.
  intros Hfork Hcode. rewrite (fork_then_child os _ w child Hfork).
  destruct (detached_flow_launch os d i Detached (detached_world child w) eq_refl)
    as [_ Hl].
  destruct (Hl Hcode) as (pre&p&Hp&Htr&Hfs&Hfl). clear Hl.
  destruct (start_after_fork os d i 0 (detached_world child w)) as [r wd].
  simpl in Hcode, Htr, Hfs, Hfl. simpl. rewrite Hcode.
  exists p, (w_out wd).
  unfold start_after_fork at 1 2 3 4 5. change (Z.pos child >? 0) with true. cbv iota.
  unfold bind, waitpid. simpl. rewrite lookup_insert_eq. simpl.
  match goal with
  | |- context [Daemon_pid d ?wp] =>
      rewrite (pid_reads_back d wp (Z.pos p) Hp) by exact Hfs
  end.
  simpl. repeat split.
  - rewrite Htr. rewrite !in_app_iff. simpl. tauto.
  - exact Hfs.
  - rewrite (pid_reads_back d _ (Z.pos p) Hp) by exact Hfs. reflexivity.
Qed.

Lemma fork_fails d i w child :
  os_fork os (step w) = inl child ->
  exit_code (fst (start_after_fork os d i 0 (detached_world child w))) <> 0 ->
  exists before,
    fst (fork_then os (start_after_fork os d i) w) = Ok (PyBool true) /\
    w_out (snd (fork_then os (start_after_fork os d i) w)) =
      (before ++ [log_line d w ["could not be started, check the output file eventually"]
                    newline])%list /\
    (w_fs (snd (fork_then os (start_after_fork os d i) w)) = w_fs w \/
     w_fs (snd (fork_then os (start_after_fork os d i) w)) !! pidfile d
       = Some (Regular "")).
Proof.
  intros Hfork Hcode. rewrite (fork_then_child os _ w child Hfork).
  pose proof (detached_flow_failure os d i (w_fs w) Detached (detached_world child w)
                (conj eq_refl eq_refl) Hcode) as Hfs.
  destruct (start_after_fork os d i 0 (detached_world child w)) as [r wd].
  simpl in Hcode, Hfs. simpl.
  exists (w_out wd).
  unfold start_after_fork at 1 2 3 4. change (Z.pos child >? 0) with true. cbv iota.
  unfold bind, waitpid. simpl. rewrite lookup_insert_eq. simpl.
  destruct (Z.eqb_spec (Z.shiftl (exit_code r) 8) 0) as [H0|_].
  { destruct (Hcode (proj1 (shiftl_exit_status _) H0)). }
  simpl. repeat split. exact Hfs.
Qed.

(** X2 (a successful start, end to end).  The daemon is stopped, its
    identity resolves, the fork succeeds and the detached flow exits
    with code 0: then [start] returns [True], the detached flow has
    spawned the program, the PID file holds the PID [p] of the spawned
    program, [Daemon.pid] reads [p] back, and the last line printed is
    "started (PID: p)" with that PID. *)
Theorem start_success_records_and_reports d i w0 w1 child :
  Daemon_status os d w0 = (Ok Status_Stopped, w1) ->
  fst (resolve_identity os d w1) = Ok i ->
  os_fork os (step w1) = inl child ->
  exit_code (fst (start_after_fork os d i 0 (detached_world child w1))) = 0 ->
  exists p before,
    fst (Daemon_start os d w0) = Ok (PyBool true) /\
    In (Detached, EPopen (prog d :: args d) (inl p)) (w_trace (snd (Daemon_start os d w0))) /\
    w_fs (snd (Daemon_start os d w0)) !! pidfile d = Some (Regular (py_str (Z.pos p))) /\
    fst (Daemon_pid d (snd (Daemon_start os d w0))) = Ok (Z.pos p) /\
    w_out (snd (Daemon_start os d w0)) =
      (before ++ [log_line d w0 [("started (PID: " ++ py_str (Z.pos p) ++ ")")%string]
                    newline])%list.
Proof.
  intros Hst Hid Hfork Hcode. rewrite (start_forks d i w0 w1 Hst Hid).
  destruct (fork_succeeds d i w1 child Hfork Hcode) as (p&before&H1&H2&H3&H4&H5).
  exists p, before. repeat split; try done.
  rewrite H5. unfold log_line.
  pose proof (status_newline d w0) as Hn. rewrite Hst in Hn. simpl in Hn.
  rewrite Hn. reflexivity.
Qed.

(** X3 (a failed start).  The daemon is stopped, its identity resolves
    and the fork succeeds, but the detached flow exits with a code other
    than 0: then [start] still returns [True], the last line printed is
    "could not be started, check the output file eventually", and the
    PID file is either as it was before the start, when the flow failed
    before opening it, or left empty. *)
Theorem start_failure_reports_and_empties d i w0 w1 child :
  Daemon_status os d w0 = (Ok Status_Stopped, w1) ->
  fst (resolve_identity os d w1) = Ok i ->
  os_fork os (step w1) = inl child ->
  exit_code (fst (start_after_fork os d i 0 (detached_world child w1))) <> 0 ->
  exists before,
    fst (Daemon_start os d w0) = Ok (PyBool true) /\
    w_out (snd (Daemon_start os d w0)) =
      (before ++ [log_line d w0 ["could not be started, check the output file eventually"]
                    newline])%list /\
    (w_fs (snd (Daemon_start os d w0)) !! pidfile d = w_fs w0 !! pidfile d \/
     w_fs (snd (Daemon_start os d w0)) !! pidfile d = Some (Regular "")).
Proof.
  intros Hst Hid Hfork Hcode. rewrite (start_forks d i w0 w1 Hst Hid).
  destruct (fork_fails d i w1 child Hfork Hcode) as (before&H1&H2&H3).
  exists before. split; [exact H1|]. split.
  - rewrite H2. unfold log_line.
    pose proof (status_newline d w0) as Hn. rewrite Hst in Hn. simpl in Hn.
    rewrite Hn. reflexivity.
  - pose proof (status_fs os (w_fs w0) d w0 eq_refl) as Hf. rewrite Hst in Hf.
    unfold fs_is in Hf. simpl in Hf. rewrite <- Hf.
    destruct H3 as [H3|H3]; [left; by rewrite H3 | right; exact H3].
Qed.

End StartOutcome.

(** ** What the operations do and never do *)

Ltac obs_solver :=
  idtac;
  match goal with
  | H : obs_is _ _ _ |- _ =>
      unfold obs_is, obs in *; simpl; rewrite ?List.filter_app; simpl;
      rewrite ?app_nil_r; exact H
  end.

Section Actions.
Variable os : os_env.
Variable config : Config.

(** [stop_wait] keeps what its two operations keep. *)
Lemma stop_wait_pinv I fuel pid tstart :
  inv I (process_exists os pid) -> inv I (time_sleep (1 # 2)) ->
  pinv I (stop_wait os config fuel pid tstart).
Proof.
  intros Hp Hs. induction fuel as [|fuel IH]; intros w r w' H E; [discriminate|].
  rewrite stop_wait_S in E.
  destruct (Qlt_bool _ _); [|by simplify_eq].
  specialize (Hp w H).
  destruct (process_exists os pid w) as [[[|]|e] w1]; simpl in Hp; [|by simplify_eq..].
  eapply IH; [|exact E]. exact (Hs w1 Hp).
Qed.

(** [stop] keeps what its five operations keep. *)
Lemma stop_pinv I fuel d :
  inv I (Daemon_pid d) ->
  (forall pid sig, inv I (os_kill os pid sig)) ->
  (forall pid, inv I (process_exists os pid)) ->
  inv I (time_sleep (1 # 2)) ->
  (forall message end_, inv I (Daemon_log d message end_)) ->
  pinv I (Daemon_stop os config fuel d).
Proof.
  intros Hpid Hkill Hex Hsleep Hlog.
  assert (Hret : forall msg e, inv I (Daemon_log d msg e ;;; ret PyNone)).
  { intros msg e. apply inv_bind; [apply Hlog | intros _; apply inv_ret]. }
  unfold Daemon_stop.
  apply pinv_pbind; [apply pinv_lift, Hpid | intros pid].
  apply pinv_try_except_else; [apply Hkill | |].
  - intros [e| | |]; apply pinv_lift; first [apply Hret | apply inv_raise].
  - intros _.
    apply pinv_pbind; [apply pinv_lift, Hlog | intros _].
    apply pinv_pbind; [apply pinv_lift; intros w H; exact H | intros tstart].
    apply pinv_pbind; [by apply stop_wait_pinv | intros _].
    apply pinv_pbind; [apply pinv_lift, Hex | intros [|]].
    + apply pinv_pbind; [apply pinv_lift, Hlog | intros _].
      apply pinv_try_except_else; [apply Hkill | |].
      * intros [e| | |]; apply pinv_lift; first [apply Hret | apply inv_raise].
      * intros _. apply pinv_lift, Hret.
    + apply pinv_lift, Hret.
Qed.

Lemma pid_obs p L d :
  (forall fl path r, p (fl, EOpen path "r" r) = false) ->
  inv (obs_is p L) (Daemon_pid d).
Proof.
  intros Hp w H. destruct (pid_frame d w) as [r ->].
  unfold obs_is, obs in *. simpl. rewrite List.filter_app. simpl. rewrite Hp, app_nil_r.
  exact H.
Qed.

Lemma process_exists_obs p L pid :
  (forall fl q r, p (fl, ECall (Kill q 0) r) = false) ->
  inv (obs_is p L) (process_exists os pid).
Proof.
  intros Hp w H. unfold process_exists, try_except, bind, os_kill, sys, ret, raise.
  destruct (pid =? 0); [exact H|]. destruct (pid_fits pid); [|exact H].
  destruct (os_call os (step w) (Kill pid 0)); simpl;
    unfold obs_is, obs in *; simpl; rewrite List.filter_app; simpl;
    rewrite Hp, app_nil_r; exact H.
Qed.

Lemma log_obs p L d msg e : inv (obs_is p L) (Daemon_log d msg e).
Proof. intros w H. exact H. Qed.

Lemma status_obs p L d :
  (forall fl path r, p (fl, EOpen path "r" r) = false) ->
  (forall fl q r, p (fl, ECall (Kill q 0) r) = false) ->
  inv (obs_is p L) (Daemon_status os d).
Proof.
  intros H1 H2. unfold Daemon_status.
  apply inv_bind; [by apply pid_obs | intros q].
  apply inv_bind; [by apply process_exists_obs | intros b].
  destruct b; apply inv_ret.
Qed.

(** The signals [stop] sends. *)
Lemma stop_signals fuel d w r w' :
  Daemon_stop os config fuel d w = Some (r, w') ->
  exists X,
    obs is_action w' = (obs is_action w ++ X)%list /\
    stop_signals_are (w_flow w) (fst (Daemon_pid d w)) X.
Proof.
  assert (Hopen : forall fl path r, is_action (fl, EOpen path "r" r) = false) by done.
  assert (Hprobe : forall fl q r, is_action (fl, ECall (Kill q 0) r) = false) by done.
  assert (Hsleep : forall L, inv (obs_is is_action L) (time_sleep (1 # 2))).
  { intros L w0 H. unfold obs_is, obs in *. simpl. rewrite List.filter_app. simpl.
    rewrite app_nil_r. exact H. }
  unfold Daemon_stop, pbind, lift, try_except_else, time_time.
  pose proof (pid_obs is_action (obs is_action w) d Hopen w eq_refl) as Hpid.
  destruct (pid_frame d w) as [ro Hw1].
  destruct (Daemon_pid d w) as [[pid|e] w1]; simpl in Hpid, Hw1; unfold stop_signals_are, fst.
  2:{ intros [= <- <-]. exists []. rewrite app_nil_r. split; [exact Hpid | done]. }
  assert (Hfl1 : w_flow w1 = w_flow w) by (rewrite Hw1; reflexivity).
  unfold os_kill at 1. destruct (pid_fits pid) eqn:Hfit.
  2:{ intros [= <- <-]. exists []. rewrite app_nil_r. split; [exact Hpid | done]. }
  unfold sys at 1. destruct (os_call os (step w1) (Kill pid SIGTERM)) as [e|].
  - (* the graceful signal is refused *)
    intros [= <- <-]. exists [(w_flow w, ECall (Kill pid SIGTERM) (Some e))].
    split; [|left; eauto].
    unfold obs in *. simpl. rewrite List.filter_app, Hfl1. simpl. rewrite Hpid.
    reflexivity.
  - set (w2 := emit (ECall (Kill pid SIGTERM) None) w1).
    assert (H2 : obs_is is_action
                   (obs is_action w ++ [(w_flow w, ECall (Kill pid SIGTERM) None)]) w2).
    { unfold obs_is, obs in *. simpl. rewrite List.filter_app, Hfl1. simpl.
      rewrite Hpid. reflexivity. }
    assert (Hfl2 : w_flow w2 = w_flow w) by exact Hfl1.
    destruct (Daemon_log d ["stopping..."] " " w2) as [[[]|e] w3] eqn:Hlog;
      [|discriminate Hlog].
    assert (H3 : obs_is is_action
                   (obs is_action w ++ [(w_flow w, ECall (Kill pid SIGTERM) None)]) w3)
      by (injection Hlog as <-; exact H2).
    assert (Hfl3 : w_flow w3 = w_flow w) by (injection Hlog as <-; exact Hfl2).
    destruct (stop_wait os config fuel pid (w_clock w3) w3) as [[r4 w4]|] eqn:Hwait;
      [|discriminate].
    pose proof (stop_wait_pinv _ fuel pid (w_clock w3)
                  (process_exists_obs is_action _ pid Hprobe) (Hsleep _)
                  w3 r4 w4 H3 Hwait) as H4.
    assert (Hfl4 : w_flow w4 = w_flow w).
    { rewrite <- Hfl3.
      refine (stop_wait_pinv (fun w0 => w_flow w0 = w_flow w3) fuel pid (w_clock w3)
                _ _ w3 r4 w4 eq_refl Hwait).
      - unfold process_exists. inv_auto fs_solver.
      - intros w0 H0. exact H0. }
    assert (Hone : exists X,
               obs is_action w4 = (obs is_action w ++ X)%list /\
               term_then_kill (w_flow w) pid X).
    { eexists. split; [exact H4 | left; eauto]. }
    destruct r4 as [[]|e]; [|intros [= <- <-]; exact Hone].
    pose proof (process_exists_obs is_action _ pid Hprobe w4 H4) as H5.
    assert (Hfl5 : w_flow (snd (process_exists os pid w4)) = w_flow w).
    { rewrite <- Hfl4.
      assert (Hi : inv (fun w0 => w_flow w0 = w_flow w4) (process_exists os pid))
        by (unfold process_exists; inv_auto fs_solver).
      exact (Hi w4 eq_refl). }
    destruct (process_exists os pid w4) as [[[|]|e] w5]; simpl in H5, Hfl5.
    + (* the process is still there: the forceful signal *)
      unfold os_kill. rewrite Hfit. unfold sys, bind, ret, Daemon_log.
      destruct (os_call os _ (Kill pid SIGKILL)) as [e|]; simpl;
        intros [= <- <-];
        eexists [(w_flow w, ECall (Kill pid SIGTERM) None);
                 (w_flow w, ECall (Kill pid SIGKILL) _)];
        (split; [|right; eauto]);
        unfold obs_is, obs in *; simpl; rewrite List.filter_app, Hfl5; simpl;
        rewrite H5, <- app_assoc; reflexivity.
    + intros [= <- <-]. exists [(w_flow w, ECall (Kill pid SIGTERM) None)].
      split; [exact H5 | left; eauto].
    + intros [= <- <-]. exists [(w_flow w, ECall (Kill pid SIGTERM) None)].
      split; [exact H5 | left; eauto].
Qed.

End Actions.

(** ** The stop protocol ends, in any environment *)

Ltac slept_solver :=
  idtac;
  match goal with
  | H : slept _ _ |- _ =>
      let Hf := fresh "Hf" in
      let n := fresh "n" in
      let Ho := fresh "Ho" in
      let Hc := fresh "Hc" in
      destruct H as (Hf & n & Ho & Hc); split; [exact Hf|];
      exists n; split;
      [ unfold obs in *; simpl; rewrite ?List.filter_app; simpl; rewrite ?app_nil_r;
        exact Ho
      | exact Hc ]
  end.

Section Bounded.
Variable os : os_env.
Variable config : Config.

Lemma pid_clock d w : w_clock (snd (Daemon_pid d w)) = w_clock w.
Proof. destruct (pid_frame d w) as [r ->]. reflexivity. Qed.

Lemma os_kill_clock pid sig w : w_clock (snd (os_kill os pid sig w)) = w_clock w.
Proof.
  assert (H : inv (fun w0 => w_clock w0 = w_clock w) (os_kill os pid sig))
    by inv_auto fs_solver.
  exact (H w eq_refl).
Qed.

Lemma process_exists_clock pid w : w_clock (snd (process_exists os pid w)) = w_clock w.
Proof.
  assert (H : inv (fun w0 => w_clock w0 = w_clock w) (process_exists os pid))
    by (unfold process_exists; inv_auto fs_solver).
  exact (H w eq_refl).
Qed.

(** The loop ends whatever the probes answer: every round moves the
    clock by half a time unit. *)
Lemma stop_wait_total pid tstart :
  forall fuel w,
    (0 < fuel)%nat ->
    (Qceiling (2 * (kill_timeout config - (w_clock w - tstart))) < Z.of_nat fuel)%Z ->
    exists r w',
      stop_wait os config fuel pid tstart w = Some (r, w') /\
      (w_clock w <= w_clock w')%Q /\
      (w_clock w' == w_clock w \/ w_clock w' - (1 # 2) - tstart < kill_timeout config)%Q.
Proof.
  induction fuel as [|fuel IH]; intros w Hpos Hfuel; [lia|].
  rewrite stop_wait_S.
  destruct (Qlt_bool (w_clock w - tstart) (kill_timeout config)) eqn:Ht.
  - apply Qlt_bool_iff in Ht.
    pose proof (process_exists_clock pid w) as Hc.
    destruct (process_exists os pid w) as [[[|]|e] w1]; simpl in Hc.
    + set (w2 := snd (time_sleep (1 # 2) w1)).
      change (time_sleep (1 # 2) w1) with (Ok tt, w2).
      assert (Hc2 : (w_clock w2 == w_clock w + (1 # 2))%Q).
      { unfold w2. simpl. rewrite Hc. reflexivity. }
      assert (Hx : (0 < 2 * (kill_timeout config - (w_clock w - tstart)))%Q) by lra.
      apply Qceiling_pos in Hx.
      assert (Hy : (Qceiling (2 * (kill_timeout config - (w_clock w2 - tstart)))
                    <= Qceiling (2 * (kill_timeout config - (w_clock w - tstart))) - 1)%Z).
      { apply Qceiling_pred. lra. }
      destruct (IH w2) as (r&w'&Hrun&Hle&Hd); [lia|lia|].
      exists r, w'. split; [exact Hrun|]. split; [lra|].
      right. destruct Hd as [Heq|Hlt]; [lra | exact Hlt].
    + exists (Ok tt), w1. split; [reflexivity|]. rewrite Hc. split; [lra | left; reflexivity].
    + exists (Raise e), w1. split; [reflexivity|]. rewrite Hc. split; [lra | left; reflexivity].
  - exists (Ok tt), w. split; [reflexivity|]. split; [lra | left; reflexivity].
Qed.

Lemma stop_total fuel d w :
  (poll_bound config < fuel)%nat ->
  exists r w',
    Daemon_stop os config fuel d w = Some (r, w') /\
    (w_clock w <= w_clock w')%Q /\
    (w_clock w' == w_clock w \/ w_clock w' - w_clock w < kill_timeout config + (1 # 2))%Q.
Proof.
  intros Hfuel.
  assert (Hsame : forall r w', w_clock w' = w_clock w ->
            (Some (r, w') = Some (r, w') :> option (result pyval * world)) /\
            (w_clock w <= w_clock w')%Q /\
            (w_clock w' == w_clock w \/
             w_clock w' - w_clock w < kill_timeout config + (1 # 2))%Q).
  { intros r w' ->. split; [reflexivity|]. split; [lra | left; reflexivity]. }
  unfold Daemon_stop, pbind, lift, try_except_else, time_time.
  pose proof (pid_clock d w) as H1.
  destruct (Daemon_pid d w) as [[pid|e] w1]; simpl in H1;
    [|eexists _, _; apply Hsame; exact H1].
  pose proof (os_kill_clock pid SIGTERM w1) as H2.
  destruct (os_kill os pid SIGTERM w1) as [[[]|e] w2]; simpl in H2.
  2:{ destruct e; eexists _, _; apply Hsame; simpl; congruence. }
  destruct (log_spec d ["stopping..."] " " w2) as (w3&->&_&H3&_).
  destruct (stop_wait_total pid (w_clock w3) fuel w3) as (r4&w4&->&Hle&Hd).
  { lia. }
  { assert (Hq0 : (2 * (kill_timeout config - (w_clock w3 - w_clock w3))
                   == 2 * kill_timeout config)%Q) by lra.
    rewrite Hq0. unfold poll_bound in Hfuel. lia. }
  assert (H03 : w_clock w3 = w_clock w) by congruence.
  rewrite H03 in Hle, Hd.
  assert (Hend : forall r w', w_clock w' = w_clock w4 ->
            (Some (r, w') = Some (r, w') :> option (result pyval * world)) /\
            (w_clock w <= w_clock w')%Q /\
            (w_clock w' == w_clock w \/
             w_clock w' - w_clock w < kill_timeout config + (1 # 2))%Q).
  { intros r w' ->. split; [reflexivity|]. split; [exact Hle|].
    destruct Hd as [Heq|Hlt]; [left; exact Heq | right; lra]. }
  destruct r4 as [[]|e]; [|eexists _, _; apply Hend; reflexivity].
  pose proof (process_exists_clock pid w4) as H5.
  destruct (process_exists os pid w4) as [[[|]|e] w5]; simpl in H5.
  - destruct (log_spec d ["not stopped."] " " w5) as (w6&->&_&H6&_).
    pose proof (os_kill_clock pid SIGKILL w6) as H7.
    destruct (os_kill os pid SIGKILL w6) as [[[]|e] w7]; simpl in H7.
    + eexists _, _; apply Hend; simpl; congruence.
    + destruct e; eexists _, _; apply Hend; simpl; congruence.
  - eexists _, _; apply Hend; simpl; congruence.
  - eexists _, _; apply Hend; simpl; congruence.
Qed.

Lemma slept_refl w : slept w w.
Proof.
  split; [reflexivity|]. exists 0%nat. split.
  - cbn [repeat]. by rewrite app_nil_r.
  - change (inject_Z (Z.of_nat 0)) with 0%Q. lra.
Qed.

Lemma pid_slept w0 d : inv (slept w0) (Daemon_pid d).
Proof. unfold Daemon_pid. inv_auto slept_solver. Qed.

Lemma process_exists_slept w0 pid : inv (slept w0) (process_exists os pid).
Proof. unfold process_exists. inv_auto slept_solver. Qed.

Lemma os_kill_slept w0 pid sig : inv (slept w0) (os_kill os pid sig).
Proof. inv_auto slept_solver. Qed.

Lemma log_slept w0 d message end_ : inv (slept w0) (Daemon_log d message end_).
Proof. inv_auto slept_solver. Qed.

Lemma sleep_slept w0 : inv (slept w0) (time_sleep (1 # 2)).
Proof.
  intros w (Hf & n & Ho & Hc). split; [exact Hf|]. exists (S n). split.
  - unfold obs in *. unfold time_sleep. cbn [snd w_trace].
    rewrite List.filter_app, Ho, Hf. cbn [List.filter is_sleep].
    rewrite <- app_assoc. f_equal. symmetry. apply repeat_cons.
  - unfold time_sleep. cbn [snd w_clock].
    rewrite Nat2Z.inj_succ. unfold Z.succ. rewrite inject_Z_plus.
    change (inject_Z 1) with 1%Q. lra.
Qed.

(** The sleeps of [stop]: each one is entered while less than
    [kill_timeout] has elapsed, so there are at most [poll_bound]. *)
Lemma stop_sleeps fuel d w :
  (poll_bound config < fuel)%nat ->
  exists r w' n,
    Daemon_stop os config fuel d w = Some (r, w') /\
    (n <= poll_bound config)%nat /\
    obs is_sleep w' = (obs is_sleep w ++ repeat (w_flow w, ESleep (1 # 2)) n)%list.
Proof.
  intros Hfuel. destruct (stop_total fuel d w Hfuel) as (r&w'&Hrun&_&Hd).
  destruct (stop_pinv os config (slept w) fuel d (pid_slept w d) (os_kill_slept w)
              (process_exists_slept w) (sleep_slept w) (log_slept w d)
              w r w' (slept_refl w) Hrun) as (_&n&Ho&Hc).
  exists r, w', n. split; [exact Hrun|]. split; [|exact Ho].
  unfold poll_bound.
  pose proof (Qle_ceiling (2 * kill_timeout config)) as Hceil.
  destruct Hd as [Heq|Hlt].
  - assert (Hz : (Z.of_nat n <= 0)%Z).
    { rewrite Zle_Qle. change (inject_Z 0) with 0%Q. lra. }
    lia.
  - assert (Hz : (Z.of_nat n < Qceiling (2 * kill_timeout config) + 1)%Z).
    { rewrite Zlt_Qlt, inject_Z_plus. change (inject_Z 1) with 1%Q. lra. }
    lia.
Qed.

End Bounded.

(** ** The status command *)

Ltac said_solver :=
  idtac;
  match goal with
  | H : said_is _ _ _ |- _ => exact H
  end.

Section StatusCommand.
Variable os : os_env.

Lemma status_said O N d : inv (said_is O N) (Daemon_status os d).
Proof. unfold Daemon_status, Daemon_pid, process_exists. inv_auto said_solver. Qed.

Lemma status_is_status d w st :
  fst (Daemon_status os d w) = Ok st -> is_status st.
Proof.
  rewrite status_unfold.
  destruct (Daemon_pid d w) as [[p|e] w1]; [|discriminate].
  destruct (process_exists os p w1) as [[[|]|e] w2]; simpl; intros [= <-];
    [by left | by right].
Qed.

Lemma log_fresh d msg w :
  lines_fresh w -> lines_fresh (snd (Daemon_log d msg newline w)).
Proof.
  intros H n. simpl. destruct (decide (name d = n)) as [->|Hn].
  - rewrite lookup_insert_eq. reflexivity.
  - rewrite lookup_insert_ne by done. apply H.
Qed.

Lemma status_each_cons d ds w :
  status_each os (d :: ds) w =
    match Daemon_status os d w with
    | (Ok st, w1) => status_each os ds (snd (Daemon_log d [st] newline w1))
    | (Raise e, w1) => (Raise e, w1)
    end.
Proof.
  simpl. unfold bind. destruct (Daemon_status os d w) as [[st|e] w1]; reflexivity.
Qed.

Lemma status_each_spec ds :
  forall w,
    lines_fresh w ->
    exists sts,
      Forall is_status sts /\
      w_out (snd (status_each os ds w)) =
        (w_out w ++ zip_with status_line ds sts)%list /\
      (length sts <= length ds)%nat /\
      (forall code, fst (status_each os ds w) = Ok code ->
                    code = 0 /\ length sts = length ds) /\
      lines_fresh (snd (status_each os ds w)) /\
      w_fs (snd (status_each os ds w)) = w_fs w /\
      obs is_action (snd (status_each os ds w)) = obs is_action w.
Proof.
  induction ds as [|d ds IH]; intros w Hw.
  - exists []. simpl. rewrite app_nil_r.
    split; [constructor|]. split; [done|]. split; [done|].
    split; [by intros code [= <-]|]. done.
  - rewrite status_each_cons.
    pose proof (status_said (w_out w) (w_log_newline w) d w (conj eq_refl eq_refl)) as Hs.
    pose proof (status_fs os (w_fs w) d w eq_refl) as Hf.
    pose proof (status_obs os is_action (obs is_action w) d
                  (fun _ _ _ => eq_refl) (fun _ _ _ => eq_refl) w eq_refl) as Ho.
    pose proof (status_is_status d w) as Hst.
    destruct (Daemon_status os d w) as [[st|e] w1]; simpl in Hs, Hf, Ho, Hst.
    + destruct Hs as [Hout Hnl].
      set (w2 := snd (Daemon_log d [st] newline w1)).
      assert (Hw1 : lines_fresh w1) by (intros n; rewrite Hnl; apply Hw).
      destruct (IH w2 (log_fresh d [st] w1 Hw1)) as (sts&Hall&Hsaid&Hlen&Hcode&Hfresh&Hfs&Hobs).
      exists (st :: sts). split; [constructor; [by apply Hst | exact Hall]|].
      split.
      { rewrite Hsaid. unfold w2. simpl. rewrite Hout, (Hw1 (name d)), <- app_assoc.
        reflexivity. }
      split; [simpl; lia|].
      split; [intros code Hc; destruct (Hcode code Hc) as [-> Hl]; simpl; by rewrite Hl|].
      split; [exact Hfresh|].
      split; [rewrite Hfs; exact Hf | rewrite Hobs; exact Ho].
    + destruct Hs as [Hout Hnl].
      exists []. split; [constructor|]. rewrite app_nil_r.
      split; [exact Hout|]. split; [simpl; lia|].
      split; [intros code [=]|].
      split; [intros n; simpl; rewrite Hnl; apply Hw|].
      split; [exact Hf | exact Ho].
Qed.

End StatusCommand.

(** ** Start sends no signal *)

Section NoSignal.
Variable os : os_env.

Lemma fork_then_obs {A} (k : Z -> M A) p L :
  (forall fl r, p (fl, EFork r) = false) ->
  (forall fl c, p (fl, EExit c) = false) ->
  (forall z L', inv (obs_is p L') (k z)) ->
  inv (obs_is p L) (fork_then os k).
Proof.
  intros Hfork Hexit Hk w H. unfold fork_then.
  destruct (os_fork os (step w)) as [child|e].
  - set (w1 := emit (EFork (inl child)) w).
    set (wc := World (w_fs w1) (w_out w1) (w_clock w1) (w_trace w1) Detached
                     (w_log_newline w1) ∅).
    assert (Hc : obs_is p L wc).
    { unfold obs_is, obs in *. simpl. rewrite List.filter_app. simpl.
      rewrite Hfork, app_nil_r. exact H. }
    pose proof (Hk 0 L wc Hc) as Hd. destruct (k 0 wc) as [r wd]. simpl in Hd.
    apply Hk. unfold obs_is, obs in *. simpl. rewrite List.filter_app. simpl.
    rewrite Hexit, app_nil_r. exact Hd.
  - unfold obs_is, obs in *. simpl. rewrite List.filter_app. simpl.
    rewrite Hfork, app_nil_r. exact H.
Qed.

Lemma start_after_fork_no_signal d i z L :
  inv (obs_is real_signal L) (start_after_fork os d i z).
Proof.
  unfold start_after_fork. destruct (z >? 0).
  - apply inv_bind; [inv_auto obs_solver | intros st].
    apply inv_bind; [|intros _; apply inv_ret].
    destruct (st =? 0); [|apply log_obs].
    apply inv_bind; [by apply pid_obs | intros q; apply log_obs].
  - inv_auto obs_solver.
Qed.

Lemma start_no_signal d L : inv (obs_is real_signal L) (Daemon_start os d).
Proof.
  unfold Daemon_start.
  apply inv_bind; [by apply status_obs | intros st].
  destruct (String.eqb st Status_Started).
  - apply inv_bind; [apply log_obs | intros _; apply inv_ret].
  - apply inv_bind; [unfold resolve_identity; inv_auto obs_solver | intros i].
    apply fork_then_obs; [done | done |].
    intros z L'. apply start_after_fork_no_signal.
Qed.

Lemma start_each_no_signal ds L : inv (obs_is real_signal L) (start_each os ds).
Proof.
  induction ds as [|d ds IH]; simpl; [apply inv_ret|].
  apply inv_bind; [apply start_no_signal | intros v].
  destruct (negb (truthy v)); [apply inv_ret | exact IH].
Qed.

Lemma status_each_no_signal ds L : inv (obs_is real_signal L) (status_each os ds).
Proof.
  induction ds as [|d ds IH]; simpl; [apply inv_ret|].
  apply inv_bind; [by apply status_obs | intros st].
  apply inv_bind; [apply log_obs | intros _; exact IH].
Qed.

End NoSignal.

(** ** What [stop] prints *)

Ltac state_solver :=
  idtac;
  match goal with
  | H : stop_state _ _ _ _ _ |- _ =>
      let Ho := fresh "Ho" in
      let Hn := fresh "Hn" in
      let Hf := fresh "Hf" in
      let Hs := fresh "Hs" in
      destruct H as (Ho & Hn & Hf & Hs);
      split; [exact Ho|]; split; [exact Hn|]; split; [exact Hf|];
      unfold obs in *; simpl; rewrite ?List.filter_app; simpl; rewrite ?app_nil_r;
      exact Hs
  end.

Section StopSays.
Variable os : os_env.
Variable config : Config.

Lemma process_exists_fits pid w :
  pid_fits pid = true -> exists b, fst (process_exists os pid w) = Ok b.
Proof.
  intros Hf. unfold process_exists, try_except, bind, os_kill, sys, ret.
  destruct (pid =? 0); [eauto|]. rewrite Hf.
  destruct (os_call os (step w) (Kill pid 0)); simpl; eauto.
Qed.

Lemma stop_wait_ok fuel pid tstart :
  pid_fits pid = true ->
  forall w r w', stop_wait os config fuel pid tstart w = Some (r, w') -> r = Ok tt.
Proof.
  intros Hf. induction fuel as [|fuel IH]; intros w r w' E; [discriminate|].
  rewrite stop_wait_S in E.
  destruct (Qlt_bool _ _); [|by simplify_eq].
  destruct (process_exists_fits pid w Hf) as [b Hb].
  destruct (process_exists os pid w) as [[[|]|e] w1]; simpl in Hb; [| |discriminate].
  - eapply IH, E.
  - by simplify_eq.
Qed.

Lemma pid_state O N fl L d : inv (stop_state O N fl L) (Daemon_pid d).
Proof. unfold Daemon_pid. inv_auto state_solver. Qed.

Lemma process_exists_state O N fl L pid :
  inv (stop_state O N fl L) (process_exists os pid).
Proof. unfold process_exists. inv_auto state_solver. Qed.

Lemma sleep_state O N fl L q : inv (stop_state O N fl L) (time_sleep q).
Proof. inv_auto state_solver. Qed.

(** A signal: the call is recorded with the answer of the environment. *)
Lemma kill_state O N fl L pid sig w :
  sig <> 0 ->
  stop_state O N fl L w ->
  exists w2,
    sys os (Kill pid sig) w =
      (match os_call os (step w) (Kill pid sig) with
       | None => Ok tt
       | Some e => Raise (OSError e)
       end, w2) /\
    stop_state O N fl
      (L ++ [(fl, ECall (Kill pid sig) (os_call os (step w) (Kill pid sig)))]) w2.
Proof.
  intros Hsig (Ho&Hn&Hf&Hs). unfold sys.
  assert (Hreal : forall r, real_signal (fl, ECall (Kill pid sig) r) = true).
  { intros r. simpl. apply negb_true_iff, Z.eqb_neq, Hsig. }
  destruct (os_call os (step w) (Kill pid sig)) as [e|]; eexists;
    (split; [reflexivity|]);
    (split; [exact Ho|]; split; [exact Hn|]; split; [exact Hf|]);
    unfold obs in *; unfold emit; cbn [w_trace];
    rewrite List.filter_app, Hs, Hf; cbn [List.filter]; rewrite Hreal; reflexivity.
Qed.

(** A message: one more entry is printed, and the daemon is at the
    start of a line if and only if the message ended its line. *)
Lemma log_state O N fl L d message end_ w :
  stop_state O N fl L w ->
  exists w',
    Daemon_log d message end_ w = (Ok tt, w') /\
    stop_state (O ++ [log_line d w message end_])
               (<[name d := contains_newline end_]> N) fl L w'.
Proof.
  intros (Ho&Hn&Hf&Hs). eexists. split; [reflexivity|].
  split; [cbn [w_out]; by rewrite Ho|]. split; [cbn [w_log_newline]; by rewrite Hn|].
  split; [exact Hf | exact Hs].
Qed.

(** X10 (what [stop] prints and sends).  The PID file holds a positive
    PID, that of a process other than the caller.  Then one run of
    [stop], in any environment, raises only before any signal, and then
    prints nothing: when the reader of the PID file raises, or the PID
    does not fit [pid_t].  Otherwise it returns [None] and has printed
    one line: "not started" when the graceful signal was refused;
    "stopping..." completed by "stopped" when it was delivered and no
    forceful signal was sent; completed by "not stopped. SIGKILL" when
    the forceful signal was delivered, and by "not stopped. stopped"
    when it was refused.  The daemon is then at the start of a line
    again, and the other daemons are where they were. *)
Theorem stop_prints_one_line fuel d w r w' :
  (forall p, fst (Daemon_pid d w) = Ok p -> 0 < p) ->
  Daemon_stop os config fuel d w = Some (r, w') ->
  exists X S,
    w_out w' = (w_out w ++ X)%list /\
    obs real_signal w' = (obs real_signal w ++ S)%list /\
    stop_outcome d w (fst (Daemon_pid d w)) r X S /\
    (forall v, r = Ok v -> w_log_newline w' !! name d = Some true) /\
    (forall n, n <> name d -> w_log_newline w' !! n = w_log_newline w !! n).
Proof.
  intros _.
  unfold Daemon_stop, pbind, lift, try_except_else, time_time, stop_outcome.
  pose proof (pid_state (w_out w) (w_log_newline w) (w_flow w) (obs real_signal w) d w
                (conj eq_refl (conj eq_refl (conj eq_refl eq_refl)))) as H1.
  destruct (Daemon_pid d w) as [[pid|e] w1]; cbn [fst snd] in H1 |- *.
  2:{ destruct H1 as (Ho1&Hn1&Hf1&Hs1). intros [= <- <-]. exists [], [].
      rewrite !app_nil_r. split; [exact Ho1|]. split; [exact Hs1|].
      split; [done|]. split; [done|]. intros n _. by rewrite Hn1. }
  destruct (pid_fits pid) eqn:Hfit.
  2:{ destruct H1 as (Ho1&Hn1&Hf1&Hs1). unfold os_kill at 1. rewrite Hfit.
      intros [= <- <-]. exists [], [].
      rewrite !app_nil_r. split; [exact Ho1|]. split; [exact Hs1|].
      split; [done|]. split; [done|]. intros n _. by rewrite Hn1. }
  assert (Hk : forall sig w0, os_kill os pid sig w0 = sys os (Kill pid sig) w0)
    by (intros; unfold os_kill; rewrite Hfit; reflexivity).
  rewrite Hk.
  destruct (kill_state _ _ _ _ pid SIGTERM w1 ltac:(discriminate) H1) as (w2&Hsys&H2).
  rewrite Hsys. clear Hsys.
  destruct (os_call os (step w1) (Kill pid SIGTERM)) as [e|]; cbv beta iota.
  { (* the graceful signal is refused *)
    destruct (log_state _ _ _ _ d ["not started"] newline w2 H2) as (w3&Hlog&H3).
    unfold bind, ret. rewrite Hlog. cbv beta iota. intros [= <- <-].
    destruct H2 as (_&Hn2&_&_). destruct H3 as (Ho3&Hn3&Hf3&Hs3).
    eexists _, _. split; [exact Ho3|]. split; [exact Hs3|].
    split; [split; [reflexivity|]; left; exists e; split;
            [unfold log_line; by rewrite Hn2 | reflexivity]|].
    split; [intros _ _; rewrite Hn3; apply lookup_insert_eq|].
    intros n Hn. rewrite Hn3. by rewrite lookup_insert_ne. }
  destruct (log_state _ _ _ _ d ["stopping..."] " " w2 H2) as (w3&Hlog&H3).
  rewrite Hlog. cbv beta iota.
  assert (Hl3 : log_line d w2 ["stopping..."] " " = log_line d w ["stopping..."] " ").
  { destruct H2 as (_&Hn2&_&_). unfold log_line. by rewrite Hn2. }
  rewrite Hl3 in H3. clear Hl3 Hlog H2.
  change (contains_newline " ") with false in H3.
  destruct (stop_wait os config fuel pid (w_clock w3) w3) as [[r4 w4]|] eqn:Hwait;
    [|discriminate].
  pose proof (stop_wait_ok fuel pid (w_clock w3) Hfit w3 r4 w4 Hwait) as ->.
  pose proof (stop_wait_pinv os config _ fuel pid (w_clock w3)
                (process_exists_state _ _ _ _ pid) (sleep_state _ _ _ _ _)
                w3 (Ok tt) w4 H3 Hwait) as H4.
  pose proof (process_exists_state _ _ _ _ pid w4 H4) as H5.
  destruct (process_exists_fits pid w4 Hfit) as [b Hb].
  destruct (process_exists os pid w4) as [[b'|e] w5]; cbn [fst snd] in Hb, H5;
    [|discriminate].
  cbv beta iota.
  assert (Hcont : forall msg e0, log_line d w5 msg e0 = (String.concat " " msg ++ e0)%string).
  { intros msg e0. apply log_line_cont. destruct H5 as (_&->&_&_).
    apply lookup_insert_eq. }
  destruct b'.
  - destruct (log_state _ _ _ _ d ["not stopped."] " " w5 H5) as (w6&Hlog&H6).
    rewrite Hlog. cbv beta iota. rewrite Hcont in H6. clear Hlog.
    change (contains_newline " ") with false in H6.
    rewrite insert_insert_eq in H6.
    assert (Hc6 : forall msg e0,
               log_line d w6 msg e0 = (String.concat " " msg ++ e0)%string).
    { intros msg e0. apply log_line_cont. destruct H6 as (_&->&_&_).
      apply lookup_insert_eq. }
    rewrite Hk.
    destruct (kill_state _ _ _ _ pid SIGKILL w6 ltac:(discriminate) H6) as (w7&Hsys&H7).
    rewrite Hsys. clear Hsys.
    assert (Hc7 : forall msg e0,
               log_line d w7 msg e0 = (String.concat " " msg ++ e0)%string).
    { intros msg e0. apply log_line_cont. destruct H7 as (_&->&_&_).
      apply lookup_insert_eq. }
    destruct (os_call os (step w6) (Kill pid SIGKILL)) as [e|]; cbv beta iota.
    + destruct (log_state _ _ _ _ d ["stopped"] newline w7 H7) as (w8&Hlog&H8).
      unfold bind, ret. rewrite Hlog. cbv beta iota. intros [= <- <-].
      rewrite Hc7 in H8. destruct H8 as (Ho8&Hn8&Hf8&Hs8).
      rewrite <- !app_assoc in Ho8. rewrite <- !app_assoc in Hs8.
      eexists _, _. split; [exact Ho8|]. split; [exact Hs8|].
      split; [split; [reflexivity|]; right; right; right; exists e; split; reflexivity|].
      split; [intros _ _; rewrite Hn8; apply lookup_insert_eq|].
      intros n Hn. rewrite Hn8. by rewrite !lookup_insert_ne.
    + destruct (log_state _ _ _ _ d ["SIGKILL"] newline w7 H7) as (w8&Hlog&H8).
      unfold bind, ret. rewrite Hlog. cbv beta iota. intros [= <- <-].
      rewrite Hc7 in H8. destruct H8 as (Ho8&Hn8&Hf8&Hs8).
      rewrite <- !app_assoc in Ho8. rewrite <- !app_assoc in Hs8.
      eexists _, _. split; [exact Ho8|]. split; [exact Hs8|].
      split; [split; [reflexivity|]; right; right; left; split; reflexivity|].
      split; [intros _ _; rewrite Hn8; apply lookup_insert_eq|].
      intros n Hn. rewrite Hn8. by rewrite !lookup_insert_ne.
  - destruct (log_state _ _ _ _ d ["stopped"] newline w5 H5) as (w6&Hlog&H6).
    unfold bind, ret. rewrite Hlog. cbv beta iota. intros [= <- <-].
    rewrite Hcont in H6. destruct H6 as (Ho6&Hn6&Hf6&Hs6).
    rewrite <- !app_assoc in Ho6.
    eexists _, _. split; [exact Ho6|]. split; [exact Hs6|].
    split; [split; [reflexivity|]; right; left; split; reflexivity|].
    split; [intros _ _; rewrite Hn6; apply lookup_insert_eq|].
    intros n Hn. rewrite Hn6. by rewrite !lookup_insert_ne.
Qed.

End StopSays.

(** ** A recorded PID that does not fit [pid_t] *)

Section Oversized.
Variable os : os_env.
Variable config : Config.

Lemma oversized_stop fuel d w p w1 :
  Daemon_pid d w = (Ok p, w1) ->
  pid_fits p = false ->
  Daemon_stop os config fuel d w = Some (Raise OverflowError, w1).
Proof.
  intros Hpid Hf. unfold Daemon_stop, pbind, lift, try_except_else.
  rewrite Hpid. unfold os_kill. rewrite Hf. reflexivity.
Qed.

Lemma oversized_status d w p w1 :
  Daemon_pid d w = (Ok p, w1) ->
  pid_fits p = false ->
  Daemon_status os d w = (Raise OverflowError, w1).
Proof.
  intros Hpid Hf. rewrite status_unfold, Hpid.
  rewrite (process_exists_overflow _ _ _ Hf). reflexivity.
Qed.

End Oversized.

(** ** Restart: the stop phase, then the start phase *)

Ltac ext_solver :=
  idtac;
  match goal with
  | H : extends _ _ |- _ =>
      let A := fresh "A" in
      destruct H as [A H]; unfold extends; simpl; rewrite ?H;
      first [ by exists A | eexists; rewrite <- ?app_assoc; reflexivity ]
  end.

Section RestartPhases.
Variable os : os_env.
Variable config : Config.


Lemma process_exists_extends T pid : inv (extends T) (process_exists os pid).
Proof. unfold process_exists. inv_auto ext_solver. Qed.











End RestartPhases.

(** ** Paths *)

Section Paths.

Lemma isabs_app a b : isabs a = true -> isabs (a ++ b) = true.
Proof. destruct a; [discriminate | done]. Qed.

Lemma isabs_slashes n s : (0 < n)%nat -> isabs (slashes n ++ s) = true.
Proof. destruct n; [lia | reflexivity]. Qed.

Lemma initial_slashes_pos p : isabs p = true -> (0 <? initial_slashes p)%nat = true.
Proof. intros H. unfold initial_slashes. rewrite H. by destruct (_ && _)%bool. Qed.

Lemma slashes_pos n s :
  (0 <? n)%nat = true -> exists t, (slashes n ++ s)%string = String slash t.
Proof. destruct n; [discriminate|]. simpl. eauto. Qed.

Lemma normpath_isabs p : isabs p = true -> isabs (normpath p) = true.
Proof.
  intros H. unfold normpath.
  destruct (String.eqb_spec p "") as [->|_]; [discriminate|].
  rewrite (initial_slashes_pos p H).
  destruct (slashes_pos (initial_slashes p)
              (String.concat "/"
                 (fold_left (normpath_step (initial_slashes p)) (split_slash p) []))
              (initial_slashes_pos p H)) as [t ->].
  reflexivity.
Qed.

Lemma path_join_isabs a b : isabs a = true -> isabs (path_join a b) = true.
Proof.
  intros H. unfold path_join. destruct (isabs b) eqn:Hb; [exact Hb|].
  destruct (_ || _)%bool; by apply isabs_app.
Qed.

Lemma os_path_abspath_isabs getcwd p :
  isabs getcwd = true -> isabs (os_path_abspath getcwd p) = true.
Proof.
  intros H. unfold os_path_abspath. apply normpath_isabs.
  destruct (isabs p) eqn:Hp; simpl; [exact Hp | by apply path_join_isabs].
Qed.

Lemma abspath_isabs config getcwd p :
  isabs getcwd = true -> isabs (abspath config getcwd p) = true.
Proof.
  intros H. unfold abspath. destruct (isabs p) eqn:Hp; simpl; [exact Hp|].
  by apply os_path_abspath_isabs.
Qed.

(** *** The default files of a daemon *)

Lemma str_app_assoc (a b c : string) : ((a ++ b) ++ c = a ++ b ++ c)%string.
Proof.
  induction a as [|x a IH]; [done|].
  change (String x ((a ++ b) ++ c) = String x (a ++ b ++ c))%string. by rewrite IH.
Qed.

Lemma str_app_nil_r (a : string) : (a ++ "")%string = a.
Proof.
  induction a as [|x a IH]; [done|].
  change (String x (a ++ "") = String x a)%string. by rewrite IH.
Qed.

Lemma split_slash_nonempty s : split_slash s <> [].
Proof.
  destruct s as [|c r]; simpl; [done|].
  destruct (Ascii.eqb c slash); [done|]. by destruct (split_slash r).
Qed.

Lemma split_slash_no_slash f : no_slash f -> split_slash f = [f].
Proof.
  unfold no_slash. induction f as [|c r IH]; simpl; [done|].
  destruct (Ascii.eqb c slash); simpl; [discriminate|].
  intros H. by rewrite (IH H).
Qed.

Lemma split_slash_app a b :
  split_slash (a ++ String slash b) = (split_slash a ++ split_slash b)%list.
Proof.
  induction a as [|c a IH]; simpl; [done|].
  destruct (Ascii.eqb c slash); [by rewrite IH|].
  rewrite IH. pose proof (split_slash_nonempty a).
  by destruct (split_slash a).
Qed.

Lemma concat_snoc (X : list string) f :
  X <> [] ->
  String.concat "/" (X ++ [f]) = (String.concat "/" X ++ "/" ++ f)%string.
Proof.
  induction X as [|x [|y ys] IH]; intros H; [done | done|].
  change (String.concat "/" ((x :: y :: ys) ++ [f]))
    with (x ++ "/" ++ String.concat "/" ((y :: ys) ++ [f]))%string.
  rewrite IH by done.
  change (String.concat "/" (x :: y :: ys))
    with (x ++ "/" ++ String.concat "/" (y :: ys))%string.
  by rewrite !str_app_assoc.
Qed.

Lemma endswith_slashes n : (0 <? n)%nat = true -> endswith_slash (slashes n) = true.
Proof.
  intros H. unfold endswith_slash, slashes.
  rewrite list_ascii_of_string_of_list_ascii.
  destruct n; [discriminate|].
  replace (rev (repeat slash (S n))) with (repeat slash (S n)); [reflexivity|].
  clear H. symmetry. induction n as [|n IH]; [reflexivity|].
  change (repeat slash (S (S n))) with (slash :: repeat slash (S n)) at 1.
  change (rev (slash :: repeat slash (S n)))
    with (rev (repeat slash (S n)) ++ [slash])%list.
  rewrite IH. clear IH. induction n as [|n IH]; [reflexivity|].
  simpl in *. by rewrite IH.
Qed.

Lemma prefix_cons a s1 b s2 :
  String.prefix (String a s1) (String b s2) = (Ascii.eqb a b && String.prefix s1 s2)%bool.
Proof.
  simpl. destruct (ascii_dec a b) as [->|H].
  - by rewrite Ascii.eqb_refl.
  - apply Ascii.eqb_neq in H. by rewrite H.
Qed.

Lemma prefix_nil s : String.prefix "" s = true.
Proof. by destruct s. Qed.

(** The leading slashes of a path that does not end in one are those of
    any path it starts. *)
Lemma initial_slashes_app root s :
  isabs root = true -> endswith_slash root = false ->
  initial_slashes (root ++ s) = initial_slashes root.
Proof.
  intros Ha He. unfold initial_slashes. rewrite (isabs_app _ _ Ha), Ha.
  destruct root as [|c1 [|c2 [|c3 r]]]; [discriminate| | |].
  - simpl in Ha. unfold endswith_slash in He. simpl in He. congruence.
  - destruct (Ascii.eqb_spec c2 slash) as [->|Hc2].
    + unfold endswith_slash in He. simpl in He. discriminate.
    + change (String c1 (String c2 "") ++ s)%string with (String c1 (String c2 s)).
      rewrite !prefix_cons.
      assert (H : Ascii.eqb "/" c2 = false)
        by (apply Ascii.eqb_neq; intros E; apply Hc2; by rewrite <- E).
      rewrite H. rewrite !andb_false_r. reflexivity.
  - change (String c1 (String c2 (String c3 r)) ++ s)%string
      with (String c1 (String c2 (String c3 (r ++ s)))).
    rewrite !prefix_cons, !prefix_nil. reflexivity.
Qed.

Lemma normpath_join root f :
  isabs root = true ->
  normpath root = root ->
  endswith_slash root = false ->
  no_slash f ->
  f <> "" -> f <> "." -> f <> ".." ->
  normpath (root ++ "/" ++ f) = (root ++ "/" ++ f)%string.
Proof.
  intros Ha Hn He Hf H0 H1 H2.
  pose proof (initial_slashes_pos root Ha) as Hk.
  set (k := initial_slashes root) in *.
  set (X := fold_left (normpath_step k) (split_slash root) []).
  assert (Hroot : root = (slashes k ++ String.concat "/" X)%string).
  { revert Hn. unfold normpath. fold k. fold X. rewrite Hk.
    destruct (String.eqb_spec root "") as [->|_]; [discriminate|].
    destruct (slashes_pos k (String.concat "/" X) Hk) as [t Ht]. rewrite Ht.
    simpl. done. }
  assert (HX : X <> []).
  { intros HX. rewrite HX in Hroot. simpl in Hroot.
    assert (Hs : root = slashes k).
    { rewrite Hroot. apply str_app_nil_r. }
    rewrite Hs, (endswith_slashes k Hk) in He. discriminate. }
  unfold normpath.
  change (root ++ "/" ++ f)%string with (root ++ String slash f)%string.
  destruct (String.eqb_spec (root ++ String slash f) "") as [E|_].
  { destruct root; discriminate. }
  rewrite (initial_slashes_app root _ Ha He). fold k. rewrite Hk.
  rewrite split_slash_app, (split_slash_no_slash f Hf), fold_left_app. fold X.
  simpl fold_left. unfold normpath_step.
  destruct (String.eqb_spec f "") as [|_]; [done|].
  destruct (String.eqb_spec f ".") as [|_]; [done|].
  destruct (String.eqb_spec f "..") as [|_]; [done|].
  simpl. rewrite (concat_snoc X f HX), <- str_app_assoc, <- Hroot.
  destruct (String.eqb_spec (root ++ "/" ++ f) "") as [E|_]; [|done].
  destruct root; discriminate.
Qed.

Lemma no_slash_app a b : no_slash a -> no_slash b -> no_slash (a ++ b).
Proof.
  unfold no_slash. induction a as [|c a IH]; simpl; [done|].
  destruct (Ascii.eqb c slash); simpl; [discriminate | exact IH].
Qed.

Lemma no_slash_relative f : no_slash f -> isabs f = false.
Proof.
  unfold no_slash. destruct f as [|c r]; simpl; [done|].
  by destruct (Ascii.eqb c slash).
Qed.

Lemma with_suffix_is_a_name n (suffix : string) :
  (3 <= String.length suffix)%nat ->
  (n ++ suffix <> "" /\ n ++ suffix <> "." /\ n ++ suffix <> "..")%string.
Proof.
  intros H.
  assert (Hl : (3 <= String.length (n ++ suffix))%nat).
  { clear -H. induction n as [|c n IH]; [exact H|].
    change (3 <= S (String.length (n ++ suffix)))%nat. lia. }
  repeat split; intros E; rewrite E in Hl; simpl in Hl; lia.
Qed.

Lemma abspath_under_root config getcwd f :
  isabs (root_dir config) = true ->
  normpath (root_dir config) = root_dir config ->
  endswith_slash (root_dir config) = false ->
  no_slash f ->
  f <> "" -> f <> "." -> f <> ".." ->
  abspath config getcwd f = (root_dir config ++ "/" ++ f)%string.
Proof.
  intros Ha Hn He Hf H0 H1 H2. unfold abspath, os_path_abspath, path_join.
  rewrite (no_slash_relative f Hf), He. simpl negb. cbv iota.
  destruct (String.eqb_spec (root_dir config) "") as [E|_].
  { rewrite E in Ha. discriminate. }
  simpl orb. cbv iota.
  rewrite (isabs_app _ _ Ha). simpl negb. cbv iota.
  by apply normpath_join.
Qed.

End Paths.

(** ** The registry and the command line *)

Section RegistryProps.

Lemma registry_lookup_None (daemons : registry) key :
  registry_lookup daemons key = None <-> ~ In key (map fst daemons).
Proof.
  unfold registry_lookup. induction daemons as [|[k d] ds IH]; simpl; [tauto|].
  destruct (String.eqb_spec k key) as [->|Hk]; simpl.
  - split; [discriminate | intros H; destruct H; by left].
  - rewrite IH. tauto.
Qed.

Lemma registry_lookup_app (daemons : registry) key d ds :
  registry_lookup daemons key = Some d ->
  registry_lookup (daemons ++ ds)%list key = Some d.
Proof.
  unfold registry_lookup. induction daemons as [|[k d0] l IH]; simpl; [discriminate|].
  destruct (String.eqb k key); simpl; [done | exact IH].
Qed.

Lemma registry_lookup_new (daemons : registry) key d :
  registry_lookup daemons key = None ->
  registry_lookup (daemons ++ [(key, d)])%list key = Some d.
Proof.
  unfold registry_lookup. induction daemons as [|[k d0] l IH]; simpl.
  - by rewrite String.eqb_refl.
  - destruct (String.eqb k key); simpl; [discriminate | exact IH].
Qed.

Lemma registry_lookup_In (daemons : registry) key d :
  registry_lookup daemons key = Some d -> In (key, d) daemons.
Proof.
  unfold registry_lookup. induction daemons as [|[k d0] l IH]; simpl; [discriminate|].
  destruct (String.eqb_spec k key) as [->|_]; simpl.
  - intros [= ->]. by left.
  - intros H. right. by apply IH.
Qed.

Lemma registry_ok_name (daemons : registry) key d :
  registry_ok daemons -> registry_lookup daemons key = Some d -> name d = key.
Proof.
  intros [_ Hall] H. apply registry_lookup_In in H.
  rewrite List.Forall_forall in Hall. exact (Hall _ H).
Qed.

(** X15 (registering a daemon under a new name).  On a dictionary whose
    keys are distinct and name their daemons, [register_daemon] with a
    name that is not used performs no call, appends the constructed
    daemon under its name and keeps the dictionary so: the new daemon
    is found under its name, every daemon found before is still found,
    and the values are the old ones followed by the new daemon. *)
Theorem register_daemon_keeps_registry os config getcwd kw (daemons : registry) w :
  registry_ok daemons ->
  registry_lookup daemons (k_name kw) = None ->
  exists daemons',
    register_daemon os config getcwd kw daemons w = (Ok (inr daemons'), w) /\
    registry_ok daemons' /\
    registry_lookup daemons' (k_name kw) = Some (Daemon_init config getcwd kw) /\
    (forall key d, registry_lookup daemons key = Some d ->
                   registry_lookup daemons' key = Some d) /\
    map snd daemons' = (map snd daemons ++ [Daemon_init config getcwd kw])%list.
Proof.
  intros [Hnd Hall] Hnew.
  exists (daemons ++ [(k_name kw, Daemon_init config getcwd kw)])%list.
  split.
  { unfold register_daemon. cbv zeta.
    change (name (Daemon_init config getcwd kw)) with (k_name kw).
    rewrite Hnew. rewrite bool_decide_eq_false_2 by (intros [? ?]; discriminate).
    reflexivity. }
  split.
  { split.
    - rewrite map_app. simpl. apply NoDup_app. split; [exact Hnd|]. split.
      + intros x Hx Hin. apply list_elem_of_In in Hin. simpl in Hin.
        destruct Hin as [<-|[]].
        apply registry_lookup_None in Hnew. apply Hnew. by apply list_elem_of_In.
      + apply NoDup_singleton.
    - apply List.Forall_app. split; [exact Hall|]. by constructor. }
  split; [by apply registry_lookup_new|].
  split; [intros key d; apply registry_lookup_app|].
  by rewrite map_app.
Qed.

(** The status query starts with the read of the PID file. *)
Lemma status_opens os d w :
  exists r rest,
    w_trace (snd (Daemon_status os d w))
    = (w_trace w ++ (w_flow w, EOpen (pidfile d) "r" r) :: rest)%list.
Proof.
  rewrite status_unfold. destruct (pid_frame d w) as [r Hw1].
  destruct (Daemon_pid d w) as [[p|e] w1]; simpl in Hw1; subst w1.
  - set (w1 := emit (EOpen (pidfile d) "r" r) w).
    pose proof (process_exists_extends os (w_trace w1) p w1
                  (ex_intro _ [] (eq_sym (app_nil_r _)))) as [A HA].
    destruct (process_exists os p w1) as [[b|e] w2]; simpl in HA |- *;
      exists r, A; rewrite HA; simpl; by rewrite <- app_assoc.
  - exists r, []. reflexivity.
Qed.

(** X16 (registering a name twice).  When the name is used already,
    [register_daemon] returns no dictionary, so the first registration
    stands.  To build the message of its [ValueError] it queries the
    status of the daemon it rejects: the PID file of that daemon is
    opened for reading, and when the status query raises, that error is
    raised instead of the [ValueError]. *)
Theorem duplicate_registration_queries_status os config getcwd kw (daemons : registry) w d0 :
  registry_lookup daemons (k_name kw) = Some d0 ->
  let d := Daemon_init config getcwd kw in
  let out := register_daemon os config getcwd kw daemons w in
  (forall daemons', fst out <> Ok (inr daemons')) /\
  (exists r rest,
      w_trace (snd out) = (w_trace w ++ (w_flow w, EOpen (pidfile d) "r" r) :: rest)%list) /\
  (forall e, fst (Daemon_status os d w) = Raise e -> fst out = Raise e) /\
  (forall st, fst (Daemon_status os d w) = Ok st ->
     fst out = Ok (inl ("daemon name "
                        ++ ("<Daemon " ++ py_repr os (Some (k_name kw)) ++ ": " ++ st ++ ">")
                        ++ " already used")%string)).
Proof.
  intros Hused d out. unfold out, register_daemon. cbv zeta.
  change (name (Daemon_init config getcwd kw)) with (k_name kw).
  rewrite Hused. rewrite bool_decide_eq_true_2 by eauto.
  fold d. unfold Daemon_repr, bind, ret.
  pose proof (status_opens os d w) as Htr.
  destruct (Daemon_status os d w) as [[st|e] w1]; simpl in *.
  - split; [intros daemons' [=]|]. split; [exact Htr|].
    split; [intros e [=] | intros st' [= <-]; reflexivity].
  - split; [intros daemons' [=]|]. split; [exact Htr|].
    split; [intros e' [= <-]; reflexivity | intros st [=]].
Qed.

Lemma lookup_each_spec (daemons : registry) names :
  match lookup_each daemons names with
  | inr ts => Forall2 (fun n d => registry_lookup daemons n = Some d) names ts
  | inl key =>
      exists known rest,
        names = (known ++ key :: rest)%list /\
        registry_lookup daemons key = None /\
        Forall (fun n => is_Some (registry_lookup daemons n)) known
  end.
Proof.
  induction names as [|x names IH]; simpl; [constructor|].
  destruct (registry_lookup daemons x) as [d|] eqn:Hx.
  - destruct (lookup_each daemons names) as [key|ts].
    + destruct IH as (known&rest&->&Hkey&Hknown).
      exists (x :: known), rest. split; [done|]. split; [done|].
      constructor; [eauto | exact Hknown].
    + by constructor.
  - exists [], names. split; [done|]. split; [done | constructor].
Qed.

Lemma lookup_each_unknown (daemons : registry) names key :
  In key names -> registry_lookup daemons key = None ->
  exists k, lookup_each daemons names = inl k.
Proof.
  intros Hin Hnone. induction names as [|x names IH]; simpl; [destruct Hin|].
  destruct (registry_lookup daemons x) as [d|] eqn:Hx; [|eauto].
  destruct Hin as [->|Hin]; [congruence|].
  destruct (IH Hin) as [k ->]. eauto.
Qed.

Lemma lookup_each_length (daemons : registry) names ts :
  lookup_each daemons names = inr ts -> length ts = length names.
Proof.
  intros H. pose proof (lookup_each_spec daemons names) as Hs. rewrite H in Hs.
  symmetry. eapply Forall2_length, Hs.
Qed.

(** X17 (the daemons a command works on).  On a dictionary whose keys
    are distinct and name their daemons, the names [all] select every
    registered daemon once; any other list of names, when all are
    registered, selects for each name, in order, the daemon of that
    name. *)
Theorem selected_targets_are_the_named_daemons (daemons : registry) names ts :
  registry_ok daemons ->
  select_targets daemons names = inr ts ->
  (names = ["all"] /\ ts = map snd daemons /\ NoDup (map name ts)) \/
  (names <> ["all"] /\
   Forall2 (fun n d => name d = n /\ registry_lookup daemons n = Some d) names ts).
Proof.
  intros Hok. unfold select_targets. case_bool_decide as Hall.
  - intros [= <-]. left. split; [done|]. split; [done|].
    destruct Hok as [Hnd Hf]. rewrite map_map.
    replace (map (fun kv => name (snd kv)) daemons) with (map fst daemons); [done|].
    clear Hnd. induction Hf as [|kv l Hkv _ IH]; simpl; [done|]. by rewrite Hkv, IH.
  - intros H. right. split; [done|].
    pose proof (lookup_each_spec daemons names) as Hs. rewrite H in Hs.
    eapply Forall2_impl; [exact Hs|]. intros n d Hn. split; [|exact Hn].
    by eapply registry_ok_name.
Qed.

(** X18 (usage errors).  A command other than [version] that names no
    daemon, or finds no configuration file, or names a daemon that is
    not registered, and a [tail] of [all] or of more or fewer than one
    daemon, exit with status 2 before anything is done: no call is
    performed and nothing is printed.  In particular [tail all] is
    refused even when one daemon only is registered. *)
Theorem usage_errors_exit_with_2 os config follow fuel args config_is_file (daemons : registry) w :
  usage_error daemons args config_is_file ->
  main_cli os config follow fuel args config_is_file daemons w
    = Some (Raise (SystemExit 2), w).
Proof.
  intros [Hv H]. unfold main_cli.
  assert (Hgo : forall m : P Z,
            (is_empty (a_daemons args) = false -> config_is_file = true ->
             m w = Some (Raise (SystemExit 2), w)) ->
            (if is_empty (a_daemons args)
             then lift (parser_error
                          ("need at least one argument for " ++ double_quote ++ "daemons"
                           ++ double_quote))
             else
               if negb config_is_file
               then lift (parser_error
                            (double_quote ++ os_expanduser os (os_home os) "~/nocrux_config.py"
                             ++ double_quote ++ " does not exist"))
               else m) w = Some (Raise (SystemExit 2), w)).
  { intros m Hm. destruct (is_empty (a_daemons args)); [reflexivity|].
    destruct config_is_file; [by apply Hm | reflexivity]. }
  destruct (a_command args) as [| |c] eqn:Hcmd; [done| |]; cbv zeta; apply Hgo;
    intros Hne Hfile.
  - (* tail *)
    destruct H as [H|[H|[H|H]]].
    + rewrite H in Hne. discriminate.
    + congruence.
    + destruct H as (Hall&key&Hin&Hnone). unfold select_targets.
      rewrite bool_decide_eq_false_2 by done.
      destruct (lookup_each_unknown daemons _ key Hin Hnone) as [k ->]. reflexivity.
    + destruct H as [_ [Hall|Hlen]].
      * unfold select_targets. rewrite bool_decide_eq_true_2 by done.
        destruct (map snd daemons) as [|d [|d' l]]; reflexivity.
      * destruct (select_targets daemons (a_daemons args)) as [k|ts] eqn:Hsel;
          [reflexivity|].
        assert (Hts : length ts <> 1%nat).
        { unfold select_targets in Hsel. case_bool_decide as Hall.
          - rewrite Hall in Hlen. by destruct Hlen.
          - by rewrite (lookup_each_length _ _ _ Hsel). }
        destruct ts as [|d [|d' l]]; [reflexivity| |reflexivity]. by destruct Hts.
  - (* the commands on daemons *)
    destruct H as [H|[H|[H|H]]].
    + rewrite H in Hne. discriminate.
    + congruence.
    + destruct H as (Hall&key&Hin&Hnone). unfold select_targets.
      rewrite bool_decide_eq_false_2 by done.
      destruct (lookup_each_unknown daemons _ key Hin Hnone) as [k ->]. reflexivity.
    + destruct H as [[=] _].
Qed.

End RegistryProps.

(** * Further properties of the operations *)

(** ** Recording and reading the PID *)

(** X1 (the PID file round trip).  Let [n] be a number of the C type
    [pid_t], as is every PID that [start] writes.  Then [int(str(n))]
    is [n], so a PID file that holds [str(n)] is read back by
    [Daemon.pid] as that very PID, by one successful open of the file. *)
Theorem pid_reads_back_what_was_written d w n :
  pid_fits n = true ->
  w_fs w !! pidfile d = Some (Regular (py_str n)) ->
  py_int (py_str n) = Some n /\
  Daemon_pid d w = (Ok n, emit (EOpen (pidfile d) "r" None) w).
Proof. intros Hn H. split; [by apply py_int_py_str | by apply pid_reads_back]. Qed.

Lemma pid_reads_back_what_was_written_witness :
  let w := Sample.boot (Sample.fs_pid (py_str 4242)) in
  py_int (py_str 4242) = Some 4242 /\
  Daemon_pid Sample.echo w = (Ok 4242, emit (EOpen (pidfile Sample.echo) "r" None) w).
Proof.
  intros w. apply (pid_reads_back_what_was_written Sample.echo w 4242).
  - vm_compute. reflexivity.
  - vm_compute. reflexivity.
Defined.

(** ** The two outcomes of a start *)

(** The daemon [echo] has no PID file and every call succeeds. *)
Lemma start_success_records_and_reports_witness :
  let w0 := Sample.boot Sample.fs_empty in
  exists p before,
    fst (Daemon_start Sample.os_ok Sample.echo w0) = Ok (PyBool true) /\
    In (Detached, EPopen (prog Sample.echo :: args Sample.echo) (inl p))
       (w_trace (snd (Daemon_start Sample.os_ok Sample.echo w0))) /\
    w_fs (snd (Daemon_start Sample.os_ok Sample.echo w0)) !! pidfile Sample.echo
      = Some (Regular (py_str (Z.pos p))) /\
    fst (Daemon_pid Sample.echo (snd (Daemon_start Sample.os_ok Sample.echo w0)))
      = Ok (Z.pos p) /\
    w_out (snd (Daemon_start Sample.os_ok Sample.echo w0)) =
      (before ++ [log_line Sample.echo w0
                    [("started (PID: " ++ py_str (Z.pos p) ++ ")")%string] newline])%list.
Proof.
  intros w0.
  apply (start_success_records_and_reports Sample.os_ok Sample.echo
           (Identity None None None) w0
           (snd (Daemon_status Sample.os_ok Sample.echo w0)) 100%positive).
  - vm_compute. reflexivity.
  - vm_compute. reflexivity.
  - vm_compute. reflexivity.
  - vm_compute. reflexivity.
Defined.

(** The daemon [web] is to run as user [www], and the process may not
    change its user id. *)
Lemma start_failure_reports_and_empties_witness :
  let w0 := Sample.boot Sample.fs_empty in
  exists before,
    fst (Daemon_start Sample.os_no_setuid Sample.web w0) = Ok (PyBool true) /\
    w_out (snd (Daemon_start Sample.os_no_setuid Sample.web w0)) =
      (before ++ [log_line Sample.web w0
                    ["could not be started, check the output file eventually"]
                    newline])%list /\
    (w_fs (snd (Daemon_start Sample.os_no_setuid Sample.web w0)) !! pidfile Sample.web
       = w_fs w0 !! pidfile Sample.web \/
     w_fs (snd (Daemon_start Sample.os_no_setuid Sample.web w0)) !! pidfile Sample.web
       = Some (Regular "")).
Proof.
  intros w0.
  apply (start_failure_reports_and_empties Sample.os_no_setuid Sample.web
           (Identity (Some "/var/www") (Some 33) (Some 44)) w0
           (snd (Daemon_status Sample.os_no_setuid Sample.web w0)) 100%positive).
  - vm_compute. reflexivity.
  - vm_compute. reflexivity.
  - vm_compute. reflexivity.
  - vm_compute. discriminate.
Defined.

(** ** The signals of the operations *)

(** X4 (what [stop] does, in any environment).  Apart from reading the
    PID file, probing and sleeping, one run of [stop] performs nothing
    but signals to the PID it read: none when the reader raised or the
    PID does not fit [pid_t]; otherwise one [SIGTERM], followed, only
    when it was delivered, by at most one [SIGKILL].  No file is
    written, no process is created. *)
Theorem stop_signals_only_the_recorded_pid os config fuel d w r w' :
  Daemon_stop os config fuel d w = Some (r, w') ->
  exists X,
    obs is_action w' = (obs is_action w ++ X)%list /\
    stop_signals_are (w_flow w) (fst (Daemon_pid d w)) X.
Proof. apply stop_signals. Qed.

(** The recorded process 101 ignores [SIGTERM]. *)
Lemma stop_signals_only_the_recorded_pid_witness :
  let w := Sample.boot (Sample.fs_pid "101") in
  exists r w' X,
    Daemon_stop Sample.os_ok Sample.cfg 30 Sample.echo w = Some (r, w') /\
    obs is_action w' = (obs is_action w ++ X)%list /\
    stop_signals_are (w_flow w) (fst (Daemon_pid Sample.echo w)) X.
Proof.
  intros w.
  destruct (Daemon_stop Sample.os_ok Sample.cfg 30 Sample.echo w) as [[r w']|] eqn:E.
  - destruct (stop_signals_only_the_recorded_pid _ _ _ _ _ _ _ E) as (X&H1&H2).
    exists r, w', X. split; [reflexivity|]. split; [exact H1 | exact H2].
  - vm_compute in E. discriminate.
Defined.

(** X5 (start and status send no signal).  Whatever the environment
    answers, [start], the start command and the status command send no
    signal other than the probe with signal 0: neither the supervising
    nor the detached flow terminates a process. *)
Theorem start_and_status_send_no_signal os config fuel cmd ds w r w' :
  cmd = CmdStart \/ cmd = CmdStatus ->
  main os config fuel cmd ds w = Some (r, w') ->
  obs real_signal w' = obs real_signal w /\
  (forall d w0, obs real_signal (snd (Daemon_start os d w0)) = obs real_signal w0).
Proof.
  intros Hcmd Hmain. split.
  - destruct Hcmd as [-> | ->]; simpl in Hmain; unfold lift in Hmain;
      injection Hmain as Hmain.
    + pose proof (start_each_no_signal os ds _ w eq_refl) as H.
      rewrite Hmain in H. exact H.
    + pose proof (status_each_no_signal os ds _ w eq_refl) as H.
      rewrite Hmain in H. exact H.
  - intros d w0. exact (start_no_signal os d _ w0 eq_refl).
Qed.

Lemma start_and_status_send_no_signal_witness :
  let w := Sample.boot Sample.fs_empty in
  exists r w',
    main Sample.os_ok Sample.cfg 30 CmdStart [Sample.echo; Sample.web] w = Some (r, w') /\
    obs real_signal w' = obs real_signal w.
Proof.
  intros w.
  destruct (main Sample.os_ok Sample.cfg 30 CmdStart [Sample.echo; Sample.web] w)
    as [[r w']|] eqn:E.
  - exists r, w'. split; [reflexivity|].
    exact (proj1 (start_and_status_send_no_signal _ _ _ _ _ _ _ _ (or_introl eq_refl) E)).
  - vm_compute in E. discriminate.
Defined.

(** X6 (stop after start).  After a successful start that spawned the
    program with PID [p], a later [stop], in whatever environment,
    addresses its signals to [p] and to no other process: a [SIGTERM]
    and at most one [SIGKILL] (none at all when [p] does not fit
    [pid_t]). *)
Theorem stop_after_start_signals_the_launched os d i w0 w1 child :
  Daemon_status os d w0 = (Ok Status_Stopped, w1) ->
  fst (resolve_identity os d w1) = Ok i ->
  os_fork os (step w1) = inl child ->
  exit_code (fst (start_after_fork os d i 0 (detached_world child w1))) = 0 ->
  exists p,
    In (Detached, EPopen (prog d :: args d) (inl p)) (w_trace (snd (Daemon_start os d w0))) /\
    forall os2 config fuel r2 w2,
      Daemon_stop os2 config fuel d (snd (Daemon_start os d w0)) = Some (r2, w2) ->
      exists X,
        obs is_action w2 = (obs is_action (snd (Daemon_start os d w0)) ++ X)%list /\
        if pid_fits (Z.pos p)
        then term_then_kill (w_flow (snd (Daemon_start os d w0))) (Z.pos p) X
        else X = [].
Proof.
  intros Hst Hid Hfork Hcode. rewrite (start_forks os d i w0 w1 Hst Hid).
  destruct (fork_succeeds os d i w1 child Hfork Hcode) as (p&before&_&Hin&_&Hpid&_).
  exists p. split; [exact Hin|].
  intros os2 config fuel r2 w2 Hstop.
  destruct (stop_signals os2 config fuel d _ r2 w2 Hstop) as (X&HX&Hsig).
  exists X. split; [exact HX|]. rewrite Hpid in Hsig. exact Hsig.
Qed.

Lemma stop_after_start_signals_the_launched_witness :
  let w' := snd (Daemon_start Sample.os_ok Sample.echo (Sample.boot Sample.fs_empty)) in
  exists p,
    In (Detached, EPopen (prog Sample.echo :: args Sample.echo) (inl p)) (w_trace w') /\
    forall os2 config fuel r2 w2,
      Daemon_stop os2 config fuel Sample.echo w' = Some (r2, w2) ->
      exists X,
        obs is_action w2 = (obs is_action w' ++ X)%list /\
        if pid_fits (Z.pos p) then term_then_kill (w_flow w') (Z.pos p) X else X = [].
Proof.
  intros w'.
  apply (stop_after_start_signals_the_launched Sample.os_ok Sample.echo
           (Identity None None None) (Sample.boot Sample.fs_empty)
           (snd (Daemon_status Sample.os_ok Sample.echo (Sample.boot Sample.fs_empty)))
           100%positive).
  - vm_compute. reflexivity.
  - vm_compute. reflexivity.
  - vm_compute. reflexivity.
  - vm_compute. reflexivity.
Defined.

(** ** The stop protocol ends *)

(** X7 ([stop] ends within the timeout).  The PID file holds a
    positive PID, that of a process other than the caller, and the
    clock advances by the time slept.  Then, whatever the environment
    answers, [stop] returns once the loop has fuel for [poll_bound]
    rounds, and on the way it has slept at most [poll_bound] times,
    half a time unit each: the wait for the process to end is bounded
    by [kill_timeout]. *)
Theorem stop_ends_within_timeout os config fuel d w p :
  fst (Daemon_pid d w) = Ok p ->
  0 < p ->
  (poll_bound config < fuel)%nat ->
  exists r w' n,
    Daemon_stop os config fuel d w = Some (r, w') /\
    (n <= poll_bound config)%nat /\
    obs is_sleep w' = (obs is_sleep w ++ repeat (w_flow w, ESleep (1 # 2)) n)%list.
Proof. intros _ _. apply stop_sleeps. Qed.

(** The recorded process 101 never dies. *)
Lemma stop_ends_within_timeout_witness :
  let w := Sample.boot (Sample.fs_pid "101") in
  exists r w' n,
    Daemon_stop Sample.os_ok Sample.cfg 30 Sample.echo w = Some (r, w') /\
    (n <= poll_bound Sample.cfg)%nat /\
    obs is_sleep w' = (obs is_sleep w ++ repeat (w_flow w, ESleep (1 # 2)) n)%list.
Proof.
  intros w.
  apply (stop_ends_within_timeout Sample.os_ok Sample.cfg 30 Sample.echo w 101).
  - vm_compute. reflexivity.
  - lia.
  - vm_compute. lia.
Defined.

(** ** What the commands print *)

(** X9 (the status command).  From a world where every daemon is at the
    start of a line, the status command prints, for the daemons in
    order, one line "-  [name] started" or "-  [name] stopped"; when it
    returns, there is one line for every daemon and the exit code is 0.
    It only reads PID files and probes: the file system is unchanged
    and no other call is performed. *)
Theorem status_command_reports_each_daemon os config fuel ds w r w' :
  lines_fresh w ->
  main os config fuel CmdStatus ds w = Some (r, w') ->
  exists sts,
    Forall is_status sts /\
    w_out w' = (w_out w ++ zip_with status_line ds sts)%list /\
    (length sts <= length ds)%nat /\
    (forall code, r = Ok code -> code = 0 /\ length sts = length ds) /\
    lines_fresh w' /\
    w_fs w' = w_fs w /\
    obs is_action w' = obs is_action w.
Proof.
  intros Hw Hmain. simpl in Hmain. unfold lift in Hmain. injection Hmain as Hmain.
  destruct (status_each_spec os ds w Hw) as (sts&H1&H2&H3&H4&H5&H6&H7).
  rewrite Hmain in H2, H4, H5, H6, H7. simpl in *.
  exists sts. repeat split; try done.
  - by destruct (H4 code).
  - by destruct (H4 code).
Qed.

Lemma boot_fresh fs : lines_fresh (Sample.boot fs).
Proof. intros n. simpl. by rewrite lookup_empty. Qed.

Lemma status_command_reports_each_daemon_witness :
  let w := Sample.boot (Sample.fs_pid "101") in
  exists r w' sts,
    main Sample.os_ok Sample.cfg 30 CmdStatus [Sample.echo; Sample.web] w = Some (r, w') /\
    Forall is_status sts /\
    w_out w' = (w_out w ++ zip_with status_line [Sample.echo; Sample.web] sts)%list /\
    (forall code, r = Ok code -> code = 0 /\ length sts = 2%nat).
Proof.
  intros w.
  destruct (main Sample.os_ok Sample.cfg 30 CmdStatus [Sample.echo; Sample.web] w)
    as [[r w']|] eqn:E.
  - destruct (status_command_reports_each_daemon _ _ _ _ _ _ _ (boot_fresh _) E)
      as (sts&H1&H2&_&H4&_).
    exists r, w', sts. split; [reflexivity|]. split; [exact H1|]. split; [exact H2|].
    exact H4.
  - vm_compute in E. discriminate.
Defined.

(** The recorded process 101 dies at the ninth call. *)
Lemma stop_prints_one_line_witness :
  let w := Sample.boot (Sample.fs_pid "101") in
  exists r w' X S,
    Daemon_stop (Sample.os_dies_at 8) Sample.cfg 30 Sample.echo w = Some (r, w') /\
    w_out w' = (w_out w ++ X)%list /\
    obs real_signal w' = (obs real_signal w ++ S)%list /\
    stop_outcome Sample.echo w (fst (Daemon_pid Sample.echo w)) r X S.
Proof.
  intros w.
  destruct (Daemon_stop (Sample.os_dies_at 8) Sample.cfg 30 Sample.echo w)
    as [[r w']|] eqn:E.
  - destruct (stop_prints_one_line (Sample.os_dies_at 8) Sample.cfg 30 Sample.echo w r w')
      as (X&S&H1&H2&H3&_).
    + intros p Hp. vm_compute in Hp. injection Hp as <-. lia.
    + exact E.
    + exists r, w', X, S. split; [reflexivity|]. split; [exact H1|].
      split; [exact H2 | exact H3].
  - vm_compute in E. discriminate.
Defined.

(** ** A recorded PID that does not fit [pid_t] *)

(** X11 (an oversized PID).  When the PID that [Daemon.pid] reads from
    the PID file does not fit the C type [pid_t], [status], [start] and
    [stop] raise [OverflowError] right after reading the file: no
    signal is sent, nothing is printed, no process is created; and
    every command whose first daemon is this one raises it as well,
    before it reaches any other daemon. *)
Theorem oversized_pid_overflows os config fuel d w p w1 :
  Daemon_pid d w = (Ok p, w1) ->
  pid_fits p = false ->
  Daemon_status os d w = (Raise OverflowError, w1) /\
  Daemon_start os d w = (Raise OverflowError, w1) /\
  Daemon_stop os config fuel d w = Some (Raise OverflowError, w1) /\
  (forall cmd ds,
      main os config fuel cmd (d :: ds) w = Some (Raise OverflowError, w1)).
Proof.
  intros Hpid Hf.
  pose proof (oversized_status os d w p w1 Hpid Hf) as Hstatus.
  pose proof (oversized_stop os config fuel d w p w1 Hpid Hf) as Hstop.
  assert (Hstart : Daemon_start os d w = (Raise OverflowError, w1)).
  { unfold Daemon_start, bind. rewrite Hstatus. reflexivity. }
  split; [exact Hstatus|]. split; [exact Hstart|]. split; [exact Hstop|].
  intros [] ds; simpl; unfold lift, pbind, bind.
  - rewrite Hstatus. reflexivity.
  - rewrite Hstop. reflexivity.
  - rewrite Hstart. reflexivity.
  - rewrite Hstop. reflexivity.
Qed.

(** The PID file holds eleven nines; the reader opens it and returns
    99999999999. *)
Lemma oversized_pid_overflows_witness :
  let w := Sample.boot (Sample.fs_pid "99999999999") in
  let w1 := emit (EOpen (pidfile Sample.echo) "r" None) w in
  Daemon_status Sample.os_ok Sample.echo w = (Raise OverflowError, w1) /\
  Daemon_start Sample.os_ok Sample.echo w = (Raise OverflowError, w1) /\
  Daemon_stop Sample.os_ok Sample.cfg 30 Sample.echo w = Some (Raise OverflowError, w1) /\
  (forall cmd ds,
      main Sample.os_ok Sample.cfg 30 cmd (Sample.echo :: ds) w
        = Some (Raise OverflowError, w1)).
Proof.
  intros w w1.
  apply (oversized_pid_overflows Sample.os_ok Sample.cfg 30 Sample.echo w
           99999999999 w1).
  - vm_compute. reflexivity.
  - vm_compute. reflexivity.
Defined.

(** ** Restart *)


(** ** Paths and the construction of a daemon *)

(** X13 ([abspath]).  In a process whose working directory is an
    absolute path, [abspath] returns an absolute path whatever
    [root_dir] holds; it returns an absolute path unchanged, without
    normalising it, and so applying it twice is applying it once.
    Hence the default PID file and the default output file of a daemon
    are absolute paths, whatever its name. *)
Theorem abspath_is_absolute_and_stable config getcwd path :
  isabs getcwd = true ->
  isabs (abspath config getcwd path) = true /\
  (isabs path = true -> abspath config getcwd path = path) /\
  abspath config getcwd (abspath config getcwd path) = abspath config getcwd path /\
  (forall kw,
      (str_truthy (k_pidfile kw) = false ->
       isabs (pidfile (Daemon_init config getcwd kw)) = true) /\
      (k_stdout kw = None -> isabs (stdout (Daemon_init config getcwd kw)) = true)).
Proof.
  intros Hcwd.
  assert (Habs : forall p, isabs (abspath config getcwd p) = true)
    by (intros p; by apply abspath_isabs).
  assert (Hid : forall p, isabs p = true -> abspath config getcwd p = p)
    by (intros p Hp; unfold abspath; by rewrite Hp).
  split; [apply Habs|]. split; [apply Hid|]. split; [apply Hid, Habs|].
  intros kw. split.
  - intros Hpf. unfold Daemon_init. simpl. rewrite Hpf. apply Habs.
  - intros Hout. unfold Daemon_init. simpl. rewrite Hout. apply Habs.
Qed.

(** A relative [root_dir] is resolved in the working directory. *)
Lemma abspath_is_absolute_and_stable_witness :
  let config := MkConfig "var/../run" 10 in
  abspath config "/srv" "echo.pid" = "/srv/run/echo.pid" /\
  isabs (abspath config "/srv" "echo.pid") = true /\
  abspath config "/srv" (abspath config "/srv" "echo.pid") = abspath config "/srv" "echo.pid".
Proof.
  intros config. split; [vm_compute; reflexivity|].
  destruct (abspath_is_absolute_and_stable config "/srv" "echo.pid" eq_refl)
    as (H1&_&H3&_).
  split; [exact H1 | exact H3].
Defined.

(** X14 (the default files of a daemon).  When [root_dir] is an
    absolute, normalised path other than the root and the name of the
    daemon is a file name, a daemon constructed without a PID file has
    the PID file [root_dir/name.pid], one constructed without an output
    file has the output file [root_dir/name.out], and one constructed
    without an input file reads [/dev/null]. *)
Theorem default_files_under_root_dir config getcwd kw :
  isabs (root_dir config) = true ->
  normpath (root_dir config) = root_dir config ->
  endswith_slash (root_dir config) = false ->
  no_slash (k_name kw) ->
  (str_truthy (k_pidfile kw) = false ->
   pidfile (Daemon_init config getcwd kw)
     = (root_dir config ++ "/" ++ k_name kw ++ ".pid")%string) /\
  (k_stdout kw = None ->
   stdout (Daemon_init config getcwd kw)
     = (root_dir config ++ "/" ++ k_name kw ++ ".out")%string) /\
  (str_truthy (k_stdin kw) = false -> stdin (Daemon_init config getcwd kw) = "/dev/null").
Proof.
  intros Ha Hn He Hname.
  assert (Hfile : forall suffix,
            no_slash suffix -> (3 <= String.length suffix)%nat ->
            abspath config getcwd (k_name kw ++ suffix)
              = (root_dir config ++ "/" ++ k_name kw ++ suffix)%string).
  { intros suffix Hs Hl.
    destruct (with_suffix_is_a_name (k_name kw) suffix Hl) as (H0&H1&H2).
    apply abspath_under_root; try done. by apply no_slash_app. }
  split; [|split].
  - intros Hpf. unfold Daemon_init. simpl. rewrite Hpf. simpl.
    apply Hfile; [reflexivity | simpl; lia].
  - intros Hout. unfold Daemon_init. simpl. rewrite Hout.
    apply Hfile; [reflexivity | simpl; lia].
  - intros Hin. unfold Daemon_init. simpl. by rewrite Hin.
Qed.

Lemma default_files_under_root_dir_witness :
  pidfile (Daemon_init Sample.cfg "/srv" SamplePaths.kw_echo) = "/home/u/.nocrux/echo.pid" /\
  stdout (Daemon_init Sample.cfg "/srv" SamplePaths.kw_echo) = "/home/u/.nocrux/echo.out" /\
  stdin (Daemon_init Sample.cfg "/srv" SamplePaths.kw_echo) = "/dev/null".
Proof.
  destruct (default_files_under_root_dir Sample.cfg "/srv" SamplePaths.kw_echo)
    as (H1&H2&H3); [reflexivity | reflexivity | reflexivity | reflexivity |].
  split; [exact (H1 eq_refl)|]. split; [exact (H2 eq_refl) | exact (H3 eq_refl)].
Defined.

(** ** The registry of daemons *)

Lemma registry_web_ok : registry_ok [("web", Sample.web)].
Proof. split; [apply NoDup_singleton | by repeat constructor]. Qed.

Lemma register_daemon_keeps_registry_witness :
  let w := Sample.boot Sample.fs_empty in
  exists daemons',
    register_daemon Sample.os_ok Sample.cfg "/srv" SamplePaths.kw_echo
      [("web", Sample.web)] w = (Ok (inr daemons'), w) /\
    registry_ok daemons' /\
    registry_lookup daemons' "echo" = Some (Daemon_init Sample.cfg "/srv" SamplePaths.kw_echo).
Proof.
  intros w.
  destruct (register_daemon_keeps_registry Sample.os_ok Sample.cfg "/srv"
              SamplePaths.kw_echo [("web", Sample.web)] w registry_web_ok eq_refl)
    as (daemons'&H1&H2&H3&_).
  exists daemons'. split; [exact H1|]. split; [exact H2 | exact H3].
Defined.

(** The PID file of the daemon registered twice cannot be read. *)
Lemma duplicate_registration_queries_status_witness :
  let w := Sample.boot Sample.fs_denied in
  fst (register_daemon Sample.os_ok Sample.cfg "/srv" SamplePaths.kw_echo
         [("echo", Sample.echo)] w) = Raise (OSError EACCES).
Proof.
  intros w.
  destruct (duplicate_registration_queries_status Sample.os_ok Sample.cfg "/srv"
              SamplePaths.kw_echo [("echo", Sample.echo)] w Sample.echo eq_refl)
    as (_&_&H&_).
  apply H. vm_compute. reflexivity.
Defined.

(** ** The command line *)

Lemma registry_two_ok : registry_ok [("echo", Sample.echo); ("web", Sample.web)].
Proof.
  split; [|by repeat constructor].
  apply NoDup_cons. split; [|apply NoDup_singleton].
  intros H. apply list_elem_of_In in H. simpl in H. by destruct H as [H|[]].
Qed.

Lemma selected_targets_are_the_named_daemons_witness :
  select_targets [("echo", Sample.echo); ("web", Sample.web)] ["web"; "echo"]
    = inr [Sample.web; Sample.echo] /\
  Forall2 (fun n d => name d = n /\
                      registry_lookup [("echo", Sample.echo); ("web", Sample.web)] n = Some d)
          ["web"; "echo"] [Sample.web; Sample.echo].
Proof.
  split; [reflexivity|].
  destruct (selected_targets_are_the_named_daemons
              [("echo", Sample.echo); ("web", Sample.web)] ["web"; "echo"]
              [Sample.web; Sample.echo] registry_two_ok eq_refl) as [[H _]|[_ H]].
  - discriminate H.
  - exact H.
Defined.

Lemma usage_errors_exit_with_2_witness :
  let w := Sample.boot Sample.fs_empty in
  main_cli Sample.os_ok Sample.cfg (fun _ => ret 0) 30 (CliArgs Tail ["all"] false) true
    [("echo", Sample.echo)] w = Some (Raise (SystemExit 2), w).
Proof.
  intros w.
  apply (usage_errors_exit_with_2 Sample.os_ok Sample.cfg (fun _ => ret 0) 30
           (CliArgs Tail ["all"] false) true [("echo", Sample.echo)] w).
  split; [discriminate|]. right. right. right. split; [reflexivity | by left].
Defined.

(** ** Starts that cannot succeed *)

Section NoStart.
Variable os : os_env.
Variable config : Config.

Lemma dirname_no_slash s : no_slash s -> dirname s = "".
Proof.
  unfold no_slash, dirname. intros H.
  assert (Hu : upto_slash (rev (list_ascii_of_string s)) = []).
  { assert (Hr : forallb (fun c => negb (Ascii.eqb c slash)) (rev (list_ascii_of_string s))
                 = true).
    { rewrite forallb_forall in *. intros c Hc. apply H. by apply in_rev. }
    induction (rev (list_ascii_of_string s)) as [|c l IH]; simpl in *; [done|].
    apply andb_true_iff in Hr as [Hc Hl]. apply negb_true_iff in Hc. rewrite Hc.
    by apply IH. }
  rewrite Hu. reflexivity.
Qed.

(** X19 (a PID file without a directory).  A daemon whose PID file is a
    bare file name has the empty string as the directory to prepare;
    where the empty path does not exist and cannot be created, as on
    POSIX systems, the detached flow ends at that first step with exit
    code 1: [start] forks, asks for the empty directory, prints "could
    not be started, check the output file eventually" and returns
    [True]; no file is opened or written and no program is spawned. *)
Theorem bare_pidfile_cannot_start d i w0 w1 child :
  Daemon_status os d w0 = (Ok Status_Stopped, w1) ->
  fst (resolve_identity os d w1) = Ok i ->
  os_fork os (step w1) = inl child ->
  no_slash (pidfile d) ->
  (forall n, os_exists os n "" = false) ->
  (forall n, os_call os n (Makedirs "") = Some ENOENT) ->
  fst (Daemon_start os d w0) = Ok (PyBool true) /\
  w_trace (snd (Daemon_start os d w0)) =
    (w_trace w1 ++ [(w_flow w1, EFork (inl child));
                    (Detached, EExists "" false);
                    (Detached, ECall (Makedirs "") (Some ENOENT));
                    (Detached, EExit 1);
                    (w_flow w1, EWaitpid (Z.pos child) 256)])%list /\
  w_fs (snd (Daemon_start os d w0)) = w_fs w0 /\
  w_out (snd (Daemon_start os d w0)) =
    (w_out w0 ++ [log_line d w0 ["could not be started, check the output file eventually"]
                    newline])%list.
Proof.
  intros Hst Hid Hfork Hbare Hex Hmk.
  rewrite (start_forks os d i w0 w1 Hst Hid), (fork_then_child os _ w1 child Hfork).
  assert (Hchild : start_after_fork os d i 0 (detached_world child w1) =
                   (Raise (OSError ENOENT),
                    emit (ECall (Makedirs "") (Some ENOENT))
                      (emit (EExists "" false) (detached_world child w1)))).
  { unfold start_after_fork. change (0 >? 0) with false. cbv iota zeta.
    rewrite (dirname_no_slash _ Hbare). unfold bind at 1. unfold makedirs at 1.
    rewrite Hex. simpl negb. cbv iota. unfold sys. rewrite Hmk. reflexivity. }
  rewrite Hchild. simpl fst. simpl snd.
  unfold start_after_fork. change (Z.pos child >? 0) with true. cbv iota.
  unfold bind, waitpid. simpl. rewrite lookup_insert_eq. simpl.
  pose proof (status_fs os (w_fs w0) d w0 eq_refl) as Hf. rewrite Hst in Hf.
  unfold fs_is in Hf. simpl in Hf.
  pose proof (status_said os (w_out w0) (w_log_newline w0) d w0 (conj eq_refl eq_refl))
    as Hs.
  rewrite Hst in Hs. destruct Hs as [Hout Hnl]. simpl in Hout, Hnl.
  split; [reflexivity|]. split; [by rewrite <- !app_assoc|]. split; [exact Hf|].
  unfold log_line. rewrite Hout, Hnl. reflexivity.
Qed.

(** X20 (an unknown user or group).  When the user name of a stopped
    daemon is not in the password database, or its group name not in
    the group database, [start] raises [KeyError] after the status
    query, with the message of the failed look-up: nothing is forked
    and nothing is printed; and the start command that meets this
    daemon first ends with that error, without starting any of the
    daemons that follow. *)
Theorem unknown_identity_aborts_start fuel d ds w0 w1 :
  Daemon_status os d w0 = (Ok Status_Stopped, w1) ->
  (str_truthy (user d) = true /\ os_getpwnam os (default "" (user d)) = None) \/
  ((str_truthy (user d) = false \/ is_Some (os_getpwnam os (default "" (user d)))) /\
   str_truthy (group d) = true /\ os_getgrnam os (default "" (group d)) = None) ->
  exists key,
    (key = ("getpwnam(): name not found: " ++ py_repr os (user d))%string \/
     key = ("getgrnam(): name not found: " ++ py_repr os (group d))%string) /\
    Daemon_start os d w0 = (Raise (KeyError key), w1) /\
    main os config fuel CmdStart (d :: ds) w0 = Some (Raise (KeyError key), w1).
Proof.
  intros Hst Hid.
  assert (Hres : exists key,
             (key = ("getpwnam(): name not found: " ++ py_repr os (user d))%string \/
              key = ("getgrnam(): name not found: " ++ py_repr os (group d))%string) /\
             resolve_identity os d w1 = (Raise (KeyError key), w1)).
  { unfold resolve_identity, bind, ret, raise.
    destruct Hid as [[Hu Hpw]|([Hu|[record Hpw]]&Hg&Hgr)].
    - rewrite Hu, Hpw. eauto.
    - rewrite Hu, Hg, Hgr. eauto.
    - rewrite Hpw, Hg, Hgr. destruct (str_truthy (user d)); eauto. }
  destruct Hres as (key&Hkey&Hres). exists key. split; [exact Hkey|].
  assert (Hstart : Daemon_start os d w0 = (Raise (KeyError key), w1)).
  { unfold Daemon_start, bind. rewrite Hst. cbv beta iota.
    change (String.eqb Status_Stopped Status_Started) with false. cbv beta iota.
    rewrite Hres. reflexivity. }
  split; [exact Hstart|]. simpl. unfold lift, bind. rewrite Hstart. reflexivity.
Qed.

End NoStart.

(** The daemon keeps its PID in [echo.pid], in the working directory. *)
Lemma bare_pidfile_cannot_start_witness :
  let os := OsEnv (fun _ c => match c with Makedirs "" => Some ENOENT | _ => None end)
                  (fun _ p => negb (String.eqb p "")) (fun _ => inl 100%positive)
                  (fun _ _ => inl (Pid 101 eq_refl)) (fun _ => None) (fun _ => None)
                  (Some "/home/u") (fun _ p => p) Sample.repr in
  let d := MkDaemon "echo" "/bin/sleep" ["5"] None None None
                    "/dev/null" "/home/u/.nocrux/echo.out" None "echo.pid" in
  let w0 := Sample.boot Sample.fs_empty in
  fst (Daemon_start os d w0) = Ok (PyBool true) /\
  w_fs (snd (Daemon_start os d w0)) = w_fs w0 /\
  w_out (snd (Daemon_start os d w0)) =
    [("-  [echo] could not be started, check the output file eventually" ++ newline)%string].
Proof.
  intros os d w0.
  destruct (bare_pidfile_cannot_start os d (Identity None None None) w0
              (snd (Daemon_status os d w0)) 100%positive)
    as (H1&_&H3&H4).
  - vm_compute. reflexivity.
  - vm_compute. reflexivity.
  - vm_compute. reflexivity.
  - reflexivity.
  - intros n. reflexivity.
  - intros n. reflexivity.
  - split; [exact H1|]. split; [exact H3 | exact H4].
Defined.

(** The user [nobody] is not known. *)
Lemma unknown_identity_aborts_start_witness :
  let d := MkDaemon "web" "/usr/bin/httpd" [] None (Some "nobody") None
                    "/dev/null" "/home/u/.nocrux/web.out" None "/home/u/.nocrux/web.pid" in
  let w0 := Sample.boot Sample.fs_empty in
  exists key,
    (key = "getpwnam(): name not found: 'nobody'" \/
     key = "getgrnam(): name not found: None") /\
    Daemon_start Sample.os_ids d w0
      = (Raise (KeyError key), snd (Daemon_status Sample.os_ids d w0)) /\
    main Sample.os_ids Sample.cfg 30 CmdStart [d; Sample.echo] w0
      = Some (Raise (KeyError key), snd (Daemon_status Sample.os_ids d w0)).
Proof.
  intros d w0.
  apply (unknown_identity_aborts_start Sample.os_ids Sample.cfg 30 d [Sample.echo] w0
           (snd (Daemon_status Sample.os_ids d w0))).
  - vm_compute. reflexivity.
  - left. split; reflexivity.
Defined.
